(** * productChurn-IPFS: the list-processing core of the IPFS model service

    A shallow embedding of [src/services/ipfs.js] (the Pinata client:
    fetch with gateway fallback, paginated listing, identifier validation)
    and of the Express routes that consume it (record classification,
    sorting, statistics), followed by the properties the specification
    states about them.

    Conventions.
    - A JavaScript number is a [number]: NaN, the two infinities, or a finite
      value carried as an exact rational; a literal such as [0.9] is [9/10].
      Only comparisons and the sign of a difference decide the properties
      below, so the rounding of IEEE doubles is not modelled.
    - A property that is absent ([undefined]) or [null] is [None].
    - Network calls run in a small monad [M] that logs every requested URL
      and answers the k-th request with the k-th scripted reply. *)

From Stdlib Require Import QArith ZArith List String Ascii Lia Lqa Permutation Sorted DecimalString.
From stdpp Require Import gmap strings list.

(** ** JavaScript numbers *)

Module Number.

Inductive number : Type :=
  | NaN
  | NegInf
  | Fin (q : Q)
  | PosInf.

Definition of_Z (z : Z) : number := Fin (inject_Z z).
Definition of_nat (n : nat) : number := of_Z (Z.of_nat n).

Definition Qlt_bool (x y : Q) : bool := negb (Qle_bool y x).

(** [a < b]; false as soon as one side is NaN. *)
Definition ltb (a b : number) : bool :=
  match a, b with
  | NaN, _ | _, NaN => false
  | NegInf, NegInf => false
  | NegInf, _ => true
  | _, NegInf => false
  | PosInf, _ => false
  | Fin _, PosInf => true
  | Fin x, Fin y => Qlt_bool x y
  end.

(** [a <= b]; false as soon as one side is NaN. *)
Definition leb (a b : number) : bool :=
  match a, b with
  | NaN, _ | _, NaN => false
  | NegInf, _ => true
  | _, NegInf => false
  | _, PosInf => true
  | PosInf, _ => false
  | Fin x, Fin y => Qle_bool x y
  end.

Definition gtb (a b : number) : bool := ltb b a.
Definition geb (a b : number) : bool := leb b a.

Definition opp (a : number) : number :=
  match a with
  | NaN => NaN
  | NegInf => PosInf
  | Fin q => Fin (- q)
  | PosInf => NegInf
  end.

Definition add (a b : number) : number :=
  match a, b with
  | NaN, _ | _, NaN => NaN
  | PosInf, NegInf | NegInf, PosInf => NaN
  | PosInf, _ | _, PosInf => PosInf
  | NegInf, _ | _, NegInf => NegInf
  | Fin x, Fin y => Fin (x + y)
  end.

Definition sub (a b : number) : number := add a (opp b).

(** Division; a zero divisor is taken as [+0]. *)
Definition div (a b : number) : number :=
  match a, b with
  | NaN, _ | _, NaN => NaN
  | Fin x, Fin y =>
      if Qeq_bool y 0 then
        if Qeq_bool x 0 then NaN
        else if Qle_bool 0 x then PosInf else NegInf
      else Fin (x / y)
  | Fin _, _ => Fin 0
  | _, Fin y =>
      if Qle_bool 0 y then a else opp a
  | _, _ => NaN
  end.

Definition is_nan (a : number) : bool :=
  match a with NaN => true | _ => false end.

(** [a > 0]: how [Array.prototype.sort] reads a comparator result that asks
    for a swap; a NaN result is read as [+0] and asks for none. *)
Definition is_pos (a : number) : bool := ltb (Fin 0) a.

End Number.

Export Number.

Declare Scope number_scope.
Delimit Scope number_scope with num.
Bind Scope number_scope with number.
Infix "<?" := ltb : number_scope.
Infix "<=?" := leb : number_scope.
Infix ">?" := gtb : number_scope.
Infix ">=?" := geb : number_scope.
Infix "+" := add : number_scope.
Infix "-" := sub : number_scope.
Infix "/" := div : number_scope.
Notation "- x" := (opp x) : number_scope.

(** ** Strings *)

Module Str.

(** [strip_prefix pre s] is the rest of [s] after its prefix [pre]. *)
Fixpoint strip_prefix (pre s : string) : option string :=
  match pre, s with
  | EmptyString, _ => Some s
  | String a p, String b t => if Ascii.eqb a b then strip_prefix p t else None
  | String _ _, EmptyString => None
  end.

Definition startsWith (s pre : string) : bool :=
  match strip_prefix pre s with Some _ => true | None => false end.

(** [String.prototype.includes]: [sub] occurs somewhere in [s]. *)
Fixpoint includes (s sub : string) : bool :=
  startsWith s sub ||
  match s with
  | EmptyString => false
  | String _ t => includes t sub
  end.

Fixpoint forallb_string (p : ascii -> bool) (s : string) : bool :=
  match s with
  | EmptyString => true
  | String c t => p c && forallb_string p t
  end.

Definition string_of_nat (n : nat) : string :=
  NilZero.string_of_uint (Nat.to_uint n).

End Str.

Export Str.

(** ** The JavaScript runtime

    Library functions the code calls and this development does not unfold.
    Every theorem below holds for every such runtime. *)

Class Runtime : Type := {
  json : Type;                          (* a parsed JSON document *)
  JSON_stringify : json -> string;
  JSON_parse : string -> option json;   (* None when JSON.parse throws *)
  parseFloat : string -> number;        (* parseFloat on a string *)
  Date_parse : string -> number;        (* time value of new Date(s) in ms, NaN when invalid *)
  toFixed4 : number -> string;          (* x.toFixed(4) *)
  format_scaled : number -> string;     (* the text formatBytes builds for a non-zero size *)
  localeCompare : string -> string -> number;   (* a.localeCompare(b) *)
  now_iso : string                      (* new Date().toISOString() *)
}.

(** ** Data model *)

(** Pinata's [metadata] object of a pin. *)
Record pin_metadata : Type := {
  md_name : option string;
  md_keyvalues : option (gmap string string)
}.

(** [{}] *)
Definition empty_metadata : pin_metadata :=
  {| md_name := None; md_keyvalues := None |}.

(** A row of [response.data.rows] as the provider sends it. *)
Record pin_row : Type := {
  pr_ipfs_pin_hash : string;
  pr_size : number;
  pr_date_pinned : string;
  pr_metadata : option pin_metadata
}.

(** A file object as the service hands it to the routes.  The record lists
    every property either side reads or writes; a property the object does
    not have is [None]. *)
Record file : Type := {
  ipfs_pin_hash : option string;
  ipfsHash : option string;
  name : option string;
  size : number;
  date_pinned : option string;
  timestamp : option string;
  metadata : option pin_metadata;
  status : option string
}.

(** A JavaScript [Error]: [error.message] and [error.response.data.error]. *)
Record error : Type := {
  message : string;
  response_error : option string
}.

Definition Error (msg : string) : error :=
  {| message := msg; response_error := None |}.

(** ** Network monad *)

Module Net.
Section Net.
Context `{Runtime}.

(** An HTTP response: the body as a document, and its [rows] property
    when the body is a pin list. *)
Record response : Type := {
  data : json;
  data_rows : option (list pin_row)
}.

Inductive reply : Type :=
  | Responds (r : response)
  | Fails (e : error).

(** The remote side: the reply to the k-th request issued. *)
Definition script : Type := nat -> reply.

Inductive outcome (A : Type) : Type :=
  | Return (a : A)
  | Throw (e : error)
  | OutOfFuel.
#[global] Arguments Return {A} a.
#[global] Arguments Throw {A} e.
#[global] Arguments OutOfFuel {A}.

(** A computation reads the script and extends the log of requested URLs. *)
Definition M (A : Type) : Type :=
  script -> list string -> list string * outcome A.

Definition ret {A} (a : A) : M A := fun _ lg => (lg, Return a).

Definition throw {A} (e : error) : M A := fun _ lg => (lg, Throw e).

Definition out_of_fuel {A} : M A := fun _ lg => (lg, OutOfFuel).

Definition bind {A B} (c : M A) (k : A -> M B) : M B :=
  fun sc lg =>
    match c sc lg with
    | (lg', Return a) => k a sc lg'
    | (lg', Throw e) => (lg', Throw e)
    | (lg', OutOfFuel) => (lg', OutOfFuel)
    end.

(** [try { c } catch (e) { h e }] *)
Definition try_catch {A} (c : M A) (h : error -> M A) : M A :=
  fun sc lg =>
    match c sc lg with
    | (lg', Throw e) => h e sc lg'
    | r => r
    end.

(** [await axios.get(url, ...)] *)
Definition axios_get (url : string) : M response :=
  fun sc lg =>
    (lg ++ [url],
       match sc (length lg) with
       | Responds r => Return r
       | Fails e => Throw e
       end).

(** Run a computation from an empty log. *)
Definition run {A} (c : M A) (sc : script) : list string * outcome A :=
  c sc [].

End Net.
End Net.

Export Net.

Notation "x <- c ;; k" := (bind c (fun x => k))
  (at level 100, c at next level, right associativity).

(** ** [src/services/ipfs.js]: class [IPFSService] *)

Module IPFSService.
Section IPFSService.
Context `{Runtime}.

Definition baseURL : string := "https://api.pinata.cloud".

(** [getFromIPFS(ipfsHash)]: three nested [try]/[catch] blocks, one gateway
    each. *)
Definition getFromIPFS (ipfsHash : string) : M string :=
  try_catch
    (response <- axios_get ("https://gateway.pinata.cloud/ipfs/" +:+ ipfsHash);;
     ret (JSON_stringify (data response)))
    (fun error =>
       try_catch
         (response <- axios_get ("https://ipfs.io/ipfs/" +:+ ipfsHash);;
          ret (JSON_stringify (data response)))
         (fun fallbackError =>
            try_catch
              (response <- axios_get ("https://cloudflare-ipfs.com/ipfs/" +:+ ipfsHash);;
               ret (JSON_stringify (data response)))
              (fun finalError =>
                 throw (Error ("Failed to fetch from IPFS: " +:+ message finalError))))).

(** [const pageLimit = 100; // Pinata's max per page] *)
Definition pageLimit : nat := 100.

(** The URL of one page request. *)
Definition pinListUrl (status : string) (pageOffset : nat) : string :=
  let url := baseURL +:+ "/data/pinList?pageLimit=" +:+ string_of_nat pageLimit
                     +:+ "&pageOffset=" +:+ string_of_nat pageOffset in
  if String.eqb status "all" then url else url +:+ "&status=" +:+ status.

(** The [while (true)] loop of [listPinnedFiles]; [fuel] bounds the number
    of iterations. *)
Fixpoint pinListLoop (fuel : nat) (limit : number) (status : string)
    (allFiles : list pin_row) (pageOffset : nat) : M (list pin_row) :=
  match fuel with
  | O => out_of_fuel
  | S fuel' =>
      response <- axios_get (pinListUrl status pageOffset);;
      match data_rows response with
      | None | Some [] => ret allFiles
      | Some rows =>
          let allFiles := allFiles ++ rows in
          let pageOffset := (pageOffset + pageLimit)%nat in
          if (of_nat (length allFiles) >=? limit)%num
             || (length rows <? pageLimit)%nat
          then ret allFiles
          else pinListLoop fuel' limit status allFiles pageOffset
      end
  end.

(** The object [listPinnedFiles] builds for one row. *)
Definition pinned_file (f : pin_row) : file :=
  {| ipfs_pin_hash := Some (pr_ipfs_pin_hash f);
     ipfsHash := None;
     name := match pr_metadata f with
             | Some md => md_name md
             | None => Some ("file-" +:+ String.substring 0 8 (pr_ipfs_pin_hash f))
             end;
     size := pr_size f;
     date_pinned := Some (pr_date_pinned f);
     timestamp := None;
     metadata := Some (match pr_metadata f with
                       | Some md => md
                       | None => empty_metadata
                       end);
     status := Some "pinned" |}.

(** What [listPinnedFiles] returns: [{success: true, count, rows, timestamp}]
    or [{success: false, error, message, timestamp}]. *)
Inductive list_result : Type :=
  | ListOk (count : nat) (rows : list file) (timestamp : string)
  | ListFailed (error message timestamp : string).

Definition success (r : list_result) : bool :=
  match r with ListOk _ _ _ => true | ListFailed _ _ _ => false end.

(** [pinnedFiles.rows]; absent on a failure. *)
Definition result_rows (r : list_result) : list file :=
  match r with ListOk _ rows _ => rows | ListFailed _ _ _ => [] end.

(** [error.response?.data?.error || error.message] *)
Definition error_text (e : error) : string :=
  match response_error e with
  | Some s => if String.eqb s "" then message e else s
  | None => message e
  end.

(** [listPinnedFiles(limit = 1000, status = 'all')] *)
Definition listPinnedFiles (fuel : nat) (limit : number) (status : string)
    : M list_result :=
  try_catch
    (allFiles <- pinListLoop fuel limit status [] 0;;
     ret (ListOk (length allFiles) (map pinned_file allFiles) now_iso))
    (fun error =>
       ret (ListFailed (error_text error) "Failed to list pinned files" now_iso)).

Definition default_limit : number := of_Z 1000.
Definition default_status : string := "all".

(** The [data] object of a found pin in [getPinStatus]. *)
Record pin_info : Type := {
  pi_ipfsHash : string;
  pi_name : option string;
  pi_size : number;
  pi_timestamp : string;
  pi_status : string
}.

(** What [getPinStatus] returns. *)
Inductive pin_status : Type :=
  | PinFound (info : pin_info) (timestamp : string)
  | PinNotFound (message timestamp : string)
  | PinStatusFailed (error message timestamp : string).

(** [pinStatus.pinned] *)
Definition pinned (s : pin_status) : option bool :=
  match s with
  | PinFound _ _ => Some true
  | PinNotFound _ _ => Some false
  | PinStatusFailed _ _ _ => None
  end.

(** [pinStatus.data] *)
Definition pin_data (s : pin_status) : option pin_info :=
  match s with
  | PinFound info _ => Some info
  | _ => None
  end.

(** [getPinStatus(ipfsHash)]; reading a property of [undefined] throws a
    [TypeError], which the [catch] block turns into a failure result. *)
Definition getPinStatus (ipfsHash : string) : M pin_status :=
  try_catch
    (response <- axios_get (baseURL +:+ "/data/pinList?hashContains=" +:+ ipfsHash);;
     match data_rows response with
     | None => throw (Error "Cannot read properties of undefined (reading 'find')")
     | Some rows =>
         match List.find (fun row => String.eqb (pr_ipfs_pin_hash row) ipfsHash) rows with
         | Some pin =>
             match pr_metadata pin with
             | None => throw (Error "Cannot read properties of undefined (reading 'name')")
             | Some md =>
                 ret (PinFound {| pi_ipfsHash := pr_ipfs_pin_hash pin;
                                  pi_name := md_name md;
                                  pi_size := pr_size pin;
                                  pi_timestamp := pr_date_pinned pin;
                                  pi_status := "pinned" |} now_iso)
             end
         | None => ret (PinNotFound "File not found in pin list" now_iso)
         end
     end)
    (fun error =>
       ret (PinStatusFailed (error_text error) "Failed to get pin status" now_iso)).

(** [getGateways(ipfsHash)], as the list of its four entries. *)
Definition getGateways (ipfsHash : string) : list (string * string) :=
  [ ("pinata", "https://gateway.pinata.cloud/ipfs/" +:+ ipfsHash);
    ("ipfsIo", "https://ipfs.io/ipfs/" +:+ ipfsHash);
    ("cloudflare", "https://cloudflare-ipfs.com/ipfs/" +:+ ipfsHash);
    ("dweb", "https://dweb.link/ipfs/" +:+ ipfsHash) ].

(** The character class [[1-9A-HJ-NP-Za-km-z]]. *)
Definition class_base58 (c : ascii) : bool :=
  let n := nat_of_ascii c in
  ((49 <=? n) && (n <=? 57)
   || (65 <=? n) && (n <=? 72)
   || (74 <=? n) && (n <=? 78)
   || (80 <=? n) && (n <=? 90)
   || (97 <=? n) && (n <=? 107)
   || (109 <=? n) && (n <=? 122))%nat.

(** [/^<pre>[1-9A-HJ-NP-Za-km-z]{n}$/.test(hash)] *)
Definition regex_test (pre : string) (n : nat) (hash : string) : bool :=
  match strip_prefix pre hash with
  | Some rest => forallb_string class_base58 rest && (String.length rest =? n)%nat
  | None => false
  end.

(** [isValidIPFSHash(hash)] *)
Definition isValidIPFSHash (hash : string) : bool :=
  regex_test "Qm" 44 hash || regex_test "bafy" 52 hash.

End IPFSService.
End IPFSService.

Export IPFSService.

(** ** The listing of [src/unnamed/part_000]

    An earlier [listPinnedFiles] of the same service: one request, no
    pagination, and rows that carry [ipfsHash] and [timestamp]. *)

Module Part000.
Section Part000.
Context `{Runtime}.

Definition pinned_file (f : pin_row) : option file :=
  match pr_metadata f with
  | Some md =>
      Some {| ipfs_pin_hash := None;
              ipfsHash := Some (pr_ipfs_pin_hash f);
              name := md_name md;
              size := pr_size f;
              date_pinned := None;
              timestamp := Some (pr_date_pinned f);
              metadata := Some md;
              status := None |}
  | None => None  (* file.metadata.name throws *)
  end.

End Part000.
End Part000.

(** ** [Array.prototype.sort]

    The comparator returns a number, or throws ([None]); a NaN result counts
    as [+0].  The algorithm is left to the engine; this is a stable insertion
    sort, which is what every engine returns when the comparator orders the
    elements consistently. *)

Module JSArray.
Section JSArray.
Context {A : Type} (comparefn : A -> A -> option number).

Fixpoint insert_sorted (x : A) (l : list A) : option (list A) :=
  match l with
  | [] => Some [x]
  | y :: t =>
      match comparefn x y with
      | None => None
      | Some c =>
          if is_pos c
          then match insert_sorted x t with
               | Some t' => Some (y :: t')
               | None => None
               end
          else Some (x :: y :: t)
      end
  end.

Fixpoint sort (l : list A) : option (list A) :=
  match l with
  | [] => Some []
  | x :: t =>
      match sort t with
      | Some s => insert_sorted x s
      | None => None
      end
  end.

End JSArray.
End JSArray.

(** ** The Express routes (the server sources inside [src/scripts/test-ipfs.js]) *)

Module Server.
Section Server.
Context `{Runtime}.

(** [file.metadata?.keyvalues?.[key]] *)
Definition keyvalue (f : file) (key : string) : option string :=
  match metadata f with
  | Some md =>
      match md_keyvalues md with
      | Some kv => kv !! key
      | None => None
      end
  | None => None
  end.

(** [file.name?.includes(sub)], read as a condition *)
Definition name_includes (f : file) (sub : string) : bool :=
  match name f with
  | Some n => includes n sub
  | None => false
  end.

(** [o === s] for a property that may be absent *)
Definition is_string (o : option string) (s : string) : bool :=
  match o with
  | Some v => String.eqb v s
  | None => false
  end.

(** The argument [localeCompare] receives for a name that may be absent:
    [undefined] is converted to the string ["undefined"]. *)
Definition or_undefined (o : option string) : string :=
  match o with
  | Some v => v
  | None => "undefined"
  end.

(** [o || d] for a string property *)
Definition or_default (o : option string) (d : string) : string :=
  match o with
  | Some v => if String.eqb v "" then d else v
  | None => d
  end.

(** The filter of [GET /api/ml/list-models]. *)
Definition list_models_filter (f : file) : bool :=
  is_string (keyvalue f "type") "ml-model"
  || is_string (keyvalue f "modelType") "temporal_fusion_transformer"
  || name_includes f "model"
  || name_includes f "tft".

(** The filter of [GET /api/ml/search-models]. *)
Definition search_models_filter (f : file) : bool :=
  is_string (keyvalue f "type") "ml-model"
  || is_string (keyvalue f "modelType") "temporal_fusion_transformer"
  || name_includes f "model".

(** The filter of [GET /api/ml/statistics]. *)
Definition statistics_filter (f : file) : bool :=
  is_string (keyvalue f "type") "ml-model"
  || is_string (keyvalue f "modelType") "temporal_fusion_transformer"
  || name_includes f "model".

(** [parseFloat(file.metadata?.keyvalues?.accuracy || 0)]: an absent or
    empty tag gives [parseFloat(0)], which is [0]. *)
Definition file_accuracy (f : file) : number :=
  match keyvalue f "accuracy" with
  | Some s => if String.eqb s "" then Fin 0 else parseFloat s
  | None => Fin 0
  end.

(** [file.metadata?.keyvalues?.modelType || 'unknown'] *)
Definition file_modelType (f : file) : string :=
  or_default (keyvalue f "modelType") "unknown".

(** [formatBytes(bytes)] with the default [decimals = 2] *)
Definition formatBytes (bytes : number) : string :=
  match bytes with
  | Fin q => if Qeq_bool q 0 then "0 Bytes" else format_scaled bytes
  | _ => format_scaled bytes
  end.

(** The object the [map] of [GET /api/ml/list-models] builds ([ipfsUrl],
    [publicUrl] and [gateways] are strings derived from [ipfsHash]). *)
Record model : Type := {
  m_ipfsHash : option string;          (* modelId and ipfsHash *)
  m_name : option string;
  m_modelType : string;
  m_version : string;
  m_accuracy : number;
  m_size : number;
  m_sizeFormatted : string;
  m_uploadedAt : option string;
  m_metadata : gmap string string
}.

Definition to_model (f : file) : model :=
  {| m_ipfsHash := ipfsHash f;
     m_name := name f;
     m_modelType := file_modelType f;
     m_version := or_default (keyvalue f "version") "1.0.0";
     m_accuracy := file_accuracy f;
     m_size := size f;
     m_sizeFormatted := formatBytes (size f);
     m_uploadedAt := timestamp f;
     m_metadata := match metadata f with
                   | Some md => match md_keyvalues md with Some kv => kv | None => ∅ end
                   | None => ∅
                   end |}.

(** Time value of [new Date(x)] for a property that may be absent. *)
Definition date_value (x : option string) : number :=
  match x with
  | Some s => Date_parse s
  | None => NaN
  end.

(** The comparator of [sortModels]. *)
Definition sortModels_compare (sortBy order : string) (a b : model) : option number :=
  let comparison :=
    if String.eqb sortBy "date" then
      Some (date_value (m_uploadedAt b) - date_value (m_uploadedAt a))%num
    else if String.eqb sortBy "name" then
      match m_name a with
      | Some an => Some (localeCompare an (or_undefined (m_name b)))
      | None => None
      end
    else if String.eqb sortBy "accuracy" then
      Some (m_accuracy b - m_accuracy a)%num
    else if String.eqb sortBy "size" then
      Some (m_size b - m_size a)%num
    else
      Some (date_value (m_uploadedAt b) - date_value (m_uploadedAt a))%num in
  match comparison with
  | Some c => Some (if String.eqb order "asc" then (- c)%num else c)
  | None => None
  end.

(** [sortModels(models, sortBy, order)]; [None] when the comparator throws. *)
Definition sortModels (models : list model) (sortBy order : string)
    : option (list model) :=
  JSArray.sort (sortModels_compare sortBy order) models.

(** *** [GET /api/ml/statistics] *)

Record accuracy_distribution : Type := {
  high : nat;      (* > 0.9 *)
  medium : nat;    (* 0.7 - 0.9 *)
  low : nat        (* < 0.7 *)
}.

Record recent_uploads : Type := {
  last24h : nat;
  last7d : nat;
  last30d : nat
}.

Record best_model : Type := {
  bm_name : option string;
  bm_ipfsHash : option string;
  bm_accuracy : number;
  bm_modelType : string
}.

Record latest_model : Type := {
  lm_name : option string;
  lm_ipfsHash : option string;
  lm_uploadedAt : option string;
  lm_modelType : string
}.

(** [averageAccuracy] is the number [0] or the string [toFixed(4)] returns. *)
Inductive average : Type :=
  | AverageNumber (n : number)
  | AverageText (s : string).

Record stats : Type := {
  totalModels : nat;
  totalStorage : number;
  totalStorageFormatted : string;
  modelsByType : gmap string nat;
  accuracyDistribution : accuracy_distribution;
  recentUploads : recent_uploads;
  averageAccuracy : average;
  bestModel : option best_model;
  latestModel : option latest_model
}.

(** The variables the [forEach] callback updates: the three counters
    objects inside [stats] and the four [let] bindings around the loop. *)
Record tally : Type := {
  t_modelsByType : gmap string nat;
  t_distribution : accuracy_distribution;
  t_recent : recent_uploads;
  totalAccuracy : number;
  validAccuracyCount : nat;
  bestAccuracy : number;
  t_bestModel : option best_model
}.

Definition tally_init : tally :=
  {| t_modelsByType := ∅;
     t_distribution := {| high := 0; medium := 0; low := 0 |};
     t_recent := {| last24h := 0; last7d := 0; last30d := 0 |};
     totalAccuracy := Fin 0;
     validAccuracyCount := 0;
     bestAccuracy := Fin 0;
     t_bestModel := None |}.

(** [models.reduce((sum, m) => sum + m.size, 0)] *)
Definition total_size (models : list file) : number :=
  fold_left (fun sum m => (sum + size m)%num) models (Fin 0).

(** The branch [if (accuracy > 0.9) ... else if (accuracy >= 0.7) ... else ...] *)
Definition count_bucket (accuracy : number) (d : accuracy_distribution)
    : accuracy_distribution :=
  if (accuracy >? Fin (9 # 10))%num then
    {| high := S (high d); medium := medium d; low := low d |}
  else if (accuracy >=? Fin (7 # 10))%num then
    {| high := high d; medium := S (medium d); low := low d |}
  else
    {| high := high d; medium := medium d; low := S (low d) |}.

(** The three independent [if (hoursDiff <= ...)] statements. *)
Definition count_recent (hoursDiff : number) (r : recent_uploads) : recent_uploads :=
  {| last24h := if (hoursDiff <=? of_Z 24)%num then S (last24h r) else last24h r;
     last7d := if (hoursDiff <=? of_Z 168)%num then S (last7d r) else last7d r;
     last30d := if (hoursDiff <=? of_Z 720)%num then S (last30d r) else last30d r |}.

(** [(now - uploadDate) / (1000 * 60 * 60)] *)
Definition hours_since (now : Z) (f : file) : number :=
  ((of_Z now - date_value (timestamp f)) / of_Z (1000 * 60 * 60))%num.

(** The callback of [models.forEach]. *)
Definition visit (now : Z) (t : tally) (f : file) : tally :=
  let modelType := file_modelType f in
  let byType :=
    <[modelType := S (default 0 (t_modelsByType t !! modelType))]> (t_modelsByType t) in
  let accuracy := file_accuracy f in
  let valid := (accuracy >? Fin 0)%num in
  let better := valid && (accuracy >? bestAccuracy t)%num in
  {| t_modelsByType := byType;
     t_distribution :=
       if valid then count_bucket accuracy (t_distribution t) else t_distribution t;
     t_recent := count_recent (hours_since now f) (t_recent t);
     totalAccuracy := if valid then (totalAccuracy t + accuracy)%num else totalAccuracy t;
     validAccuracyCount :=
       if valid then S (validAccuracyCount t) else validAccuracyCount t;
     bestAccuracy := if better then accuracy else bestAccuracy t;
     t_bestModel :=
       if better then
         Some {| bm_name := name f;
                 bm_ipfsHash := ipfsHash f;
                 bm_accuracy := accuracy;
                 bm_modelType := modelType |}
       else t_bestModel t |}.

(** [models.sort((a, b) => new Date(b.timestamp) - new Date(a.timestamp))[0]] *)
Definition latest_file (models : list file) : option file :=
  match JSArray.sort
          (fun a b => Some (date_value (timestamp b) - date_value (timestamp a))%num)
          models with
  | Some (latestFile :: _) => Some latestFile
  | _ => None
  end.

(** The [stats] object the route sends for the filtered [models]. *)
Definition compute_stats (now : Z) (models : list file) : stats :=
  let t := fold_left (visit now) models tally_init in
  {| totalModels := length models;
     totalStorage := total_size models;
     totalStorageFormatted := formatBytes (total_size models);
     modelsByType := t_modelsByType t;
     accuracyDistribution := t_distribution t;
     recentUploads := t_recent t;
     averageAccuracy :=
       if (0 <? validAccuracyCount t)%nat
       then AverageText (toFixed4 (totalAccuracy t / of_nat (validAccuracyCount t))%num)
       else AverageNumber (Fin 0);
     bestModel := t_bestModel t;
     latestModel :=
       match latest_file models with
       | Some latestFile =>
           Some {| lm_name := name latestFile;
                   lm_ipfsHash := ipfsHash latestFile;
                   lm_uploadedAt := timestamp latestFile;
                   lm_modelType := file_modelType latestFile |}
       | None => None
       end |}.

(** What a route sends with [res.status(code).json(...)]. *)
Inductive body (A : Type) : Type :=
  | SuccessBody (payload : A) (timestamp : option string)
  | ErrorBody (error : string).
#[global] Arguments SuccessBody {A} payload timestamp.
#[global] Arguments ErrorBody {A} error.

Record http (A : Type) : Type := {
  code : nat;
  sent : body A
}.
#[global] Arguments code {A} h.
#[global] Arguments sent {A} h.

(** The handler of [GET /api/ml/statistics]; [now] is the reading of
    [new Date()]. *)
Definition statistics_route (fuel : nat) (now : Z) : M (http stats) :=
  try_catch
    (pinnedFiles <- listPinnedFiles fuel (of_Z 1000) default_status;;
     if negb (success pinnedFiles) then
       ret {| code := 500; sent := ErrorBody "Failed to retrieve statistics" |}
     else
       let models := List.filter statistics_filter (result_rows pinnedFiles) in
       ret {| code := 200; sent := SuccessBody (compute_stats now models) (Some now_iso) |})
    (fun error => ret {| code := 500; sent := ErrorBody (message error) |}).

(** *** [GET /api/ml/model-details/:hash] *)

Record model_details : Type := {
  md_ipfsHash : string;
  md_pinned : option bool;
  md_pinInfo : option pin_info;
  md_modelPackage : json;
  md_gateways : list (string * string);
  md_retrievedAt : string
}.

Definition model_details_route (hash : string) : M (http model_details) :=
  try_catch
    (if negb (isValidIPFSHash hash) then
       ret {| code := 400; sent := ErrorBody "Invalid IPFS hash format" |}
     else
       pinStatus <- getPinStatus hash;;
       modelData <- getFromIPFS hash;;
       match JSON_parse modelData with
       | None => throw (Error "Unexpected token in JSON")
       | Some modelPackage =>
           ret {| code := 200;
                  sent := SuccessBody
                            {| md_ipfsHash := hash;
                               md_pinned := pinned pinStatus;
                               md_pinInfo := pin_data pinStatus;
                               md_modelPackage := modelPackage;
                               md_gateways := getGateways hash;
                               md_retrievedAt := now_iso |} None |}
       end)
    (fun error => ret {| code := 500; sent := ErrorBody (message error) |}).

End Server.
End Server.

Export Server.

(** ** Multiplication of numbers *)

Definition sign_of (a : number) : option bool :=
  match a with
  | NaN => None
  | NegInf => Some false
  | PosInf => Some true
  | Fin q => if Qeq_bool q 0 then None else Some (negb (Qle_bool q 0))
  end.

(** [a * b]; a zero times an infinity is NaN. *)
Definition mul (a b : number) : number :=
  match a, b with
  | NaN, _ | _, NaN => NaN
  | Fin x, Fin y => Fin (x * y)
  | _, _ =>
      match sign_of a, sign_of b with
      | Some s, Some t => if Bool.eqb s t then PosInf else NegInf
      | _, _ => NaN
      end
  end.

(** ** More of [src/services/ipfs.js] *)

Module Upload.
Section Upload.
Context `{Runtime}.

(** The properties of the [metadata] argument that [uploadToIPFS] reads.
    [um_accuracy] is the text [metadata.accuracy.toString()] gives. *)
Record upload_metadata : Type := {
  um_modelName : option string;
  um_version : option string;
  um_modelType : option string;
  um_accuracy : option string;
  um_timestamp : option string
}.

(** The [pinataMetadata] object [uploadToIPFS] sends with the file; [now]
    is the text of [Date.now()]. *)
Definition pinataMetadata (metadata : upload_metadata) (now : string) : pin_metadata :=
  {| md_name := Some (or_default (um_modelName metadata) ("retail-model-" +:+ now));
     md_keyvalues :=
       Some (<["version" := or_default (um_version metadata) "1.0.0"]>
            (<["type" := or_default (um_modelType metadata) "ml-model"]>
            (<["accuracy" := or_default (um_accuracy metadata) "0"]>
            (<["timestamp" := or_default (um_timestamp metadata) now]>
            (<["service" := "retail-churn-prediction"]> ∅))))) |}.

(** A property of an object as an object spread sees it: not a property of
    the object, or one of its own with the value read from it ([None] when
    that value is [undefined] or [null]). *)
Inductive own_property : Type :=
  | NotOwn
  | Own (value : option string).

(** The [metadata] argument of [uploadTFTModel].  For [modelType] it matters
    whether the object has the property at all; the other properties are
    only read by [uploadToIPFS]. *)
Record caller_metadata : Type := {
  cm_modelName : option string;
  cm_version : option string;
  cm_modelType : own_property;
  cm_accuracy : option string;
  cm_timestamp : option string
}.

(** [standardizedMetadata] of [uploadTFTModel]: the spread [...metadata]
    comes last, so a [modelType] of the caller's own overrides the standard
    one whatever its value, [undefined] and [null] included. *)
Definition uploadTFTModel_metadata (metadata : caller_metadata) : upload_metadata :=
  {| um_modelName := cm_modelName metadata;
     um_version := cm_version metadata;
     um_modelType := match cm_modelType metadata with
                     | NotOwn => Some "temporal_fusion_transformer"
                     | Own value => value
                     end;
     um_accuracy := cm_accuracy metadata;
     um_timestamp := cm_timestamp metadata |}.

(** [trainingMetadata] of [uploadTrainingData]: it adds [dataType] and
    [purpose], which [uploadToIPFS] does not read. *)
Definition uploadTrainingData_metadata (metadata : upload_metadata) : upload_metadata :=
  metadata.

(** The metadata [POST /api/ml/store-model] passes to [uploadToIPFS], from
    [model_metadata.name], [model_metadata.version] and the text of
    [performance_metrics.accuracy] when that is given and not zero. *)
Definition store_model_metadata (name version accuracy : option string) : upload_metadata :=
  {| um_modelName := Some (or_default name "retail-churn-tft");
     um_version := Some (or_default version "1.0.0");
     um_modelType := Some "temporal_fusion_transformer";
     um_accuracy := Some (default "0" accuracy);
     um_timestamp := Some now_iso |}.

(** [testConnection()] *)
Inductive connection_result : Type :=
  | Connected (message : string) (body : json) (timestamp : string)
  | NotConnected (error message timestamp : string).

Definition testConnection : M connection_result :=
  try_catch
    (response <- axios_get (baseURL +:+ "/data/testAuthentication");;
     ret (Connected "✅ Pinata connection successful" (data response) now_iso))
    (fun error =>
       ret (NotConnected (error_text error) "❌ Failed to connect to Pinata" now_iso)).

End Upload.
End Upload.

Export Upload.

(** ** More of the Express routes *)

Module Routes.
Section Routes.
Context `{Runtime}.

(** *** [GET /api/ipfs/files] and [GET /api/ipfs/test] *)

Definition files_route (fuel : nat) : M (http list_result) :=
  try_catch
    (files <- listPinnedFiles fuel default_limit default_status;;
     ret {| code := 200; sent := SuccessBody files None |})
    (fun error => ret {| code := 500; sent := ErrorBody (message error) |}).

Definition test_route : M (http connection_result) :=
  try_catch
    (testResult <- testConnection;;
     ret {| code := 200; sent := SuccessBody testResult None |})
    (fun error => ret {| code := 500; sent := ErrorBody (message error) |}).

(** *** [GET /api/ml/get-model/:hash] and [GET /api/ipfs/model/:hash]

    The two handlers differ in the name of one response property. *)

Record fetched_model : Type := {
  fm_ipfsHash : string;
  fm_modelPackage : json;
  fm_retrievedAt : string
}.

Definition get_model_route (hash : string) : M (http fetched_model) :=
  try_catch
    (modelData <- getFromIPFS hash;;
     match JSON_parse modelData with
     | None => throw (Error "Unexpected token in JSON")
     | Some modelPackage =>
         ret {| code := 200;
                sent := SuccessBody {| fm_ipfsHash := hash;
                                       fm_modelPackage := modelPackage;
                                       fm_retrievedAt := now_iso |} None |}
     end)
    (fun error => ret {| code := 500; sent := ErrorBody (message error) |}).

(** *** [Array.prototype.slice] and the other array helpers *)

(** A relative index of [slice]: NaN counts as 0, a negative index counts
    from the end, and the result is clamped to the array. *)
Definition slice_index (len : nat) (k : option Z) : nat :=
  match k with
  | None => 0
  | Some z =>
      if (z <? 0)%Z then Z.to_nat (Z.max (Z.of_nat len + z) 0)
      else Nat.min (Z.to_nat z) len
  end.

Definition slice {A : Type} (l : list A) (start finish : option Z) : list A :=
  let from := slice_index (length l) start in
  let to := slice_index (length l) finish in
  firstn (to - from) (skipn from l).

(** [[...new Set(l)]]: the first occurrence of each value, in order. *)
Fixpoint distinct_values (seen l : list string) : list string :=
  match l with
  | [] => []
  | x :: t =>
      if existsb (String.eqb x) seen then distinct_values seen t
      else x :: distinct_values (x :: seen) t
  end.

(** The result of [parseInt], [None] for NaN, as a number. *)
Definition int_number (k : option Z) : number :=
  match k with
  | Some z => of_Z z
  | None => NaN
  end.

(** [a + b] on results of [parseInt] *)
Definition int_add (a b : option Z) : option Z :=
  match a, b with
  | Some x, Some y => Some (x + y)%Z
  | _, _ => None
  end.

(** *** [GET /api/ml/list-models] *)

Record pagination : Type := {
  pg_total : nat;
  pg_limit : option Z;
  pg_offset : option Z;
  pg_returned : nat;
  pg_hasMore : bool
}.

Record summary : Type := {
  sm_totalModels : nat;
  sm_totalSize : number;
  sm_totalSizeFormatted : string;
  sm_modelTypes : list string;
  sm_averageAccuracy : average
}.

Record model_list : Type := {
  ml_models : list model;
  ml_pagination : pagination;
  ml_summary : summary
}.

(** What the route sends: the list, or an error with its [details]. *)
Inductive list_models_response : Type :=
  | ModelList (code : nat) (payload : model_list) (timestamp : string)
  | ModelListError (code : nat) (error : string) (details : option string).

(** [pinnedFiles.error] *)
Definition result_error (r : list_result) : option string :=
  match r with
  | ListOk _ _ _ => None
  | ListFailed e _ _ => Some e
  end.

(** [models.reduce((sum, m) => sum + m.size, 0)] *)
Definition models_size (models : list model) : number :=
  fold_left (fun sum m => (sum + m_size m)%num) models (Fin 0).

(** The [summary] object. *)
Definition summarize (models : list model) : summary :=
  {| sm_totalModels := length models;
     sm_totalSize := models_size models;
     sm_totalSizeFormatted := formatBytes (models_size models);
     sm_modelTypes := distinct_values [] (map m_modelType models);
     sm_averageAccuracy :=
       if (0 <? length models)%nat
       then AverageText
              (toFixed4 (fold_left (fun sum m => (sum + m_accuracy m)%num) models (Fin 0)
                         / of_nat (length models))%num)
       else AverageNumber (Fin 0) |}.

(** The handler; [limit] and [offset] are the results of [parseInt] on the
    query parameters (50 and 0 when they are absent). *)
Definition list_models_route (fuel : nat) (limit offset : option Z)
    (sortBy order : string) : M list_models_response :=
  try_catch
    (pinnedFiles <- listPinnedFiles fuel (int_number limit) default_status;;
     if negb (success pinnedFiles) then
       ret (ModelListError 500 "Failed to retrieve model list" (result_error pinnedFiles))
     else
       let models :=
         map to_model (List.filter list_models_filter (result_rows pinnedFiles)) in
       match sortModels models sortBy order with
       | None => throw (Error "Cannot read properties of undefined (reading 'localeCompare')")
       | Some sortedModels =>
           let startIndex := offset in
           let endIndex := int_add startIndex limit in
           let paginatedModels := slice sortedModels startIndex endIndex in
           ret (ModelList 200
                  {| ml_models := paginatedModels;
                     ml_pagination :=
                       {| pg_total := length models;
                          pg_limit := limit;
                          pg_offset := offset;
                          pg_returned := length paginatedModels;
                          pg_hasMore :=
                            match endIndex with
                            | Some e => (e <? Z.of_nat (length models))%Z
                            | None => false
                            end |};
                     ml_summary := summarize models |}
                  now_iso)
       end)
    (fun error => ret (ModelListError 500 (message error) None)).

(** *** [GET /api/ml/search-models] *)

(** The object the [map] of the search route builds. *)
Record found_model : Type := {
  fd_ipfsHash : option string;       (* modelId and ipfsHash *)
  fd_name : option string;
  fd_modelType : string;
  fd_version : string;
  fd_accuracy : number;
  fd_uploadedAt : option string;
  fd_metadata : gmap string string
}.

Definition to_found_model (f : file) : found_model :=
  {| fd_ipfsHash := ipfsHash f;
     fd_name := name f;
     fd_modelType := file_modelType f;
     fd_version := or_default (keyvalue f "version") "1.0.0";
     fd_accuracy := file_accuracy f;
     fd_uploadedAt := timestamp f;
     fd_metadata := match metadata f with
                    | Some md => match md_keyvalues md with Some kv => kv | None => ∅ end
                    | None => ∅
                    end |}.

(** The search criteria, as the query string gives them. *)
Record criteria : Type := {
  cr_query : option string;
  cr_modelType : option string;
  cr_minAccuracy : option string;
  cr_maxAccuracy : option string;
  cr_fromDate : option string;
  cr_toDate : option string
}.

(** [if (x)] on a query parameter: present and not empty. *)
Definition given (x : option string) : option string :=
  match x with
  | Some s => if String.eqb s "" then None else Some s
  | None => None
  end.

(** One [if (x) { models = models.filter(...) }] step. *)
Definition filter_when {A : Type} (x : option string) (keep : string -> A -> bool)
    (models : list A) : list A :=
  match given x with
  | Some s => List.filter (keep s) models
  | None => models
  end.

(** The filter on [query]; [m.name.toLowerCase()] throws on a model without
    a name.  [toLowerCase] is the string method of that name. *)
Definition filter_query (toLowerCase : string -> string) (x : option string)
    (models : list found_model) : M (list found_model) :=
  match given x with
  | Some q =>
      let searchQuery := toLowerCase q in
      if existsb (fun m => match fd_name m with None => true | Some _ => false end) models
      then throw (Error "Cannot read properties of undefined (reading 'toLowerCase')")
      else ret (List.filter
                  (fun m => includes (toLowerCase (or_undefined (fd_name m))) searchQuery
                            || includes (toLowerCase (fd_modelType m)) searchQuery
                            || includes (fd_version m) searchQuery)
                  models)
  | None => ret models
  end.

(** The filters after the one on [query], then [slice(0, parseInt(limit))]. *)
Definition refine (c : criteria) (limit : option Z) (models : list found_model)
    : list found_model :=
  let models := filter_when (cr_modelType c)
                  (fun t m => String.eqb (fd_modelType m) t) models in
  let models := filter_when (cr_minAccuracy c)
                  (fun s m => (fd_accuracy m >=? parseFloat s)%num) models in
  let models := filter_when (cr_maxAccuracy c)
                  (fun s m => (fd_accuracy m <=? parseFloat s)%num) models in
  let models := filter_when (cr_fromDate c)
                  (fun s m => (date_value (fd_uploadedAt m) >=? Date_parse s)%num) models in
  let models := filter_when (cr_toDate c)
                  (fun s m => (date_value (fd_uploadedAt m) <=? Date_parse s)%num) models in
  slice models (Some 0%Z) limit.

(** The handler; [limit] is the result of [parseInt] (50 when absent). *)
Definition search_models_route (fuel : nat) (toLowerCase : string -> string)
    (c : criteria) (limit : option Z) : M (http (list found_model)) :=
  try_catch
    (pinnedFiles <- listPinnedFiles fuel (mul (int_number limit) (of_Z 2)) default_status;;
     if negb (success pinnedFiles) then
       ret {| code := 500; sent := ErrorBody "Failed to search models" |}
     else
       let models :=
         map to_found_model (List.filter search_models_filter (result_rows pinnedFiles)) in
       models <- filter_query toLowerCase (cr_query c) models;;
       ret {| code := 200; sent := SuccessBody (refine c limit models) (Some now_iso) |})
    (fun error => ret {| code := 500; sent := ErrorBody (message error) |}).

End Routes.
End Routes.

Export Routes.

(** ** The Express application of [src/scripts/test-ipfs.js]

    The routes and middleware in the order in which the source registers
    them.  The three body and CORS middleware at the top pass a request on,
    and the error middleware is skipped for a request that raised no error;
    a handler that answers never calls [next()], so the first layer that
    matches a request is the one that answers it. *)

Module App.

Inductive method : Type := GET | POST.

(** A segment of a route path: literal text, or a parameter such as
    [:hash]. *)
Inductive segment : Type :=
  | Lit (text : string)
  | Param (name : string).

(** The handlers, named after their routes. *)
Inductive handler : Type :=
  | health
  | upload_model
  | ipfs_model
  | upload
  | files
  | test
  | store_model
  | get_model
  | info
  | not_found
  | list_models
  | model_details
  | search_models
  | statistics.

(** One call of [app.get], [app.post] or [app.use]: [on = None] is
    [app.use], which runs for every method, and [route = None] is the path
    ['*']. *)
Record layer : Type := {
  on : option method;
  route : option (list segment);
  target : handler
}.

Definition stack : list layer :=
  [ {| on := Some GET; route := Some [Lit "health"]; target := health |};
    {| on := Some POST; route := Some [Lit "api"; Lit "ipfs"; Lit "upload-model"];
       target := upload_model |};
    {| on := Some GET; route := Some [Lit "api"; Lit "ipfs"; Lit "model"; Param "hash"];
       target := ipfs_model |};
    {| on := Some POST; route := Some [Lit "api"; Lit "ipfs"; Lit "upload"];
       target := upload |};
    {| on := Some GET; route := Some [Lit "api"; Lit "ipfs"; Lit "files"];
       target := files |};
    {| on := Some GET; route := Some [Lit "api"; Lit "ipfs"; Lit "test"];
       target := test |};
    {| on := Some POST; route := Some [Lit "api"; Lit "ml"; Lit "store-model"];
       target := store_model |};
    {| on := Some GET; route := Some [Lit "api"; Lit "ml"; Lit "get-model"; Param "hash"];
       target := get_model |};
    {| on := Some GET; route := Some [Lit "api"; Lit "info"]; target := info |};
    {| on := None; route := None; target := not_found |};
    {| on := Some GET; route := Some [Lit "api"; Lit "ml"; Lit "list-models"];
       target := list_models |};
    {| on := Some GET;
       route := Some [Lit "api"; Lit "ml"; Lit "model-details"; Param "hash"];
       target := model_details |};
    {| on := Some GET; route := Some [Lit "api"; Lit "ml"; Lit "search-models"];
       target := search_models |};
    {| on := Some GET; route := Some [Lit "api"; Lit "ml"; Lit "statistics"];
       target := statistics |} ].

Definition method_eqb (a b : method) : bool :=
  match a, b with
  | GET, GET | POST, POST => true
  | _, _ => false
  end.

(** A request path, as the list of its segments, against a route path. *)
Fixpoint path_matches (pattern : list segment) (path : list string) : bool :=
  match pattern, path with
  | [], [] => true
  | Lit text :: pattern', s :: path' => String.eqb text s && path_matches pattern' path'
  | Param _ :: pattern', s :: path' => negb (String.eqb s "") && path_matches pattern' path'
  | _, _ => false
  end.

Definition layer_matches (m : method) (path : list string) (l : layer) : bool :=
  match on l with
  | Some m' => method_eqb m m'
  | None => true
  end
  && match route l with
     | Some pattern => path_matches pattern path
     | None => true
     end.

(** The handler that answers a request; [None] would leave the request to
    Express itself. *)
Definition dispatch (m : method) (path : list string) : option handler :=
  option_map target (List.find (layer_matches m path) stack).

Section App.
Context `{Runtime}.

(** The handler of [app.use('*', ...)]. *)
Definition not_found_route : M (http unit) :=
  ret {| code := 404; sent := ErrorBody "Endpoint not found" |}.

End App.
End App.

(** ** A small runtime to run the code on

    Documents are their own text; [parseFloat] reads an optional sign,
    digits and an optional fraction; [Date_parse] knows three instants;
    the two number printers answer with a fixed text. *)

Module Sample.

Definition digit_value (c : ascii) : option Z :=
  let n := nat_of_ascii c in
  if ((48 <=? n) && (n <=? 57))%nat then Some (Z.of_nat (n - 48)) else None.

(** Reads digits: the value read, the number of digits, and the rest. *)
Fixpoint read_digits (s : string) (value : Z) (count : nat) : Z * nat * string :=
  match s with
  | String c t =>
      match digit_value c with
      | Some d => read_digits t (10 * value + d)%Z (S count)
      | None => (value, count, s)
      end
  | EmptyString => (value, count, s)
  end.

Definition parse_unsigned (s : string) : option Q :=
  let '(int_part, int_digits, rest) := read_digits s 0%Z 0 in
  let '(frac_part, frac_digits, _) :=
    match rest with
    | String "."%char t => read_digits t 0%Z 0
    | _ => (0%Z, 0, rest)
    end in
  if ((int_digits =? 0) && (frac_digits =? 0))%nat then None
  else Some (Qplus (inject_Z int_part) (Qmake frac_part (Pos.of_nat (10 ^ frac_digits)))).

Definition parse_decimal (s : string) : number :=
  match s with
  | String "-"%char t =>
      match parse_unsigned t with Some q => Fin (- q) | None => NaN end
  | _ =>
      match parse_unsigned s with Some q => Fin q | None => NaN end
  end.

Definition parse_instant (s : string) : number :=
  if String.eqb s "2024-01-01T00:00:00.000Z" then of_Z 1704067200000
  else if String.eqb s "2024-06-01T00:00:00.000Z" then of_Z 1717200000000
  else if String.eqb s "2024-06-01T10:00:00.000Z" then of_Z 1717236000000
  else NaN.

#[export] Instance runtime : Runtime := {|
  json := string;
  JSON_stringify := fun j => j;
  JSON_parse := fun s => Some s;
  parseFloat := parse_decimal;
  Date_parse := parse_instant;
  toFixed4 := fun _ => "0.0000";
  format_scaled := fun _ => "1 KB";
  localeCompare := fun a b =>
    if String.eqb a b then Fin 0 else if String.ltb a b then of_Z (-1) else of_Z 1;
  now_iso := "2024-06-01T12:00:00.000Z"
|}.

(** A script answering with the given pages in turn, then with empty pages. *)
Definition script_of_pages (pages : list (list pin_row)) : script :=
  fun k => Responds {| data := "{}"; data_rows := Some (nth k pages []) |}.

(** A document, as a response body. *)
Definition document (text : string) : response :=
  {| data := text; data_rows := None |}.

(** The first [failures] requests time out, the next one is answered. *)
Definition answers_after (failures : nat) (text : string) : script :=
  fun k => if (k <? failures)%nat then Fails (Error "timeout of 30000ms exceeded")
           else Responds (document text).

Definition tagged (n : string) (date : string) (kv : list (string * string)) : pin_row :=
  {| pr_ipfs_pin_hash := "QmYwAPJzv5CZsnA625s3Xf2nemtYgPpHdWEz79ojWnPbdG";
     pr_size := of_Z 2048;
     pr_date_pinned := date;
     pr_metadata := Some {| md_name := Some n; md_keyvalues := Some (list_to_map kv) |} |}.


Definition sample_row : pin_row :=
  tagged "churn-model" "2024-01-01T00:00:00.000Z" [("type", "ml-model"); ("accuracy", "0.95")].

Definition full_page : list pin_row := repeat sample_row 100.

Definition january_model : pin_row :=
  tagged "churn-model-jan" "2024-01-01T00:00:00.000Z"
    [("type", "ml-model"); ("accuracy", "0.95")].

Definition june_model : pin_row :=
  tagged "churn-model-jun" "2024-06-01T00:00:00.000Z"
    [("type", "ml-model"); ("accuracy", "0.5")].

(** Two full pages and a last page of three rows. *)
Definition three_pages : list (list pin_row) :=
  [full_page; full_page; [sample_row; sample_row; sample_row]].

(** Two models as the list-models route builds them: one whose accuracy tag
    is not a number, one with accuracy 0.5. *)
Definition unrated_then_half : list model :=
  map (fun r => to_model (pinned_file r))
    [ tagged "model-x" "2024-01-01T00:00:00.000Z"
        [("type", "ml-model"); ("accuracy", "n/a")];
      tagged "model-y" "2024-06-01T00:00:00.000Z"
        [("type", "ml-model"); ("accuracy", "0.5")] ].

(** Three models with accuracies 0.5, 0.95 and 0.7. *)
Definition three_rated : list model :=
  map (fun r => to_model (pinned_file r))
    [ tagged "model-a" "2024-01-01T00:00:00.000Z"
        [("type", "ml-model"); ("accuracy", "0.5")];
      tagged "model-b" "2024-06-01T00:00:00.000Z"
        [("type", "ml-model"); ("accuracy", "0.95")];
      tagged "model-c" "2024-06-01T10:00:00.000Z"
        [("type", "ml-model"); ("accuracy", "0.7")] ].

(** A script answering with the given pages in turn, then failing with
    status 429. *)
Definition pages_then_failure (pages : list (list pin_row)) : script :=
  fun k => if (k <? length pages)%nat
           then Responds {| data := "{}"; data_rows := Some (nth k pages []) |}
           else Fails (Error "Request failed with status code 429").

(** A pin that has no [metadata] object. *)
Definition bare_pin : pin_row :=
  {| pr_ipfs_pin_hash := "QmYwAPJzv5CZsnA625s3Xf2nemtYgPpHdWEz79ojWnPbdG";
     pr_size := of_Z 2048;
     pr_date_pinned := "2024-01-01T00:00:00.000Z";
     pr_metadata := None |}.

End Sample.

(** ** The specification's vocabulary

    Definitions that follow the wording of the specification; the theorems
    compare them with the code above. *)

(** *** Identifier patterns *)






(** *** Model records *)

Definition contains (s sub : string) : Prop :=
  exists pre post, s = pre +:+ sub +:+ post.

(** The key-values entry [key] of the record equals [value]. *)
Definition has_keyvalue (f : file) (key value : string) : Prop :=
  exists md kv,
    metadata f = Some md /\ md_keyvalues md = Some kv /\ kv !! key = Some value.

Definition name_contains (f : file) (sub : string) : Prop :=
  exists n, name f = Some n /\ contains n sub.

Definition model_record (f : file) : Prop :=
  has_keyvalue f "type" "ml-model"
  \/ has_keyvalue f "modelType" "temporal_fusion_transformer"
  \/ name_contains f "model".

(** *** Gateways *)

Definition primary_gateway (ipfsHash : string) : string :=
  "https://gateway.pinata.cloud/ipfs/" +:+ ipfsHash.
Definition secondary_gateway (ipfsHash : string) : string :=
  "https://ipfs.io/ipfs/" +:+ ipfsHash.
Definition tertiary_gateway (ipfsHash : string) : string :=
  "https://cloudflare-ipfs.com/ipfs/" +:+ ipfsHash.

(** *** Pagination *)

Section Pagination.
Context `{Runtime}.

(** The k-th request is answered (rather than failing). *)
Definition answered (sc : script) (k : nat) : Prop :=
  exists r, sc k = Responds r.

(** The rows of the k-th page; none when the reply carries no [rows]. *)
Definition rows_at (sc : script) (k : nat) : list pin_row :=
  match sc k with
  | Responds r => default [] (data_rows r)
  | Fails _ => []
  end.

(** The accumulator after the first [n] pages. *)
Fixpoint gathered (sc : script) (n : nat) : list pin_row :=
  match n with
  | O => []
  | S k => gathered sc k ++ rows_at sc k
  end.

(** The three stop conditions, read at page [k]: (a) the page has zero
    rows, (b) the accumulator has reached the limit, (c) the page is shorter
    than the page cap. *)
Definition stops_at (sc : script) (limit : number) (k : nat) : bool :=
  (length (rows_at sc k) =? 0)%nat
  || (of_nat (length (gathered sc (S k))) >=? limit)%num
  || (length (rows_at sc k) <? pageLimit)%nat.

(** The requests for the first [n] pages: offsets 0, 100, 200, ... *)
Definition page_urls (status : string) (n : nat) : list string :=
  map (fun k => pinListUrl status (k * pageLimit)) (seq 0 n).

End Pagination.

(** The address of the k-th page request as the claim describes it: pages
    of 100 rows at the offsets 0, 100, 200, ..., with the status filter
    appended unless it is ["all"]. *)
Definition page_address (status : string) (k : nat) : string :=
  "https://api.pinata.cloud/data/pinList?pageLimit=100&pageOffset="
  +:+ NilZero.string_of_uint (Nat.to_uint (100 * k))
  +:+ (if String.eqb status "all" then "" else "&status=" +:+ status).

(** *** Accuracy buckets and the average *)

(** Strictly positive: the accuracies the statistics take into account. *)
Definition positive (a : number) : bool := (Fin 0 <? a)%num.

(** high: [a > 0.9] *)
Definition in_high (a : number) : bool := (Fin (9 # 10) <? a)%num.

(** medium: [0.7 <= a <= 0.9] *)
Definition in_medium (a : number) : bool :=
  (Fin (7 # 10) <=? a)%num && (a <=? Fin (9 # 10))%num.

(** low: [a < 0.7], for a strictly positive [a] *)
Definition in_low (a : number) : bool :=
  positive a && (a <? Fin (7 # 10))%num.

Definition count_if (p : number -> bool) (l : list number) : nat :=
  length (List.filter p l).

(** The running sum [totalAccuracy], from [0]. *)
Definition sum_from (start : number) (l : list number) : number :=
  fold_left add l start.

Section Average.
Context `{Runtime}.

(** Mean of the given values to four decimals, or [0] when there is none. *)
Definition average_of (l : list number) : average :=
  match l with
  | [] => AverageNumber (Fin 0)
  | _ :: _ => AverageText (toFixed4 (sum_from (Fin 0) l / of_nat (length l))%num)
  end.

End Average.

(** *** Best and latest model *)

Section BestModel.
Context `{Runtime}.

(** The [bestModel] entry built from a record. *)
Definition best_summary (f : file) : best_model :=
  {| bm_name := name f;
     bm_ipfsHash := ipfsHash f;
     bm_accuracy := file_accuracy f;
     bm_modelType := file_modelType f |}.

(** [f] is the first record of [models] with the highest accuracy among
    the records whose accuracy is strictly positive. *)
Definition first_best (models : list file) (f : file) : Prop :=
  exists pre post,
    models = pre ++ f :: post
    /\ positive (file_accuracy f) = true
    /\ (forall g, In g pre -> positive (file_accuracy g) = true ->
                  (file_accuracy g <? file_accuracy f)%num = true)
    /\ (forall g, In g post -> positive (file_accuracy g) = true ->
                  (file_accuracy g <=? file_accuracy f)%num = true).

(** What the loop has established after the records [seen]. *)
Definition best_so_far (seen : list file) (t : tally) : Prop :=
  (t_bestModel t = None /\ bestAccuracy t = Fin 0
   /\ forall g, In g seen -> positive (file_accuracy g) = false)
  \/ (exists pre f post,
         seen = pre ++ f :: post
         /\ t_bestModel t = Some (best_summary f)
         /\ bestAccuracy t = file_accuracy f
         /\ positive (file_accuracy f) = true
         /\ (forall g, In g pre -> positive (file_accuracy g) = true ->
                       (file_accuracy g <? file_accuracy f)%num = true)
         /\ (forall g, In g post -> (file_accuracy f <? file_accuracy g)%num = false)).

End BestModel.

(** *** Sorting *)

(** [a === b] on numbers: NaN equals nothing. *)
Definition num_eqb (a b : number) : bool := (a <=? b)%num && (b <=? a)%num.

(** Two accuracies that are numbers and differ. *)
Definition distinct_numbers (a b : number) : Prop :=
  is_nan a = false /\ is_nan b = false /\ num_eqb a b = false.

(** No two records of the list have equal accuracy. *)
Definition no_equal_accuracy (models : list model) : Prop :=
  ForallOrdPairs (fun x y => num_eqb (m_accuracy x) (m_accuracy y) = false) models.

(** Every accuracy is a number, and no two are equal. *)
Definition no_ties (models : list model) : Prop :=
  ForallOrdPairs (fun x y => distinct_numbers (m_accuracy x) (m_accuracy y)) models.

(** Insertion sort by a total test [past x y]: [x] has to move past [y]. *)
Fixpoint insert_by {A : Type} (past : A -> A -> bool) (x : A) (l : list A) : list A :=
  match l with
  | [] => [x]
  | y :: t => if past x y then y :: insert_by past x t else x :: y :: t
  end.

Fixpoint isort_by {A : Type} (past : A -> A -> bool) (l : list A) : list A :=
  match l with
  | [] => []
  | x :: t => insert_by past x (isort_by past t)
  end.

(** *** Pin status *)

Definition pinStatusUrl (ipfsHash : string) : string :=
  baseURL +:+ "/data/pinList?hashContains=" +:+ ipfsHash.

(** *** Sorting by a numeric key *)

(** The property [sortModels] compares for a numeric [sortBy]. *)
Definition numeric_keys : list (string * (model -> number)) :=
  [("accuracy", m_accuracy); ("size", m_size)].

(** *** Counting by model type *)

(** The property names every JavaScript object inherits from
    [Object.prototype]: read on the empty object [{}] they are not
    [undefined]. *)
Definition inherited_property_names : list string :=
  [ "constructor"; "hasOwnProperty"; "isPrototypeOf"; "propertyIsEnumerable";
    "toLocaleString"; "toString"; "valueOf"; "__proto__";
    "__defineGetter__"; "__defineSetter__"; "__lookupGetter__"; "__lookupSetter__" ].

(** The number of records of the given model type. *)
Definition count_of_type (models : list file) (t : string) : nat :=
  length (List.filter (fun f => String.eqb (file_modelType f) t) models).

(** The sum of the counters of [modelsByType]. *)
Definition counted (byType : gmap string nat) : nat :=
  map_fold (fun _ n total => n + total) 0 byType.

(** * Properties *)

(** ** Numbers *)

Lemma Qlt_bool_iff (x y : Q) : Qlt_bool x y = true <-> (x < y)%Q.
Proof.
  unfold Qlt_bool. rewrite negb_true_iff.
  split.
  - intros Hf. apply Qnot_le_lt. intros Hle.
    apply Qle_bool_iff in Hle. congruence.
  - intros Hlt. destruct (Qle_bool y x) eqn:E; [|reflexivity].
    apply Qle_bool_iff in E. lra.
Qed.

Lemma Qlt_bool_false_iff (x y : Q) : Qlt_bool x y = false <-> (y <= x)%Q.
Proof.
  unfold Qlt_bool. rewrite negb_false_iff. apply Qle_bool_iff.
Qed.

Lemma is_pos_sub (a b : number) : is_pos (b - a)%num = (a <? b)%num.
Proof.
  destruct a as [| |x|], b as [| |y|]; try reflexivity.
  cbn. destruct (Qlt_bool x y) eqn:E.
  - apply Qlt_bool_iff in E. apply Qlt_bool_iff. lra.
  - apply Qlt_bool_false_iff in E. apply Qlt_bool_false_iff. lra.
Qed.

Lemma is_pos_opp_sub (a b : number) : is_pos (- (b - a))%num = (b <? a)%num.
Proof.
  destruct a as [| |x|], b as [| |y|]; try reflexivity.
  cbn. destruct (Qlt_bool y x) eqn:E.
  - apply Qlt_bool_iff in E. apply Qlt_bool_iff. lra.
  - apply Qlt_bool_false_iff in E. apply Qlt_bool_false_iff. lra.
Qed.

Lemma ltb_trans (a b c : number) :
  (a <? b)%num = true -> (b <? c)%num = true -> (a <? c)%num = true.
Proof.
  destruct a as [| |x|], b as [| |y|], c as [| |z|]; cbn; try congruence.
  rewrite !Qlt_bool_iff. lra.
Qed.

Lemma ltb_asym (a b : number) : (a <? b)%num = true -> (b <? a)%num = false.
Proof.
  destruct a as [| |x|], b as [| |y|]; cbn; try congruence.
  rewrite Qlt_bool_iff, Qlt_bool_false_iff. lra.
Qed.

Lemma leb_negb_ltb (a b : number) :
  is_nan a = false -> is_nan b = false -> (a <=? b)%num = negb (b <? a)%num.
Proof.
  destruct a as [| |x|], b as [| |y|]; cbn; try congruence.
  intros _ _. unfold Qlt_bool. now rewrite negb_involutive.
Qed.

(** ** Strings and the identifier validator *)

Lemma strip_prefix_spec (pre s rest : string) :
  strip_prefix pre s = Some rest <-> s = pre +:+ rest.
Proof.
  revert s. induction pre as [|a p IH]; intros s; cbn.
  - split; [intros [= ->] | intros ->]; reflexivity.
  - destruct s as [|b t].
    + split; discriminate.
    + destruct (Ascii.eqb a b) eqn:E.
      * apply Ascii.eqb_eq in E. subst b. rewrite IH.
        split; [intros -> | intros [= ->]]; reflexivity.
      * apply Ascii.eqb_neq in E. split; [discriminate | intros [= -> ->]; congruence].
Qed.










(** ** Record classification *)

Lemma startsWith_spec (s pre : string) :
  startsWith s pre = true <-> exists post, s = pre +:+ post.
Proof.
  unfold startsWith. split.
  - destruct (strip_prefix pre s) as [rest|] eqn:E; [|discriminate].
    intros _. exists rest. apply strip_prefix_spec. exact E.
  - intros [post ->].
    rewrite (proj2 (strip_prefix_spec pre (pre +:+ post) post) eq_refl). reflexivity.
Qed.

Lemma includes_spec (s sub : string) : includes s sub = true <-> contains s sub.
Proof.
  unfold contains. induction s as [|c t IH].
  - simpl. rewrite orb_false_r, startsWith_spec. split.
    + intros [post E]. exists EmptyString, post. exact E.
    + intros (pre & post & E). destruct pre; [exists post; exact E | discriminate].
  - simpl. rewrite orb_true_iff, startsWith_spec, IH. split.
    + intros [[post E] | (pre & post & E)].
      * exists EmptyString, post. exact E.
      * exists (String c pre), post. rewrite E. reflexivity.
    + intros (pre & post & E). destruct pre as [|d pre].
      * left. exists post. exact E.
      * right. simpl in E. injection E as _ E. now exists pre, post.
Qed.

Lemma is_string_keyvalue (f : file) (key value : string) :
  is_string (keyvalue f key) value = true <-> has_keyvalue f key value.
Proof.
  unfold is_string, keyvalue, has_keyvalue. split.
  - destruct (metadata f) as [md|]; [|discriminate].
    destruct (md_keyvalues md) as [kv|] eqn:Ekv; [|discriminate].
    destruct (kv !! key) as [v|] eqn:Ev; [|discriminate].
    intros E. apply String.eqb_eq in E. subst v. now exists md, kv.
  - intros (md & kv & -> & -> & ->). apply String.eqb_refl.
Qed.

Lemma name_includes_spec (f : file) (sub : string) :
  name_includes f sub = true <-> name_contains f sub.
Proof.
  unfold name_includes, name_contains. split.
  - destruct (name f) as [n|]; [|discriminate].
    intros E. exists n. split; [reflexivity | now apply includes_spec].
  - intros (n & -> & Hn). now apply includes_spec.
Qed.

Lemma base_filter_spec (f : file) :
  is_string (keyvalue f "type") "ml-model"
  || is_string (keyvalue f "modelType") "temporal_fusion_transformer"
  || name_includes f "model" = true
  <-> model_record f.
Proof.
  unfold model_record.
  rewrite !orb_true_iff, !is_string_keyvalue, name_includes_spec. tauto.
Qed.

(** C8: the search and statistics filters accept a record exactly when its
    [type] tag is ["ml-model"], or its [modelType] tag is
    ["temporal_fusion_transformer"], or its name contains ["model"]; the
    list-models filter accepts in addition the records whose name contains
    ["tft"], and that disjunct is only there: a record named ["tft-v2"]
    passes the list-models filter and neither of the other two. *)
Theorem model_filters_classification :
  (forall f : file,
      (search_models_filter f = true <-> model_record f)
      /\ (statistics_filter f = true <-> model_record f)
      /\ (list_models_filter f = true <-> model_record f \/ name_contains f "tft"))
  /\ (exists f : file,
         list_models_filter f = true
         /\ search_models_filter f = false
         /\ statistics_filter f = false).
Proof.
  split.
  - intros f. split; [|split].
    + apply base_filter_spec.
    + apply base_filter_spec.
    + unfold list_models_filter.
      rewrite orb_true_iff, base_filter_spec, name_includes_spec. reflexivity.
  - exists {| ipfs_pin_hash := None; ipfsHash := None; name := Some "tft-v2";
              size := Fin 0; date_pinned := None; timestamp := None;
              metadata := None; status := None |}.
    repeat split; reflexivity.
Qed.

(** ** Fetch with gateway fallback *)

Lemma gateways_distinct (ipfsHash : string) :
  List.NoDup [primary_gateway ipfsHash; secondary_gateway ipfsHash; tertiary_gateway ipfsHash].
Proof.
  unfold primary_gateway, secondary_gateway, tertiary_gateway.
  repeat constructor; simpl; intuition discriminate.
Qed.

(** C2: [getFromIPFS] asks the Pinata gateway, then [ipfs.io], then
    Cloudflare, each at most once and in that order; it returns the
    stringified body of the first gateway that answers, and it throws only
    when all three have failed. *)
Theorem getFromIPFS_fallback_chain `{Runtime} (ipfsHash : string) (sc : script) :
  let g1 := primary_gateway ipfsHash in
  let g2 := secondary_gateway ipfsHash in
  let g3 := tertiary_gateway ipfsHash in
  (forall r, sc 0 = Responds r ->
     run (getFromIPFS ipfsHash) sc = ([g1], Return (JSON_stringify (data r))))
  /\ (forall e1 r, sc 0 = Fails e1 -> sc 1 = Responds r ->
        run (getFromIPFS ipfsHash) sc = ([g1; g2], Return (JSON_stringify (data r))))
  /\ (forall e1 e2 r, sc 0 = Fails e1 -> sc 1 = Fails e2 -> sc 2 = Responds r ->
        run (getFromIPFS ipfsHash) sc = ([g1; g2; g3], Return (JSON_stringify (data r))))
  /\ (forall e1 e2 e3, sc 0 = Fails e1 -> sc 1 = Fails e2 -> sc 2 = Fails e3 ->
        run (getFromIPFS ipfsHash) sc
        = ([g1; g2; g3], Throw (Error ("Failed to fetch from IPFS: " +:+ message e3))))
  /\ (forall lg e, run (getFromIPFS ipfsHash) sc = (lg, Throw e) ->
        exists e1 e2 e3, sc 0 = Fails e1 /\ sc 1 = Fails e2 /\ sc 2 = Fails e3)
  /\ List.NoDup [g1; g2; g3].
Proof.
  intros g1 g2 g3.
  unfold run, getFromIPFS, try_catch, bind, axios_get, ret, throw. simpl.
  repeat split.
  - intros r ->. reflexivity.
  - intros e1 r H0 H1. rewrite H0. simpl. rewrite H1. reflexivity.
  - intros e1 e2 r H0 H1 H2.
    rewrite H0. simpl. rewrite H1. simpl. rewrite H2. reflexivity.
  - intros e1 e2 e3 H0 H1 H2.
    rewrite H0. simpl. rewrite H1. simpl. rewrite H2. reflexivity.
  - intros lg e.
    destruct (sc 0) as [r1|e1]; [discriminate|]. simpl.
    destruct (sc 1) as [r2|e2]; [discriminate|]. simpl.
    destruct (sc 2) as [r3|e3]; [discriminate|].
    intros _. now exists e1, e2, e3.
  - apply gateways_distinct.
Qed.

Lemma getFromIPFS_fallback_chain_witness :
  run (getFromIPFS "QmYwAPJzv5CZsnA625s3Xf2nemtYgPpHdWEz79ojWnPbdG")
      (Sample.answers_after 2 "[1,2,3]")
  = ([primary_gateway "QmYwAPJzv5CZsnA625s3Xf2nemtYgPpHdWEz79ojWnPbdG";
      secondary_gateway "QmYwAPJzv5CZsnA625s3Xf2nemtYgPpHdWEz79ojWnPbdG";
      tertiary_gateway "QmYwAPJzv5CZsnA625s3Xf2nemtYgPpHdWEz79ojWnPbdG"],
     Return "[1,2,3]").
Proof.
  exact (proj1 (proj2 (proj2
           (getFromIPFS_fallback_chain
              "QmYwAPJzv5CZsnA625s3Xf2nemtYgPpHdWEz79ojWnPbdG"
              (Sample.answers_after 2 "[1,2,3]"))))
         (Error "timeout of 30000ms exceeded") (Error "timeout of 30000ms exceeded")
         (Sample.document "[1,2,3]")
         eq_refl eq_refl eq_refl).
Defined.

(** ** Paginated listing *)

Lemma leb_of_nat (a b : nat) : (of_nat a <=? of_nat b)%num = (a <=? b)%nat.
Proof.
  unfold of_nat, of_Z. cbn.
  destruct (Nat.leb_spec a b) as [Hle | Hlt].
  - apply Qle_bool_iff. rewrite <- Zle_Qle. lia.
  - destruct (Qle_bool (inject_Z (Z.of_nat a)) (inject_Z (Z.of_nat b))) eqn:E;
      [|reflexivity].
    apply Qle_bool_iff in E. rewrite <- Zle_Qle in E. lia.
Qed.

Lemma leb_trans (a b c : number) :
  (a <=? b)%num = true -> (b <=? c)%num = true -> (a <=? c)%num = true.
Proof.
  destruct a as [| |x|], b as [| |y|], c as [| |z|]; cbn; try congruence.
  rewrite !Qle_bool_iff. lra.
Qed.

Lemma below_limit (limit : number) (a b : nat) :
  (of_nat b <=? limit)%num = true -> a < b -> (of_nat a >=? limit)%num = false.
Proof.
  intros Hb Hab. unfold geb.
  destruct (limit <=? of_nat a)%num eqn:E; [|reflexivity].
  pose proof (leb_trans _ _ _ Hb E) as Hle.
  rewrite leb_of_nat in Hle. apply Nat.leb_le in Hle. lia.
Qed.

Lemma geb_mono (limit : number) (a b : nat) :
  (of_nat a >=? limit)%num = true -> a <= b -> (of_nat b >=? limit)%num = true.
Proof.
  unfold geb. intros Ha Hab. apply (leb_trans _ (of_nat a)); [assumption|].
  rewrite leb_of_nat. now apply Nat.leb_le.
Qed.

Section PaginationFacts.
Context `{Runtime}.

Lemma pinListLoop_step (fuel : nat) (limit : number) (status : string)
    (allFiles : list pin_row) (pageOffset : nat) (sc : script) (lg : list string)
    (r : response) :
  sc (length lg) = Responds r ->
  pinListLoop (S fuel) limit status allFiles pageOffset sc lg
  = match data_rows r with
    | None | Some [] => (lg ++ [pinListUrl status pageOffset], Return allFiles)
    | Some rows =>
        if (of_nat (length (allFiles ++ rows)) >=? limit)%num
           || (length rows <? pageLimit)%nat
        then (lg ++ [pinListUrl status pageOffset], Return (allFiles ++ rows))
        else pinListLoop fuel limit status (allFiles ++ rows)
               (pageOffset + pageLimit) sc (lg ++ [pinListUrl status pageOffset])
    end.
Proof.
  intros Hr. simpl. unfold bind at 1, axios_get at 1. rewrite Hr.
  destruct (data_rows r) as [[|row rows]|]; try reflexivity.
  destruct (_ || _); reflexivity.
Qed.

Lemma pinListLoop_run (limit : number) (status : string) (sc : script) :
  forall d j fuel lg,
    length lg = j ->
    d < fuel ->
    (forall i, j <= i <= j + d -> answered sc i) ->
    stops_at sc limit (j + d) = true ->
    (forall i, j <= i < j + d -> stops_at sc limit i = false) ->
    pinListLoop fuel limit status (gathered sc j) (j * pageLimit) sc lg
    = (lg ++ map (fun k => pinListUrl status (k * pageLimit)) (seq j (S d)),
       Return (gathered sc (S (j + d)))).
Proof.
  induction d as [|d IH]; intros j fuel lg Hlg Hfuel Hans Hstop Hgo.
  - destruct fuel as [|fuel]; [lia|].
    destruct (Hans j ltac:(lia)) as [r Hr].
    rewrite Nat.add_0_r in *.
    rewrite (pinListLoop_step _ _ _ _ _ _ _ r) by now rewrite Hlg.
    unfold stops_at in Hstop. simpl gathered in *. unfold rows_at in *.
    rewrite Hr in *. simpl.
    destruct (data_rows r) as [[|row rows]|]; simpl in *.
    + now rewrite app_nil_r.
    + now rewrite Hstop.
    + now rewrite app_nil_r.
  - destruct fuel as [|fuel]; [lia|].
    destruct (Hans j ltac:(lia)) as [r Hr].
    rewrite (pinListLoop_step _ _ _ _ _ _ _ r) by now rewrite Hlg.
    pose proof (Hgo j ltac:(lia)) as Hj.
    unfold stops_at in Hj. simpl gathered in Hj.
    assert (Hrows : rows_at sc j = default [] (data_rows r))
      by (unfold rows_at; now rewrite Hr).
    rewrite Hrows in Hj.
    apply orb_false_iff in Hj as [Hj Hshort].
    apply orb_false_iff in Hj as [Hempty Hlimit].
    destruct (data_rows r) as [[|row rows]|] eqn:Erows; try discriminate.
    change (default [] (Some (row :: rows))) with (row :: rows) in *.
    rewrite Hlimit, Hshort. cbn [orb].
    replace (gathered sc j ++ row :: rows) with (gathered sc (S j))
      by (simpl; now rewrite Hrows).
    replace (j * pageLimit + pageLimit) with (S j * pageLimit) by lia.
    rewrite (IH (S j) fuel).
    + replace (j + S d) with (S j + d) by lia.
      rewrite <- app_assoc. reflexivity.
    + rewrite length_app. simpl. lia.
    + lia.
    + intros i Hi. apply Hans. lia.
    + now replace (S j + d) with (j + S d) by lia.
    + intros i Hi. apply Hgo. lia.
Qed.

(** Without a stop condition the loop has no end of its own: as long as
    every page is answered and none stops it, every bound on the number of
    iterations is used up. *)
Lemma pinListLoop_goes_on (limit : number) (status : string) (sc : script) :
  forall fuel j lg,
    length lg = j ->
    (forall i, j <= i < j + fuel -> answered sc i /\ stops_at sc limit i = false) ->
    pinListLoop fuel limit status (gathered sc j) (j * pageLimit) sc lg
    = (lg ++ map (fun k => pinListUrl status (k * pageLimit)) (seq j fuel), OutOfFuel).
Proof.
  induction fuel as [|fuel IH]; intros j lg Hlg Hgo.
  - cbn. now rewrite app_nil_r.
  - destruct (Hgo j ltac:(lia)) as [[r Hr] Hj].
    rewrite (pinListLoop_step _ _ _ _ _ _ _ r) by now rewrite Hlg.
    unfold stops_at in Hj. simpl gathered in Hj.
    assert (Hrows : rows_at sc j = default [] (data_rows r))
      by (unfold rows_at; now rewrite Hr).
    rewrite Hrows in Hj.
    apply orb_false_iff in Hj as [Hj Hshort].
    apply orb_false_iff in Hj as [Hempty Hlimit].
    destruct (data_rows r) as [[|row rows]|] eqn:Erows; try discriminate.
    change (default [] (Some (row :: rows))) with (row :: rows) in *.
    rewrite Hlimit, Hshort. cbn [orb].
    replace (gathered sc j ++ row :: rows) with (gathered sc (S j))
      by (simpl; now rewrite Hrows).
    replace (j * pageLimit + pageLimit) with (S j * pageLimit) by lia.
    rewrite (IH (S j)).
    + rewrite <- app_assoc. reflexivity.
    + rewrite length_app. simpl. lia.
    + intros i Hi. apply Hgo. lia.
Qed.

Lemma gathered_full_pages (sc : script) (n : nat) :
  (forall i, i < n -> length (rows_at sc i) = pageLimit) ->
  length (gathered sc n) = n * pageLimit.
Proof.
  induction n as [|n IH]; intros Hfull; [reflexivity|].
  simpl gathered. rewrite length_app, IH, Hfull by (intros; try apply Hfull; lia). lia.
Qed.

Lemma listPinnedFiles_least_stop (limit : number) (status : string) (sc : script)
    (k fuel : nat) :
  (forall i, i <= k -> answered sc i) ->
  stops_at sc limit k = true ->
  (forall i, i < k -> stops_at sc limit i = false) ->
  k < fuel ->
  run (listPinnedFiles fuel limit status) sc
  = (page_urls status (S k),
     Return (ListOk (length (gathered sc (S k)))
                    (map pinned_file (gathered sc (S k))) now_iso)).
Proof.
  intros Hans Hstop Hgo Hfuel.
  assert (Hrun : pinListLoop fuel limit status [] 0 sc []
                 = (page_urls status (S k), Return (gathered sc (S k)))).
  { apply (pinListLoop_run limit status sc k 0 fuel []); auto.
    - intros i Hi. apply Hans. lia.
    - intros i Hi. apply Hgo. lia. }
  unfold run, listPinnedFiles, try_catch, bind. rewrite Hrun. reflexivity.
Qed.

Lemma full_page_goes_on (limit : number) (sc : script) (i : nat) :
  length (rows_at sc i) = pageLimit ->
  (of_nat (length (gathered sc (S i))) >=? limit)%num = false ->
  stops_at sc limit i = false.
Proof.
  intros Hfull Hlimit. unfold stops_at. rewrite Hlimit, Hfull. reflexivity.
Qed.

Lemma append_assoc (a b c : string) : (a +:+ b) +:+ c = a +:+ (b +:+ c).
Proof.
  induction a as [|x a IH]; [reflexivity|].
  change (String x ((a +:+ b) +:+ c) = String x (a +:+ (b +:+ c))). now rewrite IH.
Qed.

Lemma append_empty_r (a : string) : a +:+ "" = a.
Proof.
  induction a as [|x a IH]; [reflexivity|].
  change (String x (a +:+ "") = String x a). now rewrite IH.
Qed.

Lemma pinListUrl_address (status : string) (k : nat) :
  pinListUrl status (k * pageLimit) = page_address status k.
Proof.
  unfold pinListUrl, page_address, baseURL, string_of_nat, pageLimit.
  rewrite (Nat.mul_comm k 100).
  destruct (String.eqb status "all").
  - rewrite append_empty_r. reflexivity.
  - cbn -[Nat.mul Nat.to_uint NilZero.string_of_uint].
    rewrite append_assoc. reflexivity.
Qed.

Lemma page_urls_addresses (status : string) (n : nat) :
  page_urls status n = map (page_address status) (seq 0 n).
Proof.
  unfold page_urls. apply map_ext. intros k. apply pinListUrl_address.
Qed.

(** C1: [listPinnedFiles] requests pages of 100 rows at offsets 0, 100,
    200, ... -- the requests it makes are exactly the page addresses
    [...pinList?pageLimit=100&pageOffset=0], [...=100], [...=200], ... in
    this order --, appends each page to the accumulator, and stops at the
    first page that is empty, or brings the accumulator to the limit, or is
    shorter than 100 rows; so over [N] answered pages, all full but the
    last, and with a limit of at least the total, it terminates ([N]
    iterations suffice) with exactly the [(N-1)*100 + last] records of these
    pages, after [N] requests -- or [N - 1], when the full pages alone
    already reach the limit and the last page is empty. *)
Theorem listPinnedFiles_pagination (limit : number) (status : string) (sc : script) :
  (forall k fuel,
      (forall i, i <= k -> answered sc i) ->
      stops_at sc limit k = true ->
      (forall i, i < k -> stops_at sc limit i = false) ->
      k < fuel ->
      run (listPinnedFiles fuel limit status) sc
      = (map (page_address status) (seq 0 (S k)),
         Return (ListOk (length (gathered sc (S k)))
                        (map pinned_file (gathered sc (S k))) now_iso)))
  /\ (forall k,
        stops_at sc limit k
        = (length (rows_at sc k) =? 0)%nat
          || (of_nat (length (gathered sc k ++ rows_at sc k)) >=? limit)%num
          || (length (rows_at sc k) <? 100)%nat)
  /\ (forall N last fuel,
        0 < N ->
        last < 100 ->
        (forall i, i < N -> answered sc i) ->
        (forall i, i < N - 1 -> length (rows_at sc i) = 100) ->
        length (rows_at sc (N - 1)) = last ->
        (of_nat ((N - 1) * 100 + last) <=? limit)%num = true ->
        N <= fuel ->
        let requests :=
          if (0 <? N - 1)%nat && (of_nat ((N - 1) * 100) >=? limit)%num
          then N - 1 else N in
        run (listPinnedFiles fuel limit status) sc
        = (map (page_address status) (seq 0 requests),
           Return (ListOk ((N - 1) * 100 + last)
                          (map pinned_file (gathered sc N)) now_iso))
        /\ length (gathered sc N) = (N - 1) * 100 + last).
Proof.
  split; [|split].
  - intros k fuel Hans Hstop Hgo Hfuel. rewrite <- page_urls_addresses.
    now apply listPinnedFiles_least_stop.
  - intros k. reflexivity.
  - intros N last fuel HN Hlast Hans Hfull Hlen Hlimit Hfuel.
    change 100 with pageLimit in *.
    destruct N as [|n]; [lia|]. clear HN.
    replace (S n - 1) with n in * by lia.
    pose proof (gathered_full_pages sc n Hfull) as Hn.
    assert (Htotal : length (gathered sc (S n)) = n * pageLimit + last)
      by (simpl gathered; rewrite length_app; lia).
    cbn zeta. rewrite <- page_urls_addresses. split; [|exact Htotal].
    destruct (of_nat (n * pageLimit) >=? limit)%num eqn:Ereached.
    + (* the limit is met exactly by the full pages: the last page is empty *)
      assert (last = 0) as ->.
      { pose proof (leb_trans _ _ _ Hlimit Ereached) as Hle.
        rewrite leb_of_nat in Hle. apply Nat.leb_le in Hle. lia. }
      destruct n as [|m].
      * cbn [Nat.ltb Nat.leb andb].
        rewrite (listPinnedFiles_least_stop limit status sc 0 fuel); try lia.
        -- now rewrite Htotal.
        -- intros i Hi. apply Hans. lia.
        -- unfold stops_at. rewrite Hlen. reflexivity.
      * cbn [Nat.ltb Nat.leb andb].
        rewrite (listPinnedFiles_least_stop limit status sc m fuel); try lia.
        -- rewrite Hn, Nat.add_0_r.
           assert (Hempty : rows_at sc (S m) = [])
             by now apply length_zero_iff_nil.
           replace (gathered sc (S (S m))) with (gathered sc (S m))
             by (cbn [gathered]; now rewrite Hempty, app_nil_r).
           reflexivity.
        -- intros i Hi. apply Hans. lia.
        -- unfold stops_at. rewrite Hn, Ereached. rewrite orb_true_r. reflexivity.
        -- intros i Hi. apply full_page_goes_on; [apply Hfull; lia|].
           apply (below_limit limit _ (S m * pageLimit + 0) Hlimit).
           rewrite gathered_full_pages by (intros; apply Hfull; lia).
           unfold pageLimit. lia.
    + rewrite andb_false_r.
      rewrite (listPinnedFiles_least_stop limit status sc n fuel); try lia.
      * now rewrite Htotal.
      * intros i Hi. apply Hans. lia.
      * unfold stops_at. rewrite Hlen.
        apply Nat.ltb_lt in Hlast. rewrite Hlast. apply orb_true_r.
      * intros i Hi. apply full_page_goes_on; [apply Hfull; lia|].
        destruct (of_nat (length (gathered sc (S i))) >=? limit)%num eqn:E;
          [|reflexivity].
        rewrite <- Ereached. symmetry. apply (geb_mono limit _ _ E).
        rewrite gathered_full_pages by (intros; apply Hfull; lia).
        unfold pageLimit. lia.
Qed.

End PaginationFacts.

Lemma listPinnedFiles_pagination_witness :
  run (listPinnedFiles 3 (of_Z 1000) "all") (Sample.script_of_pages Sample.three_pages)
  = ([ "https://api.pinata.cloud/data/pinList?pageLimit=100&pageOffset=0";
       "https://api.pinata.cloud/data/pinList?pageLimit=100&pageOffset=100";
       "https://api.pinata.cloud/data/pinList?pageLimit=100&pageOffset=200" ],
     Return (ListOk 203
               (map pinned_file
                  (Sample.full_page ++ Sample.full_page
                   ++ [Sample.sample_row; Sample.sample_row; Sample.sample_row]))
               (@now_iso Sample.runtime)))
  /\ length (Sample.full_page ++ Sample.full_page
             ++ [Sample.sample_row; Sample.sample_row; Sample.sample_row]) = 203.
Proof.
  apply (proj2 (proj2 (listPinnedFiles_pagination (of_Z 1000) "all"
                         (Sample.script_of_pages Sample.three_pages))) 3 3 3).
  - lia.
  - lia.
  - intros i _. eexists. reflexivity.
  - intros i Hi. destruct i as [|[|i]]; [reflexivity | reflexivity | lia].
  - reflexivity.
  - reflexivity.
  - lia.
Defined.

(** ** Overshoot of the limit *)

Lemma least_true (p : nat -> bool) (n : nat) :
  p n = true ->
  exists k, k <= n /\ p k = true /\ forall i, i < k -> p i = false.
Proof.
  induction n as [n IH] using lt_wf_ind. intros Hn.
  destruct (List.existsb p (seq 0 n)) eqn:E.
  - apply existsb_exists in E as (m & Hm & Hpm).
    apply in_seq in Hm.
    destruct (IH m ltac:(lia) Hpm) as (k & Hk & Hpk & Hmin).
    exists k. repeat split; [lia | assumption | assumption].
  - exists n. repeat split; [lia | assumption |].
    intros i Hi. destruct (p i) eqn:Epi; [|reflexivity].
    assert (List.existsb p (seq 0 n) = true); [|congruence].
    apply existsb_exists. exists i. split; [apply in_seq; lia | assumption].
Qed.

Lemma geb_of_Z_false (a : nat) (z : Z) :
  (of_nat a >=? of_Z z)%num = false -> (Z.of_nat a < z)%Z.
Proof.
  unfold geb, of_nat, of_Z. cbn. intros E.
  destruct (Z_lt_le_dec (Z.of_nat a) z) as [Hlt | Hle]; [assumption|].
  assert (Qle_bool (inject_Z z) (inject_Z (Z.of_nat a)) = true); [|congruence].
  apply Qle_bool_iff. now rewrite <- Zle_Qle.
Qed.

Lemma geb_of_Z_true (a : nat) (z : Z) :
  (z <= Z.of_nat a)%Z -> (of_nat a >=? of_Z z)%num = true.
Proof.
  intros Hle. unfold geb, of_nat, of_Z. cbn.
  apply Qle_bool_iff. now rewrite <- Zle_Qle.
Qed.

Section Overshoot.
Context `{Runtime}.

(** A page that does not stop the loop holds at least [pageLimit] rows and
    leaves the accumulator below the limit. *)
Lemma goes_on_inv (sc : script) (limit : number) (i : nat) :
  stops_at sc limit i = false ->
  pageLimit <= length (rows_at sc i)
  /\ (of_nat (length (gathered sc (S i))) >=? limit)%num = false.
Proof.
  unfold stops_at. intros E.
  apply orb_false_iff in E as [E Hshort]. apply orb_false_iff in E as [_ Hlimit].
  apply Nat.ltb_ge in Hshort. now split.
Qed.

Lemma gathered_while_going (sc : script) (limit : number) (n : nat) :
  (forall i, length (rows_at sc i) <= pageLimit) ->
  (forall i, i < n -> stops_at sc limit i = false) ->
  length (gathered sc n) = n * pageLimit.
Proof.
  intros Hcap Hgo. apply gathered_full_pages.
  intros i Hi. destruct (goes_on_inv sc limit i (Hgo i Hi)) as [Hge _].
  pose proof (Hcap i). lia.
Qed.

Lemma stops_eventually (sc : script) (z : Z) :
  (forall i, length (rows_at sc i) <= pageLimit) ->
  exists k, stops_at sc (of_Z z) k = true
            /\ forall i, i < k -> stops_at sc (of_Z z) i = false.
Proof.
  intros Hcap.
  set (b := Z.to_nat z).
  destruct (List.existsb (stops_at sc (of_Z z)) (seq 0 (S b))) eqn:E.
  - apply existsb_exists in E as (m & _ & Hm).
    destruct (least_true _ m Hm) as (k & _ & Hk & Hmin). now exists k.
  - exfalso.
    assert (Hgo : forall i, i < S b -> stops_at sc (of_Z z) i = false).
    { intros i Hi. destruct (stops_at sc (of_Z z) i) eqn:Ei; [|reflexivity].
      assert (List.existsb (stops_at sc (of_Z z)) (seq 0 (S b)) = true); [|congruence].
      apply existsb_exists. exists i. split; [apply in_seq; lia | assumption]. }
    pose proof (gathered_while_going sc (of_Z z) (S b) Hcap Hgo) as Hlen.
    destruct (goes_on_inv sc (of_Z z) b (Hgo b ltac:(lia))) as [_ Hbelow].
    apply geb_of_Z_false in Hbelow. rewrite Hlen in Hbelow.
    unfold pageLimit in Hbelow. lia.
Qed.

(** C10 (amended): with an integer limit, every page request answered and
    no page above the cap of 100 rows, [listPinnedFiles] returns; what it
    returns is a whole number of pages, never cut down to the limit, and
    the row count is at most [max(limit, 1) + 99] -- so at most
    [limit + 99] as soon as the limit is at least 1. *)
Theorem listPinnedFiles_overshoot_bound (z : Z) (status : string) (sc : script) :
  (forall i, answered sc i) ->
  (forall i, length (rows_at sc i) <= pageLimit) ->
  exists n,
    (forall fuel, n <= fuel ->
       run (listPinnedFiles fuel (of_Z z) status) sc
       = (page_urls status n,
          Return (ListOk (length (gathered sc n))
                         (map pinned_file (gathered sc n)) now_iso)))
    /\ (Z.of_nat (length (gathered sc n)) <= Z.max z 1 + 99)%Z
    /\ ((1 <= z)%Z -> (Z.of_nat (length (gathered sc n)) <= z + 99)%Z).
Proof.
  intros Hans Hcap.
  destruct (stops_eventually sc z Hcap) as (k & Hstop & Hgo).
  assert (Hbound : (Z.of_nat (length (gathered sc (S k))) <= Z.max z 1 + 99)%Z).
  { simpl gathered. rewrite length_app.
    pose proof (Hcap k) as Hk. unfold pageLimit in Hk.
    destruct k as [|j].
    - simpl. lia.
    - destruct (goes_on_inv sc (of_Z z) j (Hgo j ltac:(lia))) as [_ Hbelow].
      apply geb_of_Z_false in Hbelow. lia. }
  exists (S k). split; [|split].
  - intros fuel Hfuel. apply listPinnedFiles_least_stop; auto.
  - exact Hbound.
  - intros Hz. lia.
Qed.

End Overshoot.

Lemma listPinnedFiles_overshoot_bound_witness :
  exists n,
    (forall fuel, n <= fuel ->
       run (listPinnedFiles fuel (of_Z 150) "all")
           (Sample.script_of_pages Sample.three_pages)
       = (page_urls "all" n,
          Return (ListOk (length (gathered (Sample.script_of_pages Sample.three_pages) n))
                    (map pinned_file (gathered (Sample.script_of_pages Sample.three_pages) n))
                    (@now_iso Sample.runtime))))
    /\ (Z.of_nat (length (gathered (Sample.script_of_pages Sample.three_pages) n))
        <= Z.max 150 1 + 99)%Z
    /\ ((1 <= 150)%Z ->
        (Z.of_nat (length (gathered (Sample.script_of_pages Sample.three_pages) n))
         <= 150 + 99)%Z).
Proof.
  apply (listPinnedFiles_overshoot_bound 150 "all"
           (Sample.script_of_pages Sample.three_pages)).
  - intros i. eexists. reflexivity.
  - intros i. unfold rows_at, Sample.script_of_pages. simpl.
    destruct i as [|[|[|i]]]; simpl; unfold pageLimit; try lia.
    destruct i; simpl; lia.
Defined.

(** C10, as stated, fails for a limit of 0: one full page is appended before
    the limit is looked at, and 100 rows are more than [0 + 99]. *)
Lemma listPinnedFiles_limit_zero_counterexample :
  ~ (forall lg count rows ts,
        run (listPinnedFiles 1 (of_Z 0) "all")
            (Sample.script_of_pages [Sample.full_page])
        = (lg, Return (ListOk count rows ts)) ->
        (Z.of_nat count <= 0 + 99)%Z).
Proof.
  intros Hclaim.
  specialize (Hclaim [pinListUrl "all" 0] 100
                (map pinned_file Sample.full_page) (@now_iso Sample.runtime) eq_refl).
  lia.
Qed.

(** The limit can be exceeded: with a limit of 150 the second full page is
    appended whole and 200 rows come back. *)
Example listPinnedFiles_exceeds_limit :
  exists lg rows,
    run (listPinnedFiles 2 (of_Z 150) "all") (Sample.script_of_pages Sample.three_pages)
    = (lg, Return (ListOk 200 rows (@now_iso Sample.runtime))).
Proof. eexists _, _. reflexivity. Qed.

(** ** Empty provider *)

Section EmptyProvider.
Context `{Runtime}.

(** C9: when the provider's first page has no rows, the listing returns
    count 0 with no rows, and the statistics route answers with
    [totalModels = 0], [averageAccuracy = 0], [bestModel = null] and
    [latestModel = null]. *)
Theorem empty_listing_and_statistics (sc : script) (r : response)
    (fuel : nat) (limit : number) (status : string) (now : Z) :
  sc 0 = Responds r ->
  data_rows r = Some [] ->
  run (listPinnedFiles (S fuel) limit status) sc
  = ([pinListUrl status 0], Return (ListOk 0 [] now_iso))
  /\ exists s,
       run (statistics_route (S fuel) now) sc
       = ([pinListUrl default_status 0],
          Return {| code := 200; sent := SuccessBody s (Some now_iso) |})
       /\ totalModels s = 0
       /\ averageAccuracy s = AverageNumber (Fin 0)
       /\ bestModel s = None
       /\ latestModel s = None.
Proof.
  intros Hr Hrows.
  assert (Hlist : forall lim st,
             run (listPinnedFiles (S fuel) lim st) sc
             = ([pinListUrl st 0], Return (ListOk 0 [] now_iso))).
  { intros lim st. unfold run, listPinnedFiles, try_catch. unfold bind at 1.
    rewrite (pinListLoop_step _ _ _ _ _ _ _ r) by exact Hr.
    rewrite Hrows. reflexivity. }
  split; [apply Hlist|].
  exists (compute_stats now []).
  split; [|repeat split].
  unfold run, statistics_route, try_catch. unfold bind at 1.
  specialize (Hlist (of_Z 1000) default_status). unfold run in Hlist.
  rewrite Hlist. reflexivity.
Qed.

End EmptyProvider.

Lemma empty_listing_and_statistics_witness :
  run (listPinnedFiles 1 (of_Z 1000) "all") (Sample.script_of_pages [])
  = ([pinListUrl "all" 0], Return (ListOk 0 [] (@now_iso Sample.runtime)))
  /\ exists s,
       run (statistics_route 1 1717243200000) (Sample.script_of_pages [])
       = ([pinListUrl default_status 0],
          Return {| code := 200; sent := SuccessBody s (Some (@now_iso Sample.runtime)) |})
       /\ totalModels s = 0
       /\ averageAccuracy s = AverageNumber (Fin 0)
       /\ bestModel s = None
       /\ latestModel s = None.
Proof.
  eapply (empty_listing_and_statistics (Sample.script_of_pages [])); reflexivity.
Defined.

(** ** Statistics: accuracy distribution and average *)

Ltac q_reflect :=
  repeat match goal with
    | H : Qle_bool _ _ = true |- _ => apply Qle_bool_iff in H
    | H : Qle_bool _ _ = false |- _ =>
        apply (f_equal negb) in H; cbn [negb] in H;
        apply (proj1 (Qlt_bool_iff _ _)) in H
    end.

Lemma bucket_of_number (a : number) :
  (Nat.b2n (in_high a) + Nat.b2n (in_medium a) + Nat.b2n (in_low a)
   = Nat.b2n (positive a))%nat.
Proof.
  unfold in_high, in_medium, in_low, positive.
  destruct a as [| |q|]; try reflexivity.
  cbn. unfold Qlt_bool.
  destruct (Qle_bool q (9 # 10)) eqn:E1, (Qle_bool (7 # 10) q) eqn:E2,
           (Qle_bool q 0) eqn:E3, (Qle_bool q (7 # 10)) eqn:E4;
    cbn; try reflexivity; q_reflect; exfalso; lra.
Qed.

Lemma nonpositive_in_no_bucket (a : number) :
  (a <=? Fin 0)%num && (positive a || in_high a || in_medium a || in_low a) = false.
Proof.
  unfold in_high, in_medium, in_low, positive.
  destruct a as [| |q|]; try reflexivity.
  cbn. unfold Qlt_bool.
  destruct (Qle_bool q (9 # 10)) eqn:E1, (Qle_bool (7 # 10) q) eqn:E2,
           (Qle_bool q 0) eqn:E3, (Qle_bool q (7 # 10)) eqn:E4;
    cbn; try reflexivity; q_reflect; exfalso; lra.
Qed.

Lemma count_bucket_spec (a : number) (d : accuracy_distribution) :
  positive a = true ->
  count_bucket a d
  = {| high := high d + Nat.b2n (in_high a);
       medium := medium d + Nat.b2n (in_medium a);
       low := low d + Nat.b2n (in_low a) |}.
Proof.
  unfold count_bucket, in_high, in_medium, in_low, positive, gtb, geb.
  destruct a as [| |q|]; try discriminate.
  - cbn. unfold Qlt_bool.
    destruct (Qle_bool q (9 # 10)) eqn:E1, (Qle_bool (7 # 10) q) eqn:E2,
             (Qle_bool q 0) eqn:E3, (Qle_bool q (7 # 10)) eqn:E4;
      cbn; intros Hpos; try discriminate;
      try (f_equal; lia); q_reflect; exfalso; lra.
  - intros _. cbn. f_equal; lia.
Qed.

Section Distribution.
Context `{Runtime}.

Lemma visit_distribution (now : Z) (t : tally) (f : file) :
  let a := file_accuracy f in
  high (t_distribution (visit now t f)) = high (t_distribution t) + Nat.b2n (in_high a)
  /\ medium (t_distribution (visit now t f))
     = medium (t_distribution t) + Nat.b2n (in_medium a)
  /\ low (t_distribution (visit now t f)) = low (t_distribution t) + Nat.b2n (in_low a).
Proof.
  intros a. unfold visit. cbn [t_distribution]. fold a.
  change (a >? Fin 0)%num with (positive a).
  destruct (positive a) eqn:Hpos.
  - rewrite (count_bucket_spec a _ Hpos). cbn. auto.
  - pose proof (bucket_of_number a) as Hb. rewrite Hpos in Hb.
    change (Nat.b2n false) with 0 in Hb. repeat split; lia.
Qed.

Lemma fold_visit_distribution (now : Z) (models : list file) (t : tally) :
  let accs := map file_accuracy models in
  let t' := fold_left (visit now) models t in
  high (t_distribution t') = high (t_distribution t) + count_if in_high accs
  /\ medium (t_distribution t') = medium (t_distribution t) + count_if in_medium accs
  /\ low (t_distribution t') = low (t_distribution t) + count_if in_low accs.
Proof.
  revert t. induction models as [|f models IH]; intros t.
  - cbn. unfold count_if. cbn. repeat split; lia.
  - cbn [fold_left map]. specialize (IH (visit now t f)). cbn zeta in IH.
    destruct IH as (Hh & Hm & Hl).
    destruct (visit_distribution now t f) as (Vh & Vm & Vl). cbn zeta in *.
    rewrite Hh, Hm, Hl, Vh, Vm, Vl. unfold count_if. cbn [List.filter].
    destruct (in_high (file_accuracy f)), (in_medium (file_accuracy f)),
             (in_low (file_accuracy f)); cbn; repeat split; lia.
Qed.

Lemma visit_average (now : Z) (t : tally) (f : file) :
  let a := file_accuracy f in
  validAccuracyCount (visit now t f)
  = (if positive a then S (validAccuracyCount t) else validAccuracyCount t)
  /\ totalAccuracy (visit now t f)
     = (if positive a then (totalAccuracy t + a)%num else totalAccuracy t).
Proof. split; reflexivity. Qed.

Lemma fold_visit_average (now : Z) (models : list file) (t : tally) :
  let valid := List.filter positive (map file_accuracy models) in
  let t' := fold_left (visit now) models t in
  validAccuracyCount t' = validAccuracyCount t + length valid
  /\ totalAccuracy t' = sum_from (totalAccuracy t) valid.
Proof.
  revert t. induction models as [|f models IH]; intros t.
  - cbn. split; [lia | reflexivity].
  - cbn [fold_left map List.filter]. specialize (IH (visit now t f)). cbn zeta in IH.
    destruct IH as (Hc & Hs). rewrite Hc, Hs.
    destruct (visit_average now t f) as (Vc & Vs). cbn zeta in Vc, Vs.
    rewrite Vc, Vs.
    destruct (positive (file_accuracy f)); cbn; split; try lia; reflexivity.
Qed.

(** C3: over any record collection the statistics count in [high] the
    records with accuracy above 0.9, in [medium] those between 0.7 and 0.9
    inclusive, in [low] the strictly positive ones below 0.7; a strictly
    positive accuracy falls in exactly one bucket and any other in none; the
    average is taken over the strictly positive accuracies only; and
    [totalModels] counts every record. *)
Theorem accuracy_distribution_buckets (now : Z) (models : list file) :
  let s := compute_stats now models in
  let accs := map file_accuracy models in
  high (accuracyDistribution s) = count_if in_high accs
  /\ medium (accuracyDistribution s) = count_if in_medium accs
  /\ low (accuracyDistribution s) = count_if in_low accs
  /\ (forall a, (Nat.b2n (in_high a) + Nat.b2n (in_medium a) + Nat.b2n (in_low a)
                 = Nat.b2n (positive a))%nat)
  /\ (forall a, (a <=? Fin 0)%num
                && (positive a || in_high a || in_medium a || in_low a) = false)
  /\ averageAccuracy s = average_of (List.filter positive accs)
  /\ totalModels s = length models.
Proof.
  intros s accs.
  destruct (fold_visit_distribution now models tally_init) as (Hh & Hm & Hl).
  destruct (fold_visit_average now models tally_init) as (Hc & Hs).
  cbn zeta in *. fold accs in Hh, Hm, Hl, Hc, Hs.
  repeat split.
  - exact Hh.
  - exact Hm.
  - exact Hl.
  - exact bucket_of_number.
  - exact nonpositive_in_no_bucket.
  - unfold s, compute_stats. cbn [averageAccuracy].
    rewrite Hc, Hs. cbn [tally_init validAccuracyCount totalAccuracy Nat.add].
    unfold average_of. destruct (List.filter positive accs); reflexivity.
Qed.

End Distribution.

(** Accuracy tags 0.95, 0.9, 0.7, 0.5, 0, -1 and one that is not a number. *)
Example statistics_of_seven_accuracies :
  accuracyDistribution
    (@compute_stats Sample.runtime 1717243200000
       (map (fun a => pinned_file (Sample.tagged "model" "2024-06-01T00:00:00.000Z"
                                     [("accuracy", a)]))
            ["0.95"; "0.9"; "0.7"; "0.5"; "0"; "-1"; "n/a"]))
  = {| high := 1; medium := 2; low := 1 |}.
Proof. reflexivity. Qed.

(** ** Statistics: recency counters *)



Section Recency.
Context `{Runtime}.



End Recency.


(** ** Statistics: best and latest model *)

Lemma positive_not_nan (a : number) : positive a = true -> is_nan a = false.
Proof. destruct a; [discriminate | reflexivity ..]. Qed.

Lemma leb_ltb_trans (a b c : number) :
  (a <=? b)%num = true -> (b <? c)%num = true -> (a <? c)%num = true.
Proof.
  destruct a as [| |x|], b as [| |y|], c as [| |z|]; cbn; try congruence.
  rewrite Qle_bool_iff, !Qlt_bool_iff. lra.
Qed.

Section BestModelFacts.
Context `{Runtime}.

Lemma visit_best (now : Z) (seen : list file) (t : tally) (f : file) :
  best_so_far seen t -> best_so_far (seen ++ [f]) (visit now t f).
Proof.
  intros Hinv. unfold visit. cbn [t_bestModel bestAccuracy].
  change (file_accuracy f >? Fin 0)%num with (positive (file_accuracy f)).
  unfold gtb.
  destruct Hinv as [(Hnone & Hzero & Hall) | (pre & b & post & -> & Hsome & Hacc & Hpos & Hpre & Hpost)].
  - rewrite Hzero. change (Fin 0 <? file_accuracy f)%num with (positive (file_accuracy f)).
    destruct (positive (file_accuracy f)) eqn:Hf; cbn [andb].
    + right. exists seen, f, []. repeat split; auto.
      * intros g Hg Hgpos. rewrite (Hall g Hg) in Hgpos. discriminate.
      * intros g [].
    + left. repeat split; auto.
      intros g Hg. apply in_app_iff in Hg as [Hg | [<- | []]]; auto.
  - rewrite Hacc.
    destruct (positive (file_accuracy f) && (file_accuracy b <? file_accuracy f)%num)
      eqn:Hbetter.
    + apply andb_true_iff in Hbetter as [Hf Hlt].
      right. exists (pre ++ b :: post), f, []. repeat split; auto.
      * intros g Hg Hgpos. apply in_app_iff in Hg as [Hg | [<- | Hg]].
        -- apply (ltb_trans _ (file_accuracy b)); auto.
        -- assumption.
        -- apply (leb_ltb_trans _ (file_accuracy b)); [|assumption].
           rewrite leb_negb_ltb by auto using positive_not_nan.
           now rewrite (Hpost g Hg).
      * intros g [].
    + right. exists pre, b, (post ++ [f]). repeat split; auto.
      * now rewrite <- app_assoc.
      * intros g Hg. apply in_app_iff in Hg as [Hg | [Hg | []]]; auto.
        subst g.
        apply andb_false_iff in Hbetter as [Hf | Hlt]; [|assumption].
        destruct (file_accuracy b <? file_accuracy f)%num eqn:E; [|reflexivity].
        assert (positive (file_accuracy f) = true); [|congruence].
        apply (ltb_trans _ (file_accuracy b)); assumption.
Qed.

Lemma fold_visit_best (now : Z) (models seen : list file) (t : tally) :
  best_so_far seen t -> best_so_far (seen ++ models) (fold_left (visit now) models t).
Proof.
  revert seen t. induction models as [|f models IH]; intros seen t Hinv.
  - now rewrite app_nil_r.
  - cbn [fold_left].
    replace (seen ++ f :: models) with ((seen ++ [f]) ++ models)
      by now rewrite <- app_assoc.
    apply IH. now apply visit_best.
Qed.

(** The best-model half of the claim on best and latest model:
    [bestModel] is built from the first record
    with the highest strictly positive accuracy, and is [null] exactly when
    no record has a strictly positive accuracy. *)
Lemma best_model_first_maximum (now : Z) (models : list file) :
  match bestModel (compute_stats now models) with
  | Some b => exists f, b = best_summary f /\ first_best models f
  | None => forall g, In g models -> positive (file_accuracy g) = false
  end.
Proof.
  unfold compute_stats. cbn [bestModel].
  destruct (fold_visit_best now models [] tally_init) as
    [(Hnone & _ & Hall) | (pre & f & post & Hsplit & Hsome & _ & Hpos & Hpre & Hpost)].
  - left. repeat split. intros g [].
  - rewrite Hnone. exact Hall.
  - rewrite Hsome. exists f. split; [reflexivity|].
    exists pre, post. repeat split; auto.
    intros g Hg Hgpos.
    rewrite leb_negb_ltb by auto using positive_not_nan.
    now rewrite (Hpost g Hg).
Qed.

End BestModelFacts.

(** *** The latest model on the rows [listPinnedFiles] returns *)

Lemma sort_without_order {A : Type} (comparefn : A -> A -> option number) (l : list A) :
  (forall x y, In x l -> In y l -> exists c, comparefn x y = Some c /\ is_pos c = false) ->
  JSArray.sort comparefn l = Some l.
Proof.
  induction l as [|x t IH]; intros Hflat; [reflexivity|].
  cbn [JSArray.sort]. rewrite IH by (intros; apply Hflat; now right).
  destruct t as [|y t']; [reflexivity|].
  cbn [JSArray.insert_sorted].
  destruct (Hflat x y) as (c & -> & ->); [now left | right; now left | reflexivity].
Qed.

Section LatestModel.
Context `{Runtime}.

(** The rows of [listPinnedFiles] carry [date_pinned] and no [timestamp]:
    every comparison in the sort is NaN, the order is left as it is, and
    the latest file is the first row whatever the pin dates are. *)
Lemma latest_file_of_pinned_files (rows : list pin_row) :
  latest_file (List.filter statistics_filter (map pinned_file rows))
  = head (List.filter statistics_filter (map pinned_file rows)).
Proof.
  unfold latest_file. rewrite sort_without_order.
  - destruct (List.filter _ _); reflexivity.
  - intros x y Hx Hy. eexists. split; [reflexivity|].
    apply filter_In in Hx as [Hx _], Hy as [Hy _].
    apply in_map_iff in Hx as (rx & <- & _), Hy as (ry & <- & _).
    reflexivity.
Qed.

(** For the same reason the age of every such row is NaN and no recency
    counter moves. *)
Lemma count_recent_nan (r : recent_uploads) : count_recent NaN r = r.
Proof. now destruct r. Qed.

Lemma recent_uploads_of_pinned_files (now : Z) (rows : list pin_row) :
  recentUploads (compute_stats now (List.filter statistics_filter (map pinned_file rows)))
  = {| last24h := 0; last7d := 0; last30d := 0 |}.
Proof.
  unfold compute_stats. cbn [recentUploads].
  change {| last24h := 0; last7d := 0; last30d := 0 |} with (t_recent tally_init).
  generalize tally_init.
  induction rows as [|row rows IH]; intros t; [reflexivity|].
  cbn [map List.filter].
  destruct (statistics_filter (pinned_file row)); [|apply IH].
  cbn [fold_left]. rewrite IH. unfold visit. cbn [t_recent].
  apply count_recent_nan.
Qed.

End LatestModel.

(** C5, on the code: the provider lists a model pinned on 1 January 2024
    and then one pinned on 1 June 2024.  The best model is the first record
    with the highest accuracy, as specified; the latest model is reported as
    the January one, with no upload date, because the route reads
    [file.timestamp] and the rows carry [date_pinned]. *)
Theorem latest_model_not_by_pin_date :
  exists lg s,
    run (statistics_route 1 1717243200000)
        (Sample.script_of_pages [[Sample.january_model; Sample.june_model]])
    = (lg, Return {| code := 200; sent := SuccessBody s (Some (@now_iso Sample.runtime)) |})
    /\ bestModel s
       = Some {| bm_name := Some "churn-model-jan"; bm_ipfsHash := None;
                 bm_accuracy := Fin (95 # 100); bm_modelType := "unknown" |}
    /\ latestModel s
       = Some {| lm_name := Some "churn-model-jan"; lm_ipfsHash := None;
                 lm_uploadedAt := None; lm_modelType := "unknown" |}.
Proof. eexists _, _. repeat split. Qed.

(** On rows of the shape [src/unnamed/part_000] builds, which carry
    [timestamp], the same computation picks the June model. *)
Example latest_file_with_timestamps :
  option_map name
    (@latest_file Sample.runtime
       (omap Part000.pinned_file [Sample.january_model; Sample.june_model]))
  = Some (Some "churn-model-jun").
Proof. reflexivity. Qed.

(** ** Sorting by accuracy *)

Section SortFacts.
Context {A : Type}.

Lemma sort_total (comparefn : A -> A -> option number) (c : A -> A -> number)
    (l : list A) :
  (forall x y, comparefn x y = Some (c x y)) ->
  JSArray.sort comparefn l = Some (isort_by (fun x y => is_pos (c x y)) l).
Proof.
  intros Hc.
  assert (Hins : forall x s, JSArray.insert_sorted comparefn x s
                             = Some (insert_by (fun x y => is_pos (c x y)) x s)).
  { intros x s. induction s as [|y t IH]; [reflexivity|].
    cbn [JSArray.insert_sorted insert_by]. rewrite Hc, IH.
    destruct (is_pos (c x y)); reflexivity. }
  induction l as [|x t IH]; [reflexivity|].
  cbn [JSArray.sort isort_by]. rewrite IH. apply Hins.
Qed.

Variable past : A -> A -> bool.

(** [x] stands before [y] in a sorted list: [y] has to move past [x]. *)
Let before (x y : A) : Prop := past y x = true.

(** The two elements are ordered one way or the other. *)
Let ordered (x y : A) : Prop := past x y = negb (past y x).

Hypothesis past_trans :
  forall x y z, past y x = true -> past z y = true -> past z x = true.

Lemma insert_by_perm (x : A) (l : list A) : Permutation (x :: l) (insert_by past x l).
Proof.
  induction l as [|y t IH]; [reflexivity|].
  cbn [insert_by]. destruct (past x y); [|reflexivity].
  rewrite perm_swap. now apply perm_skip.
Qed.

Lemma isort_by_perm (l : list A) : Permutation l (isort_by past l).
Proof.
  induction l as [|x t IH]; [reflexivity|].
  cbn [isort_by]. rewrite <- insert_by_perm. now apply perm_skip.
Qed.

Lemma insert_by_sorted (x : A) (s : list A) :
  Forall (ordered x) s ->
  StronglySorted before s ->
  StronglySorted before (insert_by past x s).
Proof.
  induction s as [|y t IH]; intros Hord Hs.
  - repeat constructor.
  - apply Forall_cons_iff in Hord as [Hxy Hord].
    apply StronglySorted_inv in Hs as [Ht Hy].
    cbn [insert_by]. destruct (past x y) eqn:E.
    + constructor; [now apply IH|].
      apply (Permutation_Forall (insert_by_perm x t)).
      constructor; assumption.
    + assert (Hyx : before x y)
        by (unfold before; unfold ordered in Hxy; rewrite E in Hxy;
            now destruct (past y x)).
      constructor; [now constructor|].
      constructor; [assumption|].
      eapply List.Forall_impl; [|exact Hy].
      intros z Hz. unfold before in *. now apply (past_trans x y z).
Qed.

Lemma isort_by_sorted (l : list A) :
  ForallOrdPairs ordered l -> StronglySorted before (isort_by past l).
Proof.
  induction 1 as [|x t Hx Ht IH]; [constructor|].
  cbn [isort_by]. apply insert_by_sorted; [|assumption].
  now apply (Permutation_Forall (isort_by_perm t)).
Qed.

End SortFacts.

Section SortedLists.
Context {A : Type} (R : A -> A -> Prop).

Lemma sorted_snoc (l : list A) (a : A) :
  StronglySorted R l -> Forall (fun x => R x a) l -> StronglySorted R (l ++ [a]).
Proof.
  induction l as [|x t IH]; intros Hs Ha; cbn.
  - repeat constructor.
  - apply StronglySorted_inv in Hs as [Ht Hx].
    apply Forall_cons_iff in Ha as [Hxa Ha].
    constructor; [now apply IH|].
    apply Forall_app. split; [assumption | now constructor].
Qed.

Lemma sorted_unique (l1 l2 : list A) :
  (forall x y, R x y -> R y x -> False) ->
  Permutation l1 l2 -> StronglySorted R l1 -> StronglySorted R l2 -> l1 = l2.
Proof.
  intros Hasym. revert l2.
  induction l1 as [|a t1 IH]; intros l2 Hperm H1 H2.
  - now apply Permutation_nil in Hperm.
  - destruct l2 as [|b t2].
    + symmetry in Hperm. now apply Permutation_nil in Hperm.
    + apply StronglySorted_inv in H1 as [Ht1 Ha].
      apply StronglySorted_inv in H2 as [Ht2 Hb].
      assert (a = b) as <-.
      { pose proof (Permutation_in a Hperm ltac:(now left)) as [E | Ha2]; [congruence|].
        symmetry in Hperm.
        pose proof (Permutation_in b Hperm ltac:(now left)) as [E | Hb1]; [congruence|].
        exfalso. apply (Hasym a b).
        - exact (proj1 (List.Forall_forall _ _) Ha b Hb1).
        - exact (proj1 (List.Forall_forall _ _) Hb a Ha2). }
      f_equal. apply IH; try assumption.
      now apply Permutation_cons_inv in Hperm.
Qed.

End SortedLists.

Lemma sorted_impl {A : Type} (R R' : A -> A -> Prop) (l : list A) :
  (forall x y, R x y -> R' x y) -> StronglySorted R l -> StronglySorted R' l.
Proof.
  intros HR. induction 1 as [|a t Ht IH Ha]; constructor; [assumption|].
  eapply List.Forall_impl; [|exact Ha]. intros y. apply HR.
Qed.

Lemma sorted_rev {A : Type} (R : A -> A -> Prop) (l : list A) :
  StronglySorted R l -> StronglySorted (fun x y => R y x) (rev l).
Proof.
  induction l as [|a t IH]; intros Hs; cbn; [constructor|].
  apply StronglySorted_inv in Hs as [Ht Ha].
  apply sorted_snoc; [now apply IH|].
  now apply Forall_rev.
Qed.

Lemma ordered_pairs_impl {A : Type} (P Q : A -> A -> Prop) (l : list A) :
  (forall x y, P x y -> Q x y) -> ForallOrdPairs P l -> ForallOrdPairs Q l.
Proof.
  intros HPQ. induction 1 as [|x t Hx Ht IH]; constructor; [|assumption].
  eapply List.Forall_impl; [|exact Hx]. intros y. apply HPQ.
Qed.

Lemma distinct_numbers_ordered (a b : number) :
  distinct_numbers a b ->
  (a <? b)%num = negb (b <? a)%num /\ (b <? a)%num = negb (a <? b)%num.
Proof.
  unfold distinct_numbers, num_eqb.
  destruct a as [| |x|], b as [| |y|]; cbn; intros (Ha & Hb & Hne);
    try discriminate; try (split; reflexivity).
  unfold Qlt_bool.
  destruct (Qle_bool x y) eqn:Exy, (Qle_bool y x) eqn:Eyx;
    try discriminate; try (split; reflexivity).
  exfalso. q_reflect. lra.
Qed.

Section SortModels.
Context `{Runtime}.

Lemma sortModels_desc (models : list model) :
  sortModels models "accuracy" "desc"
  = Some (isort_by (fun x y => is_pos (m_accuracy y - m_accuracy x)%num) models).
Proof. unfold sortModels. now apply sort_total. Qed.

Lemma sortModels_asc (models : list model) :
  sortModels models "accuracy" "asc"
  = Some (isort_by (fun x y => is_pos (- (m_accuracy y - m_accuracy x))%num) models).
Proof. unfold sortModels. now apply sort_total. Qed.

(** C7 (amended): when every accuracy is a number (not NaN) and no two
    records have equal accuracy, sorting by ["accuracy"] in descending order
    gives exactly the reverse of sorting the same list in ascending
    order. *)
Theorem sort_accuracy_desc_reverses_asc (models : list model) :
  no_ties models ->
  exists ascending,
    sortModels models "accuracy" "asc" = Some ascending
    /\ sortModels models "accuracy" "desc" = Some (rev ascending).
Proof.
  intros Hties. rewrite sortModels_asc, sortModels_desc.
  eexists. split; [reflexivity|]. f_equal.
  set (past_d := fun x y : model => is_pos (m_accuracy y - m_accuracy x)%num).
  set (past_a := fun x y : model => is_pos (- (m_accuracy y - m_accuracy x))%num).
  apply (sorted_unique (fun x y => past_d y x = true)).
  - intros x y. unfold past_d. rewrite !is_pos_sub.
    intros Hxy Hyx. apply ltb_asym in Hxy. congruence.
  - rewrite <- isort_by_perm. rewrite <- Permutation_rev. apply isort_by_perm.
  - apply isort_by_sorted.
    + intros x y z. unfold past_d. rewrite !is_pos_sub.
      intros Hyx Hzy. exact (ltb_trans _ _ _ Hzy Hyx).
    + eapply ordered_pairs_impl; [|exact Hties].
      intros x y Hd. unfold past_d. rewrite !is_pos_sub.
      exact (proj1 (distinct_numbers_ordered _ _ Hd)).
  - assert (Hasc : StronglySorted (fun x y => past_a y x = true) (isort_by past_a models)).
    { apply isort_by_sorted.
      - intros x y z. unfold past_a. rewrite !is_pos_opp_sub.
        intros Hyx Hzy. exact (ltb_trans _ _ _ Hyx Hzy).
      - eapply ordered_pairs_impl; [|exact Hties].
        intros x y Hd. unfold past_a. rewrite !is_pos_opp_sub.
        exact (proj2 (distinct_numbers_ordered _ _ Hd)). }
    apply sorted_rev in Hasc.
    eapply sorted_impl; [|exact Hasc].
    intros x y. unfold past_a, past_d. cbn beta.
    now rewrite is_pos_opp_sub, is_pos_sub.
Qed.

End SortModels.

Lemma sort_accuracy_desc_reverses_asc_witness :
  exists ascending,
    @sortModels Sample.runtime Sample.three_rated "accuracy" "asc" = Some ascending
    /\ @sortModels Sample.runtime Sample.three_rated "accuracy" "desc"
       = Some (rev ascending).
Proof.
  apply (@sort_accuracy_desc_reverses_asc Sample.runtime Sample.three_rated).
  unfold no_ties, distinct_numbers.
  repeat (constructor; try (repeat split; reflexivity)).
Defined.

Example sort_three_rated :
  option_map (map m_name) (@sortModels Sample.runtime Sample.three_rated "accuracy" "desc")
  = Some [Some "model-b"; Some "model-c"; Some "model-a"]
  /\ option_map (map m_name)
       (@sortModels Sample.runtime Sample.three_rated "accuracy" "asc")
     = Some [Some "model-a"; Some "model-c"; Some "model-b"].
Proof. split; reflexivity. Qed.

(** C7, as stated, fails when an accuracy tag is not a number: the model
    with accuracy NaN and the model with accuracy 0.5 have no equal
    accuracy, every comparison is NaN, and both orders leave the list as it
    is. *)
Lemma sort_accuracy_nan_counterexample :
  ~ (no_equal_accuracy Sample.unrated_then_half ->
     exists ascending,
       @sortModels Sample.runtime Sample.unrated_then_half "accuracy" "asc"
       = Some ascending
       /\ @sortModels Sample.runtime Sample.unrated_then_half "accuracy" "desc"
          = Some (rev ascending)).
Proof.
  intros Hclaim.
  destruct Hclaim as (ascending & Hasc & Hdesc).
  - unfold no_equal_accuracy. repeat (constructor; try reflexivity).
  - assert (Ea : @sortModels Sample.runtime Sample.unrated_then_half "accuracy" "asc"
                 = Some Sample.unrated_then_half) by reflexivity.
    assert (Ed : @sortModels Sample.runtime Sample.unrated_then_half "accuracy" "desc"
                 = Some Sample.unrated_then_half) by reflexivity.
    rewrite Ea in Hasc. rewrite Ed in Hdesc.
    injection Hasc as <-.
    apply (f_equal (option_map (map m_name))) in Hdesc.
    discriminate Hdesc.
Qed.

(** ** The latest model on rows that carry a timestamp *)

Lemma leb_refl (a : number) : is_nan a = false -> (a <=? a)%num = true.
Proof.
  destruct a as [| |x|]; cbn; try congruence. intros _. apply Qle_bool_iff. lra.
Qed.

Lemma head_insert_by {A : Type} (past : A -> A -> bool) (x : A) (s : list A) :
  head (insert_by past x s)
  = Some (match head s with
          | Some y => if past x y then y else x
          | None => x
          end).
Proof. destruct s as [|y t]; cbn; [reflexivity|]. now destruct (past x y). Qed.

Section LatestByTimestamp.
Context `{Runtime}.

(** On records that all carry a valid [timestamp], the file the route
    calls latest is a record of the collection with the greatest time value
    -- what the sort by date is there for. *)
Lemma latest_file_maximum (models : list file) :
  Forall (fun f => is_nan (date_value (timestamp f)) = false) models ->
  match latest_file models with
  | Some f =>
      In f models
      /\ forall g, In g models ->
                   (date_value (timestamp g) <=? date_value (timestamp f))%num = true
  | None => models = []
  end.
Proof.
  intros Hvalid. unfold latest_file.
  rewrite (sort_total _ (fun a b => (date_value (timestamp b) - date_value (timestamp a))%num))
    by reflexivity.
  set (past := fun x y : file =>
                 is_pos (date_value (timestamp y) - date_value (timestamp x))%num).
  assert (Hhead : match head (isort_by past models) with
                  | Some f =>
                      In f models
                      /\ forall g, In g models ->
                           (date_value (timestamp g) <=? date_value (timestamp f))%num = true
                  | None => models = []
                  end).
  { induction Hvalid as [|x t Hx Ht IH]; [reflexivity|].
    cbn [isort_by]. rewrite head_insert_by.
    destruct (head (isort_by past t)) as [y|].
    - destruct IH as [Hy Hmax].
      replace (past x y) with (date_value (timestamp x) <? date_value (timestamp y))%num
        by (unfold past; now rewrite is_pos_sub).
      assert (Hyv : is_nan (date_value (timestamp y)) = false)
        by exact (proj1 (List.Forall_forall _ _) Ht y Hy).
      destruct (date_value (timestamp x) <? date_value (timestamp y))%num eqn:E.
      + split; [now right|]. intros g [<- | Hg]; [|now apply Hmax].
        rewrite leb_negb_ltb by assumption.
        now rewrite (ltb_asym _ _ E).
      + split; [now left|]. intros g [<- | Hg]; [now apply leb_refl|].
        apply (leb_trans _ (date_value (timestamp y))); [now apply Hmax|].
        rewrite leb_negb_ltb by assumption. now rewrite E.
    - subst t. split; [now left|]. intros g [<- | []]. now apply leb_refl. }
  destruct (isort_by past models) as [|f rest]; exact Hhead.
Qed.

End LatestByTimestamp.

(** * Further properties of the code *)

(** ** Listing: failures, shape of the result, number of requests *)

Section ListingFacts.
Context `{Runtime}.

Lemma pinListLoop_fails (limit : number) (status : string) (sc : script) (e : error) :
  forall d j fuel lg,
    length lg = j ->
    d < fuel ->
    (forall i, j <= i < j + d -> answered sc i /\ stops_at sc limit i = false) ->
    sc (j + d) = Fails e ->
    pinListLoop fuel limit status (gathered sc j) (j * pageLimit) sc lg
    = (lg ++ map (fun k => pinListUrl status (k * pageLimit)) (seq j (S d)), Throw e).
Proof.
  induction d as [|d IH]; intros j fuel lg Hlg Hfuel Hgo Hfail.
  - destruct fuel as [|fuel]; [lia|]. rewrite Nat.add_0_r in Hfail.
    cbn [pinListLoop]. unfold bind, axios_get. rewrite Hlg, Hfail. reflexivity.
  - destruct fuel as [|fuel]; [lia|].
    destruct (Hgo j ltac:(lia)) as [[r Hr] Hj].
    rewrite (pinListLoop_step _ _ _ _ _ _ _ r) by now rewrite Hlg.
    unfold stops_at in Hj. simpl gathered in Hj.
    assert (Hrows : rows_at sc j = default [] (data_rows r))
      by (unfold rows_at; now rewrite Hr).
    rewrite Hrows in Hj.
    apply orb_false_iff in Hj as [Hj Hshort].
    apply orb_false_iff in Hj as [Hempty Hlimit].
    destruct (data_rows r) as [[|row rows]|] eqn:Erows; try discriminate.
    change (default [] (Some (row :: rows))) with (row :: rows) in *.
    rewrite Hlimit, Hshort. cbn [orb].
    replace (gathered sc j ++ row :: rows) with (gathered sc (S j))
      by (simpl; now rewrite Hrows).
    replace (j * pageLimit + pageLimit) with (S j * pageLimit) by lia.
    rewrite (IH (S j) fuel).
    + rewrite <- app_assoc. reflexivity.
    + rewrite length_app. simpl. lia.
    + lia.
    + intros i Hi. apply Hgo. lia.
    + now replace (S j + d) with (j + S d) by lia.
Qed.

(** The listing when request [k] fails after [k] pages that did not stop
    the loop. *)
Lemma listPinnedFiles_fails (limit : number) (status : string) (sc : script)
    (k fuel : nat) (e : error) :
  (forall i, i < k -> answered sc i /\ stops_at sc limit i = false) ->
  sc k = Fails e ->
  k < fuel ->
  run (listPinnedFiles fuel limit status) sc
  = (page_urls status (S k),
     Return (ListFailed (error_text e) "Failed to list pinned files" now_iso)).
Proof.
  intros Hgo Hfail Hfuel.
  assert (Hrun : pinListLoop fuel limit status [] 0 sc []
                 = (page_urls status (S k), Throw e)).
  { apply (pinListLoop_fails limit status sc e k 0 fuel []); auto.
    intros i Hi. apply Hgo. lia. }
  unfold run, listPinnedFiles, try_catch, bind. rewrite Hrun. reflexivity.
Qed.

(** X1: when a page request fails, [listPinnedFiles] does not throw and
    does not keep what it had gathered: after [k] full pages below the limit
    and a failing request [k], it returns the failure result with the
    provider's error text and no rows. *)
Theorem listPinnedFiles_failure_discards_rows (limit : number) (status : string)
    (sc : script) (k fuel : nat) (e : error) :
  (forall i, i < k -> answered sc i /\ stops_at sc limit i = false) ->
  sc k = Fails e ->
  k < fuel ->
  exists r,
    run (listPinnedFiles fuel limit status) sc = (page_urls status (S k), Return r)
    /\ success r = false
    /\ result_rows r = []
    /\ result_error r = Some (error_text e).
Proof.
  intros Hgo Hfail Hfuel. eexists. split.
  - apply (listPinnedFiles_fails limit status sc k fuel e); assumption.
  - repeat split.
Qed.

(** Every run of the loop ends in one of three ways. *)
Lemma pinListLoop_outcome (limit : number) (status : string) (sc : script) :
  forall fuel j lg,
    length lg = j ->
    exists n, j <= n <= j + fuel /\
      let lg' := lg ++ map (fun k => pinListUrl status (k * pageLimit)) (seq j (n - j)) in
      (j < n /\ pinListLoop fuel limit status (gathered sc j) (j * pageLimit) sc lg
                = (lg', Return (gathered sc n)))
      \/ (j < n /\ exists e, sc (n - 1) = Fails e
                    /\ pinListLoop fuel limit status (gathered sc j) (j * pageLimit) sc lg
                       = (lg', Throw e))
      \/ (n = j + fuel
          /\ pinListLoop fuel limit status (gathered sc j) (j * pageLimit) sc lg
             = (lg', OutOfFuel)).
Proof.
  induction fuel as [|fuel IH]; intros j lg Hlg.
  - exists j. split; [lia|]. right. right. split; [lia|].
    rewrite Nat.sub_diag. cbn. now rewrite app_nil_r.
  - destruct (sc j) as [r|e] eqn:Hr.
    + rewrite (pinListLoop_step _ _ _ _ _ _ _ r) by now rewrite Hlg.
      assert (Hrows : rows_at sc j = default [] (data_rows r))
        by (unfold rows_at; now rewrite Hr).
      assert (Hone : seq j (S j - j) = [j])
        by (replace (S j - j) with 1 by lia; reflexivity).
      destruct (data_rows r) as [[|row rows]|] eqn:Erows.
      * exists (S j). split; [lia|]. left. split; [lia|].
        rewrite Hone. simpl gathered. rewrite Hrows. cbn. now rewrite app_nil_r.
      * change (default [] (Some (row :: rows))) with (row :: rows) in Hrows.
        replace (gathered sc j ++ row :: rows) with (gathered sc (S j))
          by (simpl; now rewrite Hrows).
        destruct (_ || _).
        -- exists (S j). split; [lia|]. left. split; [lia|]. now rewrite Hone.
        -- replace (j * pageLimit + pageLimit) with (S j * pageLimit) by lia.
           destruct (IH (S j) (lg ++ [pinListUrl status (j * pageLimit)]))
             as (n & Hn & Hcase); [rewrite length_app; simpl; lia|].
           exists n. split; [lia|].
           assert (Hseq : seq j (n - j) = j :: seq (S j) (n - S j))
             by (replace (n - j) with (S (n - S j)) by lia; reflexivity).
           rewrite Hseq. cbn [map]. rewrite <- app_assoc in Hcase. cbn [app] in Hcase.
           cbn zeta in *.
           destruct Hcase as [[Hlt E] | [(Hlt & e & He & E) | [Hlast E]]].
           ++ left. split; [lia | exact E].
           ++ right. left. split; [lia|]. exists e. split; [assumption | exact E].
           ++ right. right. split; [lia | exact E].
      * exists (S j). split; [lia|]. left. split; [lia|].
        rewrite Hone. simpl gathered. rewrite Hrows. cbn. now rewrite app_nil_r.
    + exists (S j). split; [lia|]. right. left. split; [lia|].
      exists e. split; [now replace (S j - 1) with j by lia|].
      cbn [pinListLoop]. unfold bind, axios_get. rewrite Hlg, Hr.
      replace (S j - j) with 1 by lia. reflexivity.
Qed.

(** X2: whatever the limit, the status, the replies and the bound on
    iterations, [listPinnedFiles] never throws; it has requested pages
    0 .. n-1 in that order at offsets 0, 100, ..., and it returns either all
    rows of those pages in the provider's order (never a part of a page),
    or the failure result for the failed request, or it is still running
    when the bound is reached. *)
Theorem listPinnedFiles_outcomes (fuel : nat) (limit : number) (status : string)
    (sc : script) :
  exists n, n <= fuel /\
    ((0 < n
      /\ run (listPinnedFiles fuel limit status) sc
         = (page_urls status n,
            Return (ListOk (length (gathered sc n))
                           (map pinned_file (gathered sc n)) now_iso)))
     \/ (0 < n /\ exists e,
           sc (n - 1) = Fails e
           /\ run (listPinnedFiles fuel limit status) sc
              = (page_urls status n,
                 Return (ListFailed (error_text e) "Failed to list pinned files" now_iso)))
     \/ (n = fuel
         /\ run (listPinnedFiles fuel limit status) sc = (page_urls status n, OutOfFuel))).
Proof.
  destruct (pinListLoop_outcome limit status sc fuel 0 [] eq_refl) as (n & Hn & Hcase).
  exists n. split; [lia|]. cbn zeta in Hcase.
  rewrite Nat.sub_0_r in Hcase. cbn [app gathered Nat.mul] in Hcase.
  fold (page_urls status n) in Hcase.
  unfold run, listPinnedFiles, try_catch, bind.
  destruct Hcase as [[Hlt E] | [(Hlt & e & He & E) | [Hlast E]]]; rewrite E.
  - left. now split.
  - right. left. split; [assumption|]. exists e. now split.
  - right. right. now split.
Qed.

Lemma gathered_at_least (sc : script) (limit : number) (n : nat) :
  (forall i, i < n -> stops_at sc limit i = false) ->
  n * pageLimit <= length (gathered sc n).
Proof.
  induction n as [|n IH]; intros Hgo; [cbn; lia|].
  simpl gathered. rewrite length_app.
  destruct (goes_on_inv sc limit n (Hgo n ltac:(lia))) as [Hge _].
  specialize (IH ltac:(intros; apply Hgo; lia)). lia.
Qed.

(** X3: with an integer limit and every page request answered,
    [listPinnedFiles] returns after at least one and at most
    [max(1, ceil(limit / 100))] requests, whatever the size of the pages; a
    limit of 100 or less costs exactly one request. *)
Theorem listPinnedFiles_request_bound (z : Z) (status : string) (sc : script) :
  (forall i, answered sc i) ->
  exists n,
    1 <= n
    /\ (Z.of_nat n <= Z.max 1 ((z + 99) / 100))%Z
    /\ ((z <= 100)%Z -> n = 1)
    /\ forall fuel, n <= fuel ->
         run (listPinnedFiles fuel (of_Z z) status) sc
         = (page_urls status n,
            Return (ListOk (length (gathered sc n))
                           (map pinned_file (gathered sc n)) now_iso)).
Proof.
  intros Hans.
  set (b := Z.to_nat (Z.max 1 ((z + 99) / 100))).
  assert (Hb : 1 <= b) by lia.
  assert (Hz : (z <= Z.of_nat (b * pageLimit))%Z).
  { unfold pageLimit, b. pose proof (Z.div_mod (z + 99) 100 ltac:(lia)) as Hdm.
    pose proof (Z.mod_pos_bound (z + 99) 100 ltac:(lia)). lia. }
  assert (Hleast : exists k, k < b /\ stops_at sc (of_Z z) k = true
                             /\ forall i, i < k -> stops_at sc (of_Z z) i = false).
  { destruct (List.existsb (stops_at sc (of_Z z)) (seq 0 b)) eqn:E.
    - apply existsb_exists in E as (m & Hm & Hpm). apply in_seq in Hm.
      destruct (least_true _ m Hpm) as (k & Hk & Hpk & Hmin).
      exists k. repeat split; [lia | assumption | assumption].
    - exfalso.
      assert (Hgo : forall i, i < b -> stops_at sc (of_Z z) i = false).
      { intros i Hi. destruct (stops_at sc (of_Z z) i) eqn:Ei; [|reflexivity].
        assert (List.existsb (stops_at sc (of_Z z)) (seq 0 b) = true); [|congruence].
        apply existsb_exists. exists i. split; [apply in_seq; lia | assumption]. }
      pose proof (gathered_at_least sc (of_Z z) b Hgo) as Hlen.
      destruct b as [|b']; [lia|].
      destruct (goes_on_inv sc (of_Z z) b' (Hgo b' ltac:(lia))) as [_ Hbelow].
      apply geb_of_Z_false in Hbelow. lia. }
  destruct Hleast as (k & Hk & Hstop & Hgo).
  exists (S k). repeat split.
  - lia.
  - lia.
  - intros Hsmall. assert (b = 1); [|lia].
    unfold b. pose proof (Z.div_mod (z + 99) 100 ltac:(lia)) as Hdm.
    pose proof (Z.mod_pos_bound (z + 99) 100 ltac:(lia)). lia.
  - intros fuel Hfuel. apply listPinnedFiles_least_stop; auto.
Qed.

End ListingFacts.

Lemma listPinnedFiles_failure_discards_rows_witness :
  exists r,
    run (listPinnedFiles 2 (of_Z 1000) "all")
        (Sample.pages_then_failure [Sample.full_page])
    = (page_urls "all" 2, Return r)
    /\ success r = false
    /\ result_rows r = []
    /\ result_error r = Some "Request failed with status code 429".
Proof.
  apply (listPinnedFiles_failure_discards_rows (of_Z 1000) "all"
           (Sample.pages_then_failure [Sample.full_page]) 1 2
           (Error "Request failed with status code 429")).
  - intros i Hi. assert (i = 0) as -> by lia. split; [eexists|]; reflexivity.
  - reflexivity.
  - lia.
Defined.

Lemma listPinnedFiles_request_bound_witness :
  exists n,
    1 <= n
    /\ (Z.of_nat n <= Z.max 1 ((50 + 99) / 100))%Z
    /\ ((50 <= 100)%Z -> n = 1)
    /\ forall fuel, n <= fuel ->
         run (listPinnedFiles fuel (of_Z 50) "all")
             (Sample.script_of_pages Sample.three_pages)
         = (page_urls "all" n,
            Return (ListOk (length (gathered (Sample.script_of_pages Sample.three_pages) n))
                      (map pinned_file (gathered (Sample.script_of_pages Sample.three_pages) n))
                      (@now_iso Sample.runtime))).
Proof.
  apply (listPinnedFiles_request_bound 50 "all"
           (Sample.script_of_pages Sample.three_pages)).
  intros i. eexists. reflexivity.
Defined.

(** ** Pin status, model details and model fetch *)

Section FetchFacts.
Context `{Runtime}.

Lemma getPinStatus_returns (ipfsHash : string) (sc : script) (lg : list string) :
  exists st, getPinStatus ipfsHash sc lg = (lg ++ [pinStatusUrl ipfsHash], Return st).
Proof.
  unfold getPinStatus, try_catch, bind, axios_get, pinStatusUrl.
  destruct (sc (length lg)) as [r|e]; [|eexists; reflexivity].
  destruct (data_rows r) as [rows|]; [|eexists; reflexivity].
  destruct (List.find _ rows) as [pin|]; [|eexists; reflexivity].
  destruct (pr_metadata pin); eexists; reflexivity.
Qed.

Lemma getFromIPFS_ends (ipfsHash : string) (sc : script) (lg : list string) :
  exists k out,
    1 <= k <= 3
    /\ getFromIPFS ipfsHash sc lg
       = (lg ++ firstn k [primary_gateway ipfsHash; secondary_gateway ipfsHash;
                          tertiary_gateway ipfsHash], out)
    /\ ((exists text, out = Return text) \/ (exists e, out = Throw e)).
Proof.
  unfold getFromIPFS, try_catch, bind, axios_get, ret, throw,
    primary_gateway, secondary_gateway, tertiary_gateway.
  destruct (sc (length lg)) as [r1|e1].
  { exists 1, (Return (JSON_stringify (data r1))). repeat split; eauto. }
  destruct (sc (length (lg ++ _))) as [r2|e2].
  { exists 2, (Return (JSON_stringify (data r2))).
    split; [lia|]. split; [|eauto]. cbn [firstn]. now rewrite <- app_assoc. }
  destruct (sc (length ((lg ++ _) ++ _))) as [r3|e3].
  - exists 3, (Return (JSON_stringify (data r3))).
    split; [lia|]. split; [|eauto]. cbn [firstn]. now rewrite <- !app_assoc.
  - eexists 3, _. split; [lia|]. split; [|eauto]. cbn [firstn]. now rewrite <- !app_assoc.
Qed.

(** A successful listing is made of whole pages. *)
Lemma listPinnedFiles_ok_inv (fuel : nat) (limit : number) (status : string)
    (sc : script) (lg : list string) (count : nat) (files : list file) (ts : string) :
  run (listPinnedFiles fuel limit status) sc = (lg, Return (ListOk count files ts)) ->
  exists n, 0 < n /\ lg = page_urls status n
            /\ files = map pinned_file (gathered sc n)
            /\ count = length (gathered sc n).
Proof.
  intros Hrun.
  destruct (pinListLoop_outcome limit status sc fuel 0 [] eq_refl) as (n & Hn & Hcase).
  cbn zeta in Hcase. rewrite Nat.sub_0_r in Hcase. cbn [app gathered Nat.mul] in Hcase.
  fold (page_urls status n) in Hcase.
  unfold run, listPinnedFiles, try_catch, bind in Hrun.
  destruct Hcase as [[Hlt E] | [(Hlt & e & He & E) | [Hlast E]]];
    rewrite E in Hrun; try discriminate.
  injection Hrun as <- <- <- _. exists n. repeat split. assumption.
Qed.

(** X4: [getPinStatus] issues exactly one request and never throws.  It
    reports a pin as found only for a row of the reply whose hash is exactly
    the requested one (rows that merely contain it are passed over), and as
    not found only when no row of the reply has that hash. *)
Theorem getPinStatus_exact_match (ipfsHash : string) (sc : script) :
  exists st,
    run (getPinStatus ipfsHash) sc = ([pinStatusUrl ipfsHash], Return st)
    /\ (forall info ts, st = PinFound info ts ->
          pi_ipfsHash info = ipfsHash
          /\ exists r rows row,
               sc 0 = Responds r /\ data_rows r = Some rows /\ In row rows
               /\ pr_ipfs_pin_hash row = ipfsHash
               /\ pi_size info = pr_size row
               /\ pi_timestamp info = pr_date_pinned row)
    /\ (forall msg ts, st = PinNotFound msg ts ->
          exists r rows,
            sc 0 = Responds r /\ data_rows r = Some rows
            /\ forall row, In row rows -> pr_ipfs_pin_hash row <> ipfsHash).
Proof.
  unfold run, getPinStatus, try_catch, bind, axios_get. cbn [length app].
  fold (pinStatusUrl ipfsHash).
  destruct (sc 0) as [r|e] eqn:Hr.
  2:{ eexists. split; [reflexivity|]. split; intros; discriminate. }
  destruct (data_rows r) as [rows|] eqn:Hrows.
  2:{ eexists. split; [reflexivity|]. split; intros; discriminate. }
  destruct (List.find _ rows) as [pin|] eqn:Hfind.
  - apply find_some in Hfind as [Hin Heq]. apply String.eqb_eq in Heq.
    destruct (pr_metadata pin) as [md|].
    + eexists. split; [reflexivity|]. split; [|intros; discriminate].
      intros info ts [= <- _]. cbn. split; [assumption|].
      exists r, rows, pin. repeat split; (reflexivity || assumption).
    + eexists. split; [reflexivity|]. split; intros; discriminate.
  - eexists. split; [reflexivity|]. split; [intros; discriminate|].
    intros msg ts _. exists r, rows. split; [reflexivity|]. split; [assumption|].
    intros row Hin Heq.
    pose proof (find_none _ _ Hfind row Hin) as Hne. cbn in Hne.
    apply String.eqb_neq in Hne. contradiction.
Qed.

(** X5: a pin without a [metadata] object is listed by [listPinnedFiles]
    under the name [file-] followed by the first eight characters of its
    hash, but [getPinStatus] on its hash answers with the failure result
    instead of reporting it as pinned. *)
Theorem pin_without_metadata (pin : pin_row) (rows : list pin_row) (r : response)
    (sc : script) (fuel : nat) (limit : number) (status : string) :
  pr_metadata pin = None ->
  sc 0 = Responds r ->
  data_rows r = Some (pin :: rows) ->
  length (pin :: rows) < pageLimit ->
  (exists e,
      run (getPinStatus (pr_ipfs_pin_hash pin)) sc
      = ([pinStatusUrl (pr_ipfs_pin_hash pin)],
         Return (PinStatusFailed e "Failed to get pin status" now_iso)))
  /\ exists f files,
       run (listPinnedFiles (S fuel) limit status) sc
       = ([pinListUrl status 0], Return (ListOk (S (length rows)) (f :: files) now_iso))
       /\ ipfs_pin_hash f = Some (pr_ipfs_pin_hash pin)
       /\ name f = Some ("file-" +:+ String.substring 0 8 (pr_ipfs_pin_hash pin)).
Proof.
  intros Hmd Hr Hrows Hshort. split.
  - unfold run, getPinStatus, try_catch, bind, axios_get. cbn [length app].
    rewrite Hr, Hrows. cbn [List.find]. rewrite String.eqb_refl, Hmd.
    eexists. reflexivity.
  - assert (Hpage : rows_at sc 0 = pin :: rows)
      by (unfold rows_at; now rewrite Hr, Hrows).
    exists (pinned_file pin), (map pinned_file rows).
    rewrite (listPinnedFiles_least_stop limit status sc 0 (S fuel)).
    + cbn [gathered app]. rewrite Hpage. cbn [length map]. split; [reflexivity|].
      unfold pinned_file. cbn [ipfs_pin_hash name]. now rewrite Hmd.
    + intros i Hi. assert (i = 0) as -> by lia. now exists r.
    + unfold stops_at. rewrite Hpage.
      apply Nat.ltb_lt in Hshort. rewrite Hshort. apply orb_true_r.
    + intros i Hi. lia.
    + lia.
Qed.

(** X6: the handler function registered for
    [GET /api/ml/model-details/:hash], when it is run, always answers.  The
    status is 400 exactly for the identifiers the validator rejects; for an
    accepted identifier the status is 200 or 500, the first request is the
    pin-status lookup, and between one and three gateway requests follow.
    (This is about the handler itself: the catch-all 404 handler is
    registered before it, so the server does not reach it.) *)
Theorem model_details_route_statuses (hash : string) (sc : script) :
  exists lg h,
    run (model_details_route hash) sc = (lg, Return h)
    /\ (code h = 400 <-> isValidIPFSHash hash = false)
    /\ (isValidIPFSHash hash = true ->
        (code h = 200 \/ code h = 500)
        /\ head lg = Some (pinStatusUrl hash)
        /\ 2 <= length lg <= 4).
Proof.
  unfold run, model_details_route, try_catch.
  destruct (isValidIPFSHash hash) eqn:Hvalid; cbn [negb].
  2:{ eexists _, _. split; [reflexivity|]. split; [now split | discriminate]. }
  unfold bind at 1.
  destruct (getPinStatus_returns hash sc []) as [st ->]. cbn [app].
  unfold bind at 1.
  destruct (getFromIPFS_ends hash sc [pinStatusUrl hash])
    as (k & out & Hk & -> & [[text ->] | [e ->]]).
  - destruct (JSON_parse text).
    + eexists _, _. split; [reflexivity|]. cbn [code]. split; [split; discriminate|].
      intros _. split; [now left|]. split; [reflexivity|].
      rewrite length_app, length_firstn. cbn. lia.
    + eexists _, _. split; [reflexivity|]. cbn [code]. split; [split; discriminate|].
      intros _. split; [now right|]. split; [reflexivity|].
      rewrite length_app, length_firstn. cbn. lia.
  - eexists _, _. split; [reflexivity|]. cbn [code]. split; [split; discriminate|].
    intros _. split; [now right|]. split; [reflexivity|].
    rewrite length_app, length_firstn. cbn. lia.
Qed.

(** X7: a failing pin-status lookup does not fail the model-details
    handler: run on an accepted identifier, when the lookup fails and the
    first gateway answers with a document that parses, the handler answers
    200 with [pinned] undefined and [pinInfo] null.  (About the handler
    itself: the catch-all 404 handler is registered before it, so the server
    does not reach it.) *)
Theorem model_details_without_pin_status (hash : string) (sc : script)
    (e : error) (r : response) (modelPackage : json) :
  isValidIPFSHash hash = true ->
  sc 0 = Fails e ->
  sc 1 = Responds r ->
  JSON_parse (JSON_stringify (data r)) = Some modelPackage ->
  run (model_details_route hash) sc
  = ([pinStatusUrl hash; primary_gateway hash],
     Return {| code := 200;
               sent := SuccessBody
                         {| md_ipfsHash := hash;
                            md_pinned := None;
                            md_pinInfo := None;
                            md_modelPackage := modelPackage;
                            md_gateways := getGateways hash;
                            md_retrievedAt := now_iso |} None |}).
Proof.
  intros Hvalid H0 H1 Hparse.
  unfold run, model_details_route, try_catch. rewrite Hvalid. cbn [negb].
  unfold bind at 1. unfold getPinStatus, try_catch, bind at 1, axios_get at 1.
  cbn [length app]. rewrite H0.
  unfold ret at 1. unfold bind at 1.
  unfold getFromIPFS, try_catch, bind at 1, axios_get at 1. cbn [length app].
  rewrite H1. unfold ret at 1. rewrite Hparse. reflexivity.
Qed.

(** X8: the two fetch routes, [GET /api/ml/get-model/:hash] and
    [GET /api/ipfs/model/:hash], do not consult the validator: for every
    identifier, well formed or not, they ask the first gateway, make at most
    three requests, and answer 200 or 500; when the three gateways fail the
    answer is 500 with the third gateway's error. *)
Theorem get_model_route_no_validation (hash : string) (sc : script) :
  exists lg h,
    run (get_model_route hash) sc = (primary_gateway hash :: lg, Return h)
    /\ length lg <= 2
    /\ (code h = 200 \/ code h = 500)
    /\ (forall e1 e2 e3,
          sc 0 = Fails e1 -> sc 1 = Fails e2 -> sc 2 = Fails e3 ->
          lg = [secondary_gateway hash; tertiary_gateway hash]
          /\ h = {| code := 500;
                    sent := ErrorBody ("Failed to fetch from IPFS: " +:+ message e3) |}).
Proof.
  assert (Hall : forall e1 e2 e3,
             sc 0 = Fails e1 -> sc 1 = Fails e2 -> sc 2 = Fails e3 ->
             getFromIPFS hash sc []
             = ([primary_gateway hash; secondary_gateway hash; tertiary_gateway hash],
                Throw (Error ("Failed to fetch from IPFS: " +:+ message e3)))).
  { intros e1 e2 e3 H0 H1 H2.
    unfold getFromIPFS, try_catch, bind, axios_get, ret, throw. cbn [length app].
    rewrite H0. cbn [length app]. rewrite H1. cbn [length app]. rewrite H2.
    reflexivity. }
  unfold run, get_model_route, try_catch. unfold bind at 1.
  destruct (getFromIPFS_ends hash sc []) as (k & out & Hk & E & Hout).
  cbn [app] in E.
  assert (Hk' : exists k', k = S k') by (destruct k; [lia | eauto]).
  destruct Hk' as [k' ->]. cbn [firstn] in E.
  destruct Hout as [[text ->] | [e ->]].
  - rewrite E. destruct (JSON_parse text); eexists _, _;
      (split; [reflexivity|]); (split; [rewrite length_firstn; cbn; lia|]);
      cbn [code]; (split; [auto|]);
      intros e1 e2 e3 H0 H1 H2; rewrite (Hall e1 e2 e3 H0 H1 H2) in E; discriminate.
  - rewrite E. eexists _, _. split; [reflexivity|].
    split; [rewrite length_firstn; cbn; lia|]. cbn [code]. split; [auto|].
    intros e1 e2 e3 H0 H1 H2. rewrite (Hall e1 e2 e3 H0 H1 H2) in E.
    injection E as E1 E2. rewrite <- E1, <- E2. now split.
Qed.

End FetchFacts.

Lemma pin_without_metadata_witness :
  (exists e,
      run (getPinStatus "QmYwAPJzv5CZsnA625s3Xf2nemtYgPpHdWEz79ojWnPbdG")
          (Sample.script_of_pages [[Sample.bare_pin]])
      = ([pinStatusUrl "QmYwAPJzv5CZsnA625s3Xf2nemtYgPpHdWEz79ojWnPbdG"],
         Return (PinStatusFailed e "Failed to get pin status" (@now_iso Sample.runtime))))
  /\ exists f files,
       run (listPinnedFiles 1 (of_Z 1000) "all") (Sample.script_of_pages [[Sample.bare_pin]])
       = ([pinListUrl "all" 0], Return (ListOk 1 (f :: files) (@now_iso Sample.runtime)))
       /\ ipfs_pin_hash f = Some "QmYwAPJzv5CZsnA625s3Xf2nemtYgPpHdWEz79ojWnPbdG"
       /\ name f = Some "file-QmYwAPJz".
Proof.
  eapply (pin_without_metadata Sample.bare_pin [] _
            (Sample.script_of_pages [[Sample.bare_pin]]) 0 (of_Z 1000) "all").
  - reflexivity.
  - reflexivity.
  - reflexivity.
  - unfold pageLimit. cbn. lia.
Defined.

Lemma model_details_without_pin_status_witness :
  run (model_details_route "QmYwAPJzv5CZsnA625s3Xf2nemtYgPpHdWEz79ojWnPbdG")
      (Sample.answers_after 1 "[1,2,3]")
  = ([pinStatusUrl "QmYwAPJzv5CZsnA625s3Xf2nemtYgPpHdWEz79ojWnPbdG";
      primary_gateway "QmYwAPJzv5CZsnA625s3Xf2nemtYgPpHdWEz79ojWnPbdG"],
     Return {| code := 200;
               sent := SuccessBody
                         {| md_ipfsHash := "QmYwAPJzv5CZsnA625s3Xf2nemtYgPpHdWEz79ojWnPbdG";
                            md_pinned := None;
                            md_pinInfo := None;
                            md_modelPackage := "[1,2,3]" : @json Sample.runtime;
                            md_gateways :=
                              getGateways "QmYwAPJzv5CZsnA625s3Xf2nemtYgPpHdWEz79ojWnPbdG";
                            md_retrievedAt := @now_iso Sample.runtime |} None |}).
Proof.
  apply (model_details_without_pin_status
           "QmYwAPJzv5CZsnA625s3Xf2nemtYgPpHdWEz79ojWnPbdG"
           (Sample.answers_after 1 "[1,2,3]")
           (Error "timeout of 30000ms exceeded") (Sample.document "[1,2,3]"));
    reflexivity.
Defined.

(** ** What the diagnostic routes answer when the call they wrap fails *)

Section RouteFailures.
Context `{Runtime}.

(** X10: the two diagnostic routes report success even when the call they
    wrap has failed: [GET /api/ipfs/files] answers 200 around the failure
    result of the listing, and [GET /api/ipfs/test] answers 200 around the
    failure result of the connection test. *)
Theorem diagnostic_routes_answer_200 (sc : script) (k fuel : nat) (e : error) :
  (forall i, i < k -> answered sc i /\ stops_at sc default_limit i = false) ->
  sc k = Fails e ->
  k < fuel ->
  run (files_route fuel) sc
  = (page_urls default_status (S k),
     Return {| code := 200;
               sent := SuccessBody
                         (ListFailed (error_text e) "Failed to list pinned files" now_iso)
                         None |})
  /\ (k = 0 ->
      run test_route sc
      = ([baseURL +:+ "/data/testAuthentication"],
         Return {| code := 200;
                   sent := SuccessBody
                             (NotConnected (error_text e) "❌ Failed to connect to Pinata"
                                now_iso)
                             None |})).
Proof.
  intros Hgo He Hfuel. split.
  - pose proof (listPinnedFiles_fails default_limit default_status sc k fuel e
                  Hgo He Hfuel) as E.
    unfold run in *. unfold files_route, try_catch at 1. unfold bind at 1.
    rewrite E. reflexivity.
  - intros ->.
    unfold run, test_route, testConnection, try_catch, bind, axios_get.
    cbn [length app]. rewrite He. reflexivity.
Qed.

End RouteFailures.

Lemma diagnostic_routes_answer_200_witness :
  run (files_route 2) (Sample.pages_then_failure [Sample.full_page])
  = (page_urls default_status 2,
     Return {| code := 200;
               sent := SuccessBody
                         (ListFailed "Request failed with status code 429"
                            "Failed to list pinned files" (@now_iso Sample.runtime))
                         None |}).
Proof.
  apply (proj1 (diagnostic_routes_answer_200 (Sample.pages_then_failure [Sample.full_page])
                  1 2 (Error "Request failed with status code 429")
                  ltac:(intros i Hi; assert (i = 0) as -> by lia;
                        split; [eexists; reflexivity | reflexivity])
                  eq_refl ltac:(lia))).
Defined.

(** ** [sortModels] *)

Section SortOutcome.
Context {A : Type} (comparefn : A -> A -> option number).

Lemma insert_sorted_perm (x : A) (s s' : list A) :
  JSArray.insert_sorted comparefn x s = Some s' -> Permutation (x :: s) s'.
Proof.
  revert s'. induction s as [|y t IH]; intros s'; cbn [JSArray.insert_sorted].
  - intros [= <-]. reflexivity.
  - destruct (comparefn x y) as [c|]; [|discriminate].
    destruct (is_pos c); [|intros [= <-]; reflexivity].
    destruct (JSArray.insert_sorted comparefn x t) as [t'|]; [|discriminate].
    intros [= <-]. rewrite perm_swap. apply perm_skip. now apply IH.
Qed.

Lemma sort_perm (l l' : list A) :
  JSArray.sort comparefn l = Some l' -> Permutation l l'.
Proof.
  revert l'. induction l as [|x t IH]; intros l'; cbn [JSArray.sort].
  - intros [= <-]. reflexivity.
  - destruct (JSArray.sort comparefn t) as [s|]; [|discriminate].
    intros Hins. rewrite <- (insert_sorted_perm x s l' Hins).
    apply perm_skip. now apply IH.
Qed.

Lemma insert_sorted_returns (x : A) (s : list A) :
  (forall y, In y s -> comparefn x y <> None) ->
  exists s', JSArray.insert_sorted comparefn x s = Some s'.
Proof.
  induction s as [|y t IH]; intros Hc; cbn [JSArray.insert_sorted]; [eauto|].
  destruct (comparefn x y) as [c|] eqn:E; [|destruct (Hc y); [now left | exact E]].
  destruct (is_pos c); [|eauto].
  destruct IH as [t' ->]; [intros z Hz; apply Hc; now right | eauto].
Qed.

Lemma sort_returns (l : list A) :
  (forall x y, In x l -> In y l -> comparefn x y <> None) ->
  exists l', JSArray.sort comparefn l = Some l'.
Proof.
  induction l as [|x t IH]; intros Hc; cbn [JSArray.sort]; [eauto|].
  destruct IH as [s Hs]; [intros; apply Hc; now right|].
  rewrite Hs. apply insert_sorted_returns.
  intros y Hy. apply Hc; [now left|].
  right. apply (Permutation_in _ (Permutation_sym (sort_perm t s Hs)) Hy).
Qed.

End SortOutcome.

Section WeakOrder.
Context {A : Type} (past : A -> A -> bool) (P : A -> Prop).

Hypothesis past_asym : forall x y, P x -> P y -> past x y = true -> past y x = false.
Hypothesis past_ntrans :
  forall x y z, P x -> P y -> P z -> past x y = false -> past y z = false -> past x z = false.

Lemma insert_by_weakly_sorted (x : A) (s : list A) :
  P x -> Forall P s ->
  StronglySorted (fun a b => past a b = false) s ->
  StronglySorted (fun a b => past a b = false) (insert_by past x s).
Proof.
  intros Hx. induction s as [|y t IH]; intros HP Hs.
  - repeat constructor.
  - apply Forall_cons_iff in HP as [Hy HP].
    apply StronglySorted_inv in Hs as [Ht Hyt].
    cbn [insert_by]. destruct (past x y) eqn:E.
    + constructor; [now apply IH|].
      apply (Permutation_Forall (insert_by_perm past x t)).
      constructor; [now apply past_asym | assumption].
    + constructor; [now constructor|].
      constructor; [assumption|].
      apply List.Forall_forall. intros z Hz.
      apply (past_ntrans x y z); auto.
      * exact (proj1 (List.Forall_forall _ _) HP z Hz).
      * exact (proj1 (List.Forall_forall _ _) Hyt z Hz).
Qed.

Lemma isort_by_weakly_sorted (l : list A) :
  Forall P l -> StronglySorted (fun a b => past a b = false) (isort_by past l).
Proof.
  induction 1 as [|x t Hx Ht IH]; [constructor|].
  cbn [isort_by]. apply insert_by_weakly_sorted; auto.
  now apply (Permutation_Forall (isort_by_perm past t)).
Qed.

End WeakOrder.

Lemma sorted_impl_in {A : Type} (R R' : A -> A -> Prop) (l : list A) :
  (forall x y, In x l -> In y l -> R x y -> R' x y) ->
  StronglySorted R l -> StronglySorted R' l.
Proof.
  intros HR Hs. induction Hs as [|a t Ht IH Ha]; constructor.
  - apply IH. intros x y Hx Hy. apply HR; now right.
  - apply List.Forall_forall. intros y Hy.
    apply HR; [now left | now right |].
    exact (proj1 (List.Forall_forall _ _) Ha y Hy).
Qed.

Lemma ltb_ntrans (a b c : number) :
  is_nan a = false -> is_nan b = false -> is_nan c = false ->
  (a <? b)%num = false -> (b <? c)%num = false -> (a <? c)%num = false.
Proof.
  intros Ha Hb Hc Hab Hbc.
  destruct (a <? c)%num eqn:E; [|reflexivity].
  pose proof (leb_negb_ltb c b Hc Hb) as H1. rewrite Hbc in H1.
  pose proof (leb_negb_ltb b a Hb Ha) as H2. rewrite Hab in H2.
  pose proof (leb_trans c b a H1 H2) as H3.
  rewrite (leb_negb_ltb c a Hc Ha), E in H3. discriminate.
Qed.

Section SortModelsFacts.
Context `{Runtime}.

Lemma sortModels_compare_numeric (sortBy order : string) (key : model -> number)
    (a b : model) :
  In (sortBy, key) numeric_keys ->
  sortModels_compare sortBy order a b
  = Some (if String.eqb order "asc" then (- (key b - key a))%num else (key b - key a)%num).
Proof.
  intros [[= <- <-] | [[= <- <-] | []]]; reflexivity.
Qed.

(** X11: [sortModels] only rearranges: whenever no name that the comparison
    calls [localeCompare] on is missing -- and always for a [sortBy] other
    than ["name"] -- it returns, and the result is a permutation of the
    models it was given. *)
Theorem sortModels_permutation (models : list model) (sortBy order : string) :
  (sortBy = "name" -> Forall (fun m => m_name m <> None) models) ->
  exists sorted,
    sortModels models sortBy order = Some sorted /\ Permutation models sorted.
Proof.
  intros Hnames.
  destruct (sort_returns (sortModels_compare sortBy order) models) as [sorted Hs].
  - intros x y Hx _. unfold sortModels_compare.
    destruct (String.eqb sortBy "date"); [discriminate|].
    destruct (String.eqb sortBy "name") eqn:E.
    + apply String.eqb_eq in E.
      pose proof (proj1 (List.Forall_forall _ _) (Hnames E) x Hx) as Hn.
      cbn beta in Hn. destruct (m_name x); [discriminate | now destruct Hn].
    + destruct (String.eqb sortBy "accuracy"); [discriminate|].
      destruct (String.eqb sortBy "size"); discriminate.
  - exists sorted. split; [exact Hs|]. exact (sort_perm _ _ _ Hs).
Qed.

(** X12: sorting by ["accuracy"] or by ["size"] a list in which that
    property is never NaN gives a list in which it never increases, or for
    the order ["asc"] never decreases, from one model to any later one;
    equal values are allowed. *)
Theorem sortModels_numeric_order (models : list model) (sortBy order : string)
    (key : model -> number) :
  In (sortBy, key) numeric_keys ->
  Forall (fun m => is_nan (key m) = false) models ->
  exists sorted,
    sortModels models sortBy order = Some sorted
    /\ Permutation models sorted
    /\ StronglySorted
         (fun a b => if String.eqb order "asc"
                     then (key a <=? key b)%num = true
                     else (key b <=? key a)%num = true) sorted.
Proof.
  intros Hkey Hnum. unfold sortModels.
  rewrite (sort_total _
             (fun a b => if String.eqb order "asc"
                         then (- (key b - key a))%num else (key b - key a)%num))
    by (intros; now apply sortModels_compare_numeric).
  eexists. split; [reflexivity|]. split; [apply isort_by_perm|].
  set (P := fun m : model => is_nan (key m) = false) in *.
  destruct (String.eqb order "asc").
  - assert (Hpast : forall a b, is_pos (- (key b - key a))%num = (key b <? key a)%num)
      by (intros; apply is_pos_opp_sub).
    pose proof (isort_by_weakly_sorted
                  (fun a b => is_pos (- (key b - key a))%num) P) as Hs.
    eapply sorted_impl_in; [|apply Hs; [| |exact Hnum]].
    + intros a b Ha Hb Hab. cbn beta in Hab. rewrite Hpast in Hab.
      apply (Permutation_in _ (Permutation_sym (isort_by_perm _ models))) in Ha, Hb.
      apply (proj1 (List.Forall_forall _ _) Hnum) in Ha, Hb. unfold P in Ha, Hb.
      rewrite leb_negb_ltb by assumption. now rewrite Hab.
    + intros x y Hx Hy. rewrite !Hpast. apply ltb_asym.
    + intros x y z Hx Hy Hz. rewrite !Hpast. intros Hxy Hyz.
      destruct (key z <? key x)%num eqn:E; [|reflexivity].
      rewrite (ltb_ntrans (key z) (key y) (key x)) in E; auto.
  - assert (Hpast : forall a b, is_pos (key b - key a)%num = (key a <? key b)%num)
      by (intros; apply is_pos_sub).
    pose proof (isort_by_weakly_sorted
                  (fun a b => is_pos (key b - key a)%num) P) as Hs.
    eapply sorted_impl_in; [|apply Hs; [| |exact Hnum]].
    + intros a b Ha Hb Hab. cbn beta in Hab. rewrite Hpast in Hab.
      apply (Permutation_in _ (Permutation_sym (isort_by_perm _ models))) in Ha, Hb.
      apply (proj1 (List.Forall_forall _ _) Hnum) in Ha, Hb. unfold P in Ha, Hb.
      rewrite leb_negb_ltb by assumption. now rewrite Hab.
    + intros x y Hx Hy. rewrite !Hpast. apply ltb_asym.
    + intros x y z Hx Hy Hz. rewrite !Hpast. apply ltb_ntrans; assumption.
Qed.

(** X13: the rows of [listPinnedFiles] have no [timestamp], so the models
    built from them have no [uploadedAt]: sorting them by ["date"], or by a
    [sortBy] that is none of ["name"], ["accuracy"] and ["size"], in either
    order, leaves them in the order of the listing. *)
Theorem sortModels_date_keeps_listing_order (rows : list pin_row) (sortBy order : string) :
  sortBy <> "name" -> sortBy <> "accuracy" -> sortBy <> "size" ->
  let models := map to_model (List.filter list_models_filter (map pinned_file rows)) in
  sortModels models sortBy order = Some models.
Proof.
  intros Hname Hacc Hsize models. unfold sortModels. apply sort_without_order.
  intros x y Hx Hy.
  assert (Hdate : forall m, In m models -> m_uploadedAt m = None).
  { intros m Hm. unfold models in Hm.
    apply in_map_iff in Hm as (f & <- & Hf).
    apply filter_In in Hf as [Hf _].
    apply in_map_iff in Hf as (r & <- & _). reflexivity. }
  unfold sortModels_compare. rewrite (Hdate x Hx), (Hdate y Hy).
  apply String.eqb_neq in Hname, Hacc, Hsize. rewrite Hname, Hacc, Hsize.
  destruct (String.eqb sortBy "date"), (String.eqb order "asc");
    (eexists; split; [reflexivity | reflexivity]).
Qed.

End SortModelsFacts.

Lemma sortModels_permutation_witness :
  exists sorted,
    @sortModels Sample.runtime Sample.three_rated "name" "asc" = Some sorted
    /\ Permutation Sample.three_rated sorted.
Proof.
  apply (@sortModels_permutation Sample.runtime Sample.three_rated "name" "asc").
  intros _. repeat constructor; discriminate.
Defined.

Lemma sortModels_numeric_order_witness :
  exists sorted,
    @sortModels Sample.runtime Sample.three_rated "accuracy" "desc" = Some sorted
    /\ Permutation Sample.three_rated sorted
    /\ StronglySorted (fun a b => (m_accuracy b <=? m_accuracy a)%num = true) sorted.
Proof.
  apply (@sortModels_numeric_order Sample.runtime Sample.three_rated "accuracy" "desc"
           m_accuracy).
  - left. reflexivity.
  - repeat constructor.
Defined.

Lemma sortModels_date_keeps_listing_order_witness :
  @sortModels Sample.runtime
    (map (@to_model Sample.runtime)
       (List.filter list_models_filter
          (map pinned_file [Sample.january_model; Sample.june_model])))
    "date" "desc"
  = Some (map (@to_model Sample.runtime)
            (List.filter list_models_filter
               (map pinned_file [Sample.january_model; Sample.june_model]))).
Proof.
  apply (@sortModels_date_keeps_listing_order Sample.runtime
           [Sample.january_model; Sample.june_model] "date" "desc");
    discriminate.
Defined.

(** ** [GET /api/ml/list-models] *)

Lemma slice_window {A : Type} (l : list A) (o n : Z) :
  (0 <= o)%Z -> (0 <= n)%Z ->
  slice l (Some o) (Some (o + n)%Z) = firstn (Z.to_nat n) (skipn (Z.to_nat o) l)
  /\ length (slice l (Some o) (Some (o + n)%Z))
     = Nat.min (Z.to_nat n) (length l - Z.to_nat o).
Proof.
  intros Ho Hn. unfold slice, slice_index.
  destruct (Z.ltb_spec o 0) as [|_]; [lia|].
  destruct (Z.ltb_spec (o + n) 0) as [|_]; [lia|].
  rewrite Z2Nat.inj_add by assumption.
  set (a := Z.to_nat o). set (b := Z.to_nat n). set (len := length l).
  assert (Hcut : firstn (Nat.min (a + b) len - Nat.min a len) (skipn (Nat.min a len) l)
                 = firstn b (skipn a l)).
  { destruct (Nat.le_gt_cases len a) as [Hge | Hlt].
    - rewrite (skipn_all2 l) by (fold len; lia).
      rewrite (skipn_all2 l) by (fold len; lia).
      now rewrite !firstn_nil.
    - replace (Nat.min a len) with a by lia.
      destruct (Nat.le_gt_cases (a + b) len) as [Hin | Hout].
      + f_equal. lia.
      + replace (Nat.min (a + b) len - a) with (len - a) by lia.
        rewrite !firstn_all2; try reflexivity; rewrite length_skipn; fold len; lia. }
  split; [exact Hcut|].
  rewrite Hcut, length_firstn, length_skipn. reflexivity.
Qed.

Section ListModelsFacts.
Context `{Runtime}.

Lemma sortModels_returns (models : list model) (sortBy order : string) :
  sortBy <> "name" ->
  exists sorted,
    sortModels models sortBy order = Some sorted /\ Permutation models sorted.
Proof.
  intros Hname.
  destruct (sort_returns (sortModels_compare sortBy order) models) as [sorted Hs].
  - intros x y _ _. unfold sortModels_compare.
    apply String.eqb_neq in Hname. rewrite Hname.
    destruct (String.eqb sortBy "date"); [discriminate|].
    destruct (String.eqb sortBy "accuracy"); [discriminate|].
    destruct (String.eqb sortBy "size"); discriminate.
  - exists sorted. split; [exact Hs|]. exact (sort_perm _ _ _ Hs).
Qed.

(** X14: the handler function of [GET /api/ml/list-models], run when the
    listing succeeds and [sortBy] is not ["name"], answers 200 with the
    window of [limit] models from [offset] of the list [sortModels] returns
    for the models.  [total] counts the models in the listing, [returned] is
    the smaller of [limit] and [total - offset], [hasMore] says whether
    [offset + limit] is below [total], and whenever [hasMore] is set the
    window is full.  (About the handler itself: the catch-all 404
    handler is registered before it, so the server does not reach it.) *)
Theorem list_models_pagination (fuel : nat) (sc : script) (lg : list string)
    (count : nat) (files : list file) (ts : string) (limit offset : Z)
    (sortBy order : string) :
  run (listPinnedFiles fuel (of_Z limit) default_status) sc
  = (lg, Return (ListOk count files ts)) ->
  sortBy <> "name" ->
  (0 <= limit)%Z -> (0 <= offset)%Z ->
  exists payload sorted,
    sortModels (map to_model (List.filter list_models_filter files)) sortBy order
    = Some sorted
    /\ run (list_models_route fuel (Some limit) (Some offset) sortBy order) sc
       = (lg, Return (ModelList 200 payload now_iso))
    /\ Permutation (map to_model (List.filter list_models_filter files)) sorted
    /\ ml_models payload = firstn (Z.to_nat limit) (skipn (Z.to_nat offset) sorted)
    /\ pg_total (ml_pagination payload) = length (List.filter list_models_filter files)
    /\ pg_returned (ml_pagination payload)
       = Nat.min (Z.to_nat limit) (pg_total (ml_pagination payload) - Z.to_nat offset)
    /\ pg_hasMore (ml_pagination payload)
       = (offset + limit <? Z.of_nat (pg_total (ml_pagination payload)))%Z
    /\ (pg_hasMore (ml_pagination payload) = true ->
        pg_returned (ml_pagination payload) = Z.to_nat limit).
Proof.
  intros Hlist Hname Hl Ho.
  set (models := map to_model (List.filter list_models_filter files)).
  destruct (sortModels_returns models sortBy order Hname) as (sorted & Hsort & Hperm).
  destruct (slice_window sorted offset limit Ho Hl) as (Hcut & Hlen).
  eexists _, sorted. split; [exact Hsort|]. split.
  { unfold run in *. unfold list_models_route, try_catch, bind.
    change (int_number (Some limit)) with (of_Z limit). rewrite Hlist.
    cbn [success negb result_rows]. fold models. rewrite Hsort. reflexivity. }
  cbn [ml_models ml_pagination pg_total pg_returned pg_hasMore int_add].
  assert (Hsize : length sorted = length models) by (symmetry; now apply Permutation_length).
  assert (Htotal : length models = length (List.filter list_models_filter files))
    by (unfold models; now rewrite length_map).
  rewrite Hlen, Hsize.
  repeat split; auto.
  intros Hmore. apply Z.ltb_lt in Hmore. lia.
Qed.

(** X15: in the handler function of [GET /api/ml/list-models], with a
    [limit] of at most 100 -- the default is 50 -- the listing ends with the
    first page whatever that page holds, so the handler makes one request,
    its [total] counts the models of that page only, and nothing the
    provider would answer to further requests changes the response.  (About
    the handler itself: the catch-all 404 handler is registered before it,
    so the server does not reach it.) *)
Theorem list_models_reads_one_page (fuel : nat) (sc : script) (r : response)
    (limit : Z) (offset : option Z) (sortBy order : string) :
  sc 0 = Responds r ->
  (limit <= 100)%Z ->
  sortBy <> "name" ->
  exists payload,
    run (list_models_route (S fuel) (Some limit) offset sortBy order) sc
    = ([pinListUrl default_status 0], Return (ModelList 200 payload now_iso))
    /\ pg_total (ml_pagination payload)
       = length (List.filter list_models_filter (map pinned_file (rows_at sc 0)))
    /\ forall sc', sc' 0 = sc 0 ->
         run (list_models_route (S fuel) (Some limit) offset sortBy order) sc'
         = run (list_models_route (S fuel) (Some limit) offset sortBy order) sc.
Proof.
  intros Hr Hl Hname.
  assert (Hone : forall sc', sc' 0 = sc 0 ->
            run (listPinnedFiles (S fuel) (of_Z limit) default_status) sc'
            = ([pinListUrl default_status 0],
               Return (ListOk (length (rows_at sc 0)) (map pinned_file (rows_at sc 0))
                         now_iso))).
  { intros sc' Hsame.
    assert (Hrows : rows_at sc' 0 = rows_at sc 0) by (unfold rows_at; now rewrite Hsame).
    rewrite (listPinnedFiles_least_stop (of_Z limit) default_status sc' 0 (S fuel)).
    - cbn [gathered app]. rewrite Hrows. reflexivity.
    - intros i Hi. assert (i = 0) as -> by lia. exists r. congruence.
    - unfold stops_at. cbn [gathered app]. rewrite Hrows.
      destruct (Nat.ltb_spec (length (rows_at sc 0)) pageLimit) as [|Hfull];
        [now rewrite orb_true_r|].
      rewrite geb_of_Z_true; [now rewrite orb_true_r|].
      unfold pageLimit in Hfull. lia.
    - intros i Hi. lia.
    - lia. }
  set (models := map to_model (List.filter list_models_filter (map pinned_file (rows_at sc 0)))).
  destruct (sortModels_returns models sortBy order Hname) as (sorted & Hsort & Hperm).
  assert (Hroute : forall sc', sc' 0 = sc 0 ->
            exists payload,
              run (list_models_route (S fuel) (Some limit) offset sortBy order) sc'
              = ([pinListUrl default_status 0], Return (ModelList 200 payload now_iso))
              /\ pg_total (ml_pagination payload) = length models
              /\ payload
                 = {| ml_models := slice sorted offset (int_add offset (Some limit));
                      ml_pagination :=
                        {| pg_total := length models;
                           pg_limit := Some limit;
                           pg_offset := offset;
                           pg_returned :=
                             length (slice sorted offset (int_add offset (Some limit)));
                           pg_hasMore :=
                             match int_add offset (Some limit) with
                             | Some e => (e <? Z.of_nat (length models))%Z
                             | None => false
                             end |};
                      ml_summary := summarize models |}).
  { intros sc' Hsame. specialize (Hone sc' Hsame).
    eexists. split; [|split; [|reflexivity]]; [|reflexivity].
    unfold run in *. unfold list_models_route, try_catch, bind.
    change (int_number (Some limit)) with (of_Z limit). rewrite Hone.
    cbn [success negb result_rows]. fold models. rewrite Hsort. reflexivity. }
  destruct (Hroute sc eq_refl) as (payload & Hrun & Htotal & Hpayload).
  exists payload. split; [exact Hrun|]. split.
  - rewrite Htotal. unfold models. now rewrite length_map.
  - intros sc' Hsame.
    destruct (Hroute sc' Hsame) as (payload' & Hrun' & _ & Hpayload').
    rewrite Hrun, Hrun', Hpayload, Hpayload'. reflexivity.
Qed.


End ListModelsFacts.

Lemma list_models_pagination_witness :
  exists payload,
    run (@list_models_route Sample.runtime 1 (Some 1%Z) (Some 0%Z) "accuracy" "desc")
        (Sample.script_of_pages [[Sample.june_model; Sample.january_model]])
    = (page_urls default_status 1, Return (ModelList 200 payload (@now_iso Sample.runtime)))
    /\ pg_total (ml_pagination payload) = 2
    /\ pg_returned (ml_pagination payload) = 1
    /\ pg_hasMore (ml_pagination payload) = true.
Proof.
  destruct (@list_models_pagination Sample.runtime 1
              (Sample.script_of_pages [[Sample.june_model; Sample.january_model]])
              (page_urls default_status 1) 2
              (map pinned_file [Sample.june_model; Sample.january_model])
              (@now_iso Sample.runtime) 1 0 "accuracy" "desc")
    as (payload & sorted & _ & Hrun & _ & _ & Htotal & Hreturned & Hmore & _).
  - reflexivity.
  - discriminate.
  - lia.
  - lia.
  - exists payload. split; [exact Hrun|].
    rewrite Hmore, Hreturned, Htotal. repeat split.
Defined.

Lemma list_models_reads_one_page_witness :
  exists payload,
    run (@list_models_route Sample.runtime 1 (Some 50%Z) (Some 0%Z) "date" "desc")
        (Sample.script_of_pages [Sample.full_page; [Sample.june_model]])
    = ([pinListUrl default_status 0],
       Return (ModelList 200 payload (@now_iso Sample.runtime)))
    /\ pg_total (ml_pagination payload) = 100.
Proof.
  destruct (@list_models_reads_one_page Sample.runtime 0
              (Sample.script_of_pages [Sample.full_page; [Sample.june_model]])
              (@Build_response Sample.runtime "{}" (Some Sample.full_page))
              50 (Some 0%Z) "date" "desc")
    as (payload & Hrun & Htotal & _).
  - reflexivity.
  - lia.
  - discriminate.
  - exists payload. split; [exact Hrun|]. rewrite Htotal. reflexivity.
Defined.


(** ** [GET /api/ml/search-models] *)

Lemma filter_when_In {A : Type} (x : option string) (keep : string -> A -> bool)
    (models : list A) (m : A) :
  In m (filter_when x keep models) ->
  In m models /\ forall s, given x = Some s -> keep s m = true.
Proof.
  unfold filter_when. destruct (given x) as [s|].
  - intros Hm. apply filter_In in Hm as [Hm Hkeep]. split; [assumption|].
    now intros s' [= <-].
  - intros Hm. split; [assumption | discriminate].
Qed.

Lemma filter_when_nothing {A : Type} (x : option string) (keep : string -> A -> bool)
    (models : list A) :
  given x <> None ->
  (forall s m, In m models -> keep s m = false) ->
  filter_when x keep models = [].
Proof.
  unfold filter_when. destruct (given x) as [s|]; [|congruence].
  intros _ Hkeep. induction models as [|m t IH]; [reflexivity|].
  cbn [List.filter]. rewrite Hkeep by now left.
  apply IH. intros s' m' Hm'. apply Hkeep. now right.
Qed.

Lemma filter_when_nil {A : Type} (x : option string) (keep : string -> A -> bool) :
  filter_when x keep [] = [].
Proof. unfold filter_when. now destruct (given x). Qed.

Lemma slice_In {A : Type} (l : list A) (start finish : option Z) (m : A) :
  In m (slice l start finish) -> In m l.
Proof.
  unfold slice. intros Hm.
  rewrite <- (firstn_skipn (slice_index (length l) start) l).
  apply in_or_app. right.
  rewrite <- (firstn_skipn (slice_index (length l) finish - slice_index (length l) start)
                (skipn (slice_index (length l) start) l)).
  apply in_or_app. now left.
Qed.

Lemma slice_from_start {A : Type} (l : list A) (n : Z) :
  (0 <= n)%Z -> length (slice l (Some 0%Z) (Some n)) = Nat.min (Z.to_nat n) (length l).
Proof.
  intros Hn. unfold slice.
  change (slice_index (length l) (Some 0%Z)) with 0.
  cbn [skipn slice_index]. destruct (Z.ltb_spec n 0) as [|_]; [lia|].
  rewrite Nat.sub_0_r, length_firstn. change (skipn 0 l) with l. lia.
Qed.

Section SearchFacts.
Context `{Runtime}.

(** X17: every model the search keeps is one it was given and meets each
    criterion that was given: the model type is equal to [modelType], the
    accuracy is at least [minAccuracy] and at most [maxAccuracy] (so it is not
    NaN when one of them is given), and the upload date lies between
    [fromDate] and [toDate]; with a [limit] of zero or more, at most [limit]
    models are kept. *)
Theorem search_results_meet_criteria (c : criteria) (limit : option Z)
    (models : list found_model) :
  Forall
    (fun m =>
       In m models
       /\ (forall t, given (cr_modelType c) = Some t -> fd_modelType m = t)
       /\ (forall s, given (cr_minAccuracy c) = Some s ->
                     (parseFloat s <=? fd_accuracy m)%num = true)
       /\ (forall s, given (cr_maxAccuracy c) = Some s ->
                     (fd_accuracy m <=? parseFloat s)%num = true)
       /\ (forall s, given (cr_fromDate c) = Some s ->
                     (Date_parse s <=? date_value (fd_uploadedAt m))%num = true)
       /\ (forall s, given (cr_toDate c) = Some s ->
                     (date_value (fd_uploadedAt m) <=? Date_parse s)%num = true))
    (refine c limit models)
  /\ (forall n, limit = Some n -> (0 <= n)%Z ->
        length (refine c limit models) <= Z.to_nat n).
Proof.
  split.
  - apply List.Forall_forall. intros m Hm. unfold refine in Hm.
    apply slice_In in Hm.
    apply filter_when_In in Hm as [Hm Hto].
    apply filter_when_In in Hm as [Hm Hfrom].
    apply filter_when_In in Hm as [Hm Hmax].
    apply filter_when_In in Hm as [Hm Hmin].
    apply filter_when_In in Hm as [Hm Htype].
    repeat split; auto.
    intros t Ht. now apply String.eqb_eq, Htype.
  - intros n -> Hn. unfold refine. rewrite slice_from_start by assumption. lia.
Qed.

Lemma leb_nan_l (a : number) : (NaN <=? a)%num = false.
Proof. reflexivity. Qed.

Lemma leb_nan_r (a : number) : (a <=? NaN)%num = false.
Proof. now destruct a. Qed.

(** X18: the rows of [listPinnedFiles] have no [timestamp], so no model
    built from them has a date that compares with anything: once the listing
    succeeds, the handler function of [GET /api/ml/search-models], run with
    a [fromDate] or a [toDate] (and no [query]), answers 200 with no model at
    all, whatever the provider listed.  (About the handler itself: the
    catch-all 404 handler is registered before it, so the server does not
    reach it.) *)
Theorem search_by_date_finds_nothing (fuel : nat) (sc : script) (lg : list string)
    (count : nat) (files : list file) (ts : string) (toLowerCase : string -> string)
    (c : criteria) (limit : option Z) :
  run (listPinnedFiles fuel (mul (int_number limit) (of_Z 2)) default_status) sc
  = (lg, Return (ListOk count files ts)) ->
  given (cr_query c) = None ->
  given (cr_fromDate c) <> None \/ given (cr_toDate c) <> None ->
  run (search_models_route fuel toLowerCase c limit) sc
  = (lg, Return {| code := 200; sent := SuccessBody [] (Some now_iso) |}).
Proof.
  intros Hlist Hquery Hdate.
  destruct (listPinnedFiles_ok_inv _ _ _ _ _ _ _ _ Hlist) as (n & _ & _ & Hfiles & _).
  set (models := map to_found_model (List.filter search_models_filter files)).
  assert (Hnone : forall m, In m models -> fd_uploadedAt m = None).
  { intros m Hm. unfold models in Hm.
    apply in_map_iff in Hm as (f & <- & Hf).
    apply filter_In in Hf as [Hf _]. rewrite Hfiles in Hf.
    apply in_map_iff in Hf as (r & <- & _). reflexivity. }
  assert (Hrefine : refine c limit models = []).
  { unfold refine.
    set (byType := filter_when (cr_modelType c) _ models).
    set (byMin := filter_when (cr_minAccuracy c) _ byType).
    set (byMax := filter_when (cr_maxAccuracy c) _ byMin).
    assert (Hin : forall m, In m byMax -> fd_uploadedAt m = None).
    { intros m Hm. apply Hnone.
      apply filter_when_In in Hm as [Hm _].
      apply filter_when_In in Hm as [Hm _].
      now apply filter_when_In in Hm as [Hm _]. }
    assert (Hempty : filter_when (cr_toDate c)
                       (fun s m => (date_value (fd_uploadedAt m) <=? Date_parse s)%num)
                       (filter_when (cr_fromDate c)
                          (fun s m => (date_value (fd_uploadedAt m) >=? Date_parse s)%num)
                          byMax) = []).
    { destruct Hdate as [Hfrom | Hto].
      - rewrite (filter_when_nothing (cr_fromDate c)); [apply filter_when_nil | assumption |].
        intros s m Hm. rewrite (Hin m Hm). apply leb_nan_r.
      - apply filter_when_nothing; [assumption|].
        intros s m Hm. apply filter_when_In in Hm as [Hm _].
        rewrite (Hin m Hm). apply leb_nan_l. }
    rewrite Hempty. unfold slice. cbn [skipn length slice_index].
    now destruct (slice_index 0 limit). }
  unfold run in *. unfold search_models_route, try_catch. unfold bind at 1.
  rewrite Hlist. cbn [success negb result_rows]. fold models.
  unfold filter_query. rewrite Hquery. unfold bind, ret. rewrite Hrefine. reflexivity.
Qed.

End SearchFacts.

Lemma search_by_date_finds_nothing_witness :
  run (@search_models_route Sample.runtime 1 (fun s => s)
         {| cr_query := None; cr_modelType := None; cr_minAccuracy := None;
            cr_maxAccuracy := None; cr_fromDate := Some "2024-01-01T00:00:00.000Z";
            cr_toDate := None |}
         (Some 50%Z))
      (Sample.script_of_pages [[Sample.january_model; Sample.june_model]])
  = (page_urls default_status 1,
     Return {| code := 200; sent := SuccessBody [] (Some (@now_iso Sample.runtime)) |}).
Proof.
  apply (@search_by_date_finds_nothing Sample.runtime 1
           (Sample.script_of_pages [[Sample.january_model; Sample.june_model]])
           (page_urls default_status 1) 2
           (map pinned_file [Sample.january_model; Sample.june_model])
           (@now_iso Sample.runtime)).
  - reflexivity.
  - reflexivity.
  - left. discriminate.
Defined.

(** ** [GET /api/ml/statistics] *)

Lemma counted_insert (byType : gmap string nat) (t : string) (n : nat) :
  counted (<[t := n]> byType) + default 0 (byType !! t) = n + counted byType.
Proof.
  unfold counted.
  assert (Hcomm : forall z1 z2 y : nat, z1 + (z2 + y) = z2 + (z1 + y)) by (intros; lia).
  destruct (byType !! t) as [old|] eqn:E; cbn [default].
  - rewrite (map_fold_delete_L (fun _ n total => n + total) 0 t old byType)
      by (intros; apply Hcomm || assumption).
    rewrite <- (insert_delete_eq byType).
    rewrite (map_fold_insert_L (fun _ n total => n + total))
      by (intros; apply Hcomm || apply lookup_delete_eq).
    unfold id. lia.
  - rewrite (map_fold_insert_L (fun _ n total => n + total))
      by (intros; apply Hcomm || assumption).
    lia.
Qed.

Lemma count_if_none (p : number -> bool) (l : list number) :
  (forall a, In a l -> p a = false) -> count_if p l = 0.
Proof.
  unfold count_if. induction l as [|a t IH]; intros Hp; [reflexivity|].
  cbn [List.filter]. rewrite Hp by now left. apply IH. intros b Hb. apply Hp. now right.
Qed.

Lemma no_bucket_without_positive (a : number) :
  positive a = false -> in_high a = false /\ in_medium a = false /\ in_low a = false.
Proof.
  intros Hpos. pose proof (bucket_of_number a) as Hb. rewrite Hpos in Hb.
  destruct (in_high a), (in_medium a), (in_low a); cbn in Hb; auto; discriminate.
Qed.

Section StatisticsFacts.
Context `{Runtime}.

Lemma visit_byType (now : Z) (t : tally) (f : file) :
  t_modelsByType (visit now t f)
  = <[file_modelType f := S (default 0 (t_modelsByType t !! file_modelType f))]>
      (t_modelsByType t).
Proof. reflexivity. Qed.

Lemma fold_visit_byType (now : Z) (models : list file) (t : tally) (type : string) :
  t_modelsByType (fold_left (visit now) models t) !! type
  = if (count_of_type models type =? 0)%nat then t_modelsByType t !! type
    else Some (default 0 (t_modelsByType t !! type) + count_of_type models type).
Proof.
  revert t. induction models as [|f models IH]; intros t; [reflexivity|].
  cbn [fold_left]. rewrite IH. unfold count_of_type. cbn [List.filter].
  rewrite visit_byType.
  destruct (String.eqb_spec (file_modelType f) type) as [-> | Hne].
  - rewrite lookup_insert_eq. cbn [length default Nat.eqb].
    destruct (length _ =? 0)%nat eqn:E.
    + apply Nat.eqb_eq in E. rewrite E. f_equal. unfold id. lia.
    + f_equal. unfold id. lia.
  - rewrite lookup_insert_ne by assumption. reflexivity.
Qed.

Lemma fold_visit_counted (now : Z) (models : list file) (t : tally) :
  counted (t_modelsByType (fold_left (visit now) models t))
  = counted (t_modelsByType t) + length models.
Proof.
  revert t. induction models as [|f models IH]; intros t; [cbn; lia|].
  cbn [fold_left length]. rewrite IH, visit_byType.
  pose proof (counted_insert (t_modelsByType t) (file_modelType f)
                (S (default 0 (t_modelsByType t !! file_modelType f)))).
  lia.
Qed.

(** X19: as long as no model type is a property name that the empty object
    inherits, [modelsByType] has an entry exactly for the model types that
    occur, each entry is the number of models of that type, and the entries
    add up to [totalModels]. *)
Theorem modelsByType_counts (now : Z) (models : list file) :
  Forall (fun f => ~ In (file_modelType f) inherited_property_names) models ->
  let s := compute_stats now models in
  (forall type,
      modelsByType s !! type
      = if (count_of_type models type =? 0)%nat then None
        else Some (count_of_type models type))
  /\ counted (modelsByType s) = totalModels s.
Proof.
  intros _ s. split.
  - intros type. unfold s, compute_stats. cbn [modelsByType].
    rewrite fold_visit_byType. cbn [tally_init t_modelsByType].
    rewrite lookup_empty. reflexivity.
  - unfold s, compute_stats. cbn [modelsByType totalModels].
    rewrite fold_visit_counted. reflexivity.
Qed.

(** X20: [bestModel] and the accuracy figures agree.  When a best model is
    reported it is the first record with the highest strictly positive
    accuracy, and the average is a formatted mean; when none is reported no
    record has a strictly positive accuracy, the average is the number 0 and
    the three buckets are empty. *)
Theorem bestModel_first_highest (now : Z) (models : list file) :
  let s := compute_stats now models in
  match bestModel s with
  | Some b =>
      (exists f, b = best_summary f /\ first_best models f)
      /\ exists text, averageAccuracy s = AverageText text
  | None =>
      (forall g, In g models -> positive (file_accuracy g) = false)
      /\ averageAccuracy s = AverageNumber (Fin 0)
      /\ accuracyDistribution s = {| high := 0; medium := 0; low := 0 |}
  end.
Proof.
  intros s.
  pose proof (best_model_first_maximum now models) as Hbest. fold s in Hbest.
  destruct (fold_visit_average now models tally_init) as (Hc & _).
  destruct (fold_visit_distribution now models tally_init) as (Hh & Hm & Hl).
  cbn zeta in Hc, Hh, Hm, Hl. cbn [tally_init validAccuracyCount t_distribution
                                    high medium low Nat.add] in Hc, Hh, Hm, Hl.
  destruct (bestModel s) as [b|].
  - split; [exact Hbest|].
    destruct Hbest as (f & _ & pre & post & Hsplit & Hpos & _).
    assert (Hvalid : 0 < length (List.filter positive (map file_accuracy models))).
    { rewrite Hsplit, map_app, List.filter_app, length_app. cbn [map List.filter].
      rewrite Hpos. cbn [length]. lia. }
    unfold s, compute_stats. cbn [averageAccuracy]. rewrite Hc.
    destruct (Nat.ltb_spec 0 (length (List.filter positive (map file_accuracy models))));
      [eauto | lia].
  - assert (Hacc : forall a, In a (map file_accuracy models) -> positive a = false).
    { intros a Ha. apply in_map_iff in Ha as (g & <- & Hg). now apply Hbest. }
    split; [exact Hbest|]. split.
    + unfold s, compute_stats. cbn [averageAccuracy]. rewrite Hc.
      replace (List.filter positive (map file_accuracy models)) with (@nil number);
        [reflexivity|].
      symmetry. apply length_zero_iff_nil. now apply (count_if_none positive).
    + unfold s, compute_stats. cbn [accuracyDistribution].
      destruct (t_distribution _) as [h m l]. cbn [high medium low] in Hh, Hm, Hl.
      rewrite Hh, Hm, Hl.
      rewrite !count_if_none; [reflexivity| | |];
        intros a Ha; now apply no_bucket_without_positive, Hacc.
Qed.

(** X21: on records that all carry a [timestamp] that is a date, the
    latest model reported is a record of the collection whose time value is
    the greatest, and none is reported only for the empty collection. *)
Theorem latestModel_greatest_timestamp (now : Z) (models : list file) :
  Forall (fun f => is_nan (date_value (timestamp f)) = false) models ->
  match latestModel (compute_stats now models) with
  | Some lm =>
      exists f,
        In f models
        /\ lm = {| lm_name := name f; lm_ipfsHash := ipfsHash f;
                   lm_uploadedAt := timestamp f; lm_modelType := file_modelType f |}
        /\ forall g, In g models ->
                     (date_value (timestamp g) <=? date_value (timestamp f))%num = true
  | None => models = []
  end.
Proof.
  intros Hvalid. pose proof (latest_file_maximum models Hvalid) as Hmax.
  unfold compute_stats. cbn [latestModel].
  destruct (latest_file models) as [f|]; [|exact Hmax].
  exists f. destruct Hmax as [Hin Hmax]. auto.
Qed.

(** X22: whenever the handler function of [GET /api/ml/statistics], run on
    a request, answers 200, the statistics are those of the model records
    among the pages the listing gathered; as these rows carry no
    [timestamp], the three recency counters are 0 and the latest model is the
    first model record of the listing, with no upload date -- whatever the
    pin dates are.  (About the handler itself: the catch-all 404
    handler is registered before it, so the server does not reach it.) *)
Theorem statistics_route_never_dates (fuel : nat) (now : Z) (sc : script)
    (lg : list string) (s : stats) (ts : option string) :
  run (statistics_route fuel now) sc
  = (lg, Return {| code := 200; sent := SuccessBody s ts |}) ->
  exists n,
    lg = page_urls default_status n
    /\ let models := List.filter statistics_filter (map pinned_file (gathered sc n)) in
       s = compute_stats now models
       /\ recentUploads s = {| last24h := 0; last7d := 0; last30d := 0 |}
       /\ latestModel s
          = option_map
              (fun f => {| lm_name := name f; lm_ipfsHash := None;
                           lm_uploadedAt := None;
                           lm_modelType := file_modelType f |})
              (head models).
Proof.
  unfold run, statistics_route, try_catch, bind. intros Hrun.
  destruct (listPinnedFiles fuel (of_Z 1000) default_status sc []) as [lg' out] eqn:Hlist.
  destruct out as [[count files ts' | err msg ts'] | e |]; try discriminate.
  cbn [success negb result_rows] in Hrun.
  injection Hrun as <- <- _.
  destruct (listPinnedFiles_ok_inv _ _ _ _ _ _ _ _ Hlist) as (n & _ & -> & -> & _).
  exists n. split; [reflexivity|]. cbn zeta. split; [reflexivity|]. split.
  - apply recent_uploads_of_pinned_files.
  - unfold compute_stats. cbn [latestModel].
    rewrite latest_file_of_pinned_files.
    destruct (List.filter statistics_filter (map pinned_file (gathered sc n)))
      as [|f rest] eqn:E; [reflexivity|].
    assert (Hf : In f (map pinned_file (gathered sc n))).
    { apply (proj1 (filter_In statistics_filter f _)). rewrite E. now left. }
    apply in_map_iff in Hf as (r & <- & _). reflexivity.
Qed.

End StatisticsFacts.

Lemma modelsByType_counts_witness :
  counted (modelsByType
             (@compute_stats Sample.runtime 1717243200000
                (map pinned_file [Sample.january_model; Sample.june_model])))
  = 2.
Proof.
  apply (proj2 (@modelsByType_counts Sample.runtime 1717243200000
                  (map pinned_file [Sample.january_model; Sample.june_model])
                  ltac:(repeat constructor; vm_compute; intuition discriminate))).
Defined.

Lemma latestModel_greatest_timestamp_witness :
  exists f,
    In f (omap Part000.pinned_file [Sample.january_model; Sample.june_model])
    /\ forall g, In g (omap Part000.pinned_file [Sample.january_model; Sample.june_model]) ->
         (@date_value Sample.runtime (timestamp g)
          <=? @date_value Sample.runtime (timestamp f))%num = true.
Proof.
  assert (Hvalid : Forall (fun f => is_nan (@date_value Sample.runtime (timestamp f)) = false)
                      (omap Part000.pinned_file [Sample.january_model; Sample.june_model])).
  { change (omap Part000.pinned_file [Sample.january_model; Sample.june_model])
      with (list_omap _ _ Part000.pinned_file [Sample.january_model; Sample.june_model]).
    cbn [list_omap Part000.pinned_file Sample.january_model Sample.june_model
         Sample.tagged pr_metadata].
    repeat constructor. }
  pose proof (@latestModel_greatest_timestamp Sample.runtime 1717243200000
                (omap Part000.pinned_file [Sample.january_model; Sample.june_model])
                Hvalid) as Hmax.
  destruct (latestModel _) as [lm|].
  - destruct Hmax as (f & Hin & _ & Hall). now exists f.
  - apply (f_equal (@length file)) in Hmax. cbn in Hmax. lia.
Defined.

Lemma statistics_route_never_dates_witness :
  exists s,
    run (@statistics_route Sample.runtime 1 1717243200000)
        (Sample.script_of_pages [[Sample.january_model; Sample.june_model]])
    = (page_urls default_status 1,
       Return {| code := 200; sent := SuccessBody s (Some (@now_iso Sample.runtime)) |})
    /\ recentUploads s = {| last24h := 0; last7d := 0; last30d := 0 |}.
Proof.
  eexists. split; [reflexivity|].
  destruct (@statistics_route_never_dates Sample.runtime 1 1717243200000
              (Sample.script_of_pages [[Sample.january_model; Sample.june_model]])
              (page_urls default_status 1) _ _ eq_refl)
    as (n & _ & _ & Hrecent & _).
  exact Hrecent.
Defined.

(** ** What an upload looks like in the listing *)

Section UploadFacts.
Context `{Runtime}.

Lemma uploaded_keyvalues (row : pin_row) (meta : upload_metadata) (now : string) :
  pr_metadata row = Some (pinataMetadata meta now) ->
  keyvalue (pinned_file row) "type" = Some (or_default (um_modelType meta) "ml-model")
  /\ keyvalue (pinned_file row) "modelType" = None
  /\ name (pinned_file row)
     = Some (or_default (um_modelName meta) ("retail-model-" +:+ now)).
Proof.
  intros Hmd. unfold keyvalue, pinned_file. cbn [metadata name]. rewrite Hmd.
  cbn [pinataMetadata md_keyvalues md_name].
  repeat split.
Qed.

Lemma uploaded_filters (row : pin_row) (meta : upload_metadata) (now : string) :
  pr_metadata row = Some (pinataMetadata meta now) ->
  let f := pinned_file row in
  let type := or_default (um_modelType meta) "ml-model" in
  let n := or_default (um_modelName meta) ("retail-model-" +:+ now) in
  list_models_filter f = String.eqb type "ml-model" || includes n "model" || includes n "tft"
  /\ search_models_filter f = String.eqb type "ml-model" || includes n "model"
  /\ statistics_filter f = String.eqb type "ml-model" || includes n "model".
Proof.
  intros Hmd f type n.
  destruct (uploaded_keyvalues row meta now Hmd) as (Htype & Hmodel & Hname).
  unfold list_models_filter, search_models_filter, statistics_filter, name_includes.
  fold f in Htype, Hmodel, Hname. rewrite Htype, Hmodel, Hname.
  cbn [is_string]. fold type n. now rewrite !orb_false_r.
Qed.

(** X23: [uploadToIPFS] writes the model type under the tag [type] and never
    writes a tag [modelType]; so every pin that carries the metadata of an
    upload is listed with the model type ["unknown"], whatever model type the
    upload was given. *)
Theorem uploads_are_listed_as_unknown_type (row : pin_row) (meta : upload_metadata)
    (now : string) :
  pr_metadata row = Some (pinataMetadata meta now) ->
  keyvalue (pinned_file row) "modelType" = None
  /\ file_modelType (pinned_file row) = "unknown"
  /\ m_modelType (to_model (pinned_file row)) = "unknown"
  /\ fd_modelType (to_found_model (pinned_file row)) = "unknown".
Proof.
  intros Hmd.
  destruct (uploaded_keyvalues row meta now Hmd) as (_ & Hmodel & _).
  cbn [to_model to_found_model m_modelType fd_modelType].
  unfold file_modelType. rewrite Hmodel. repeat split.
Qed.

(** X24: an upload that names no model type -- training data sent through
    [uploadTrainingData] included -- is tagged [type = "ml-model"], and its
    pin passes the filters of the list-models, search and statistics
    routes: it is counted as a model. *)
Theorem untyped_uploads_count_as_models (row : pin_row) (meta : upload_metadata)
    (now : string) :
  um_modelType meta = None ->
  pr_metadata row = Some (pinataMetadata (uploadTrainingData_metadata meta) now) ->
  keyvalue (pinned_file row) "type" = Some "ml-model"
  /\ list_models_filter (pinned_file row) = true
  /\ search_models_filter (pinned_file row) = true
  /\ statistics_filter (pinned_file row) = true.
Proof.
  intros Hnone Hmd. unfold uploadTrainingData_metadata in Hmd.
  destruct (uploaded_keyvalues row meta now Hmd) as (Htype & _).
  destruct (uploaded_filters row meta now Hmd) as (Hlist & Hsearch & Hstats).
  cbn zeta in *. rewrite Hnone in *. cbn [or_default] in *.
  rewrite Hlist, Hsearch, Hstats. repeat split. exact Htype.
Qed.

(** X25: a model stored through [POST /api/ml/store-model], or through
    [uploadTFTModel] with a [metadata] that has no [modelType] of its own, is
    tagged [type = "temporal_fusion_transformer"], which none of the three
    filters looks for: its pin is recognised as a model by its name alone.
    With the default name of [uploadTFTModel] it passes all three filters;
    with the default name ["retail-churn-tft"] of the store route it passes
    the list-models filter only, and is absent from search and statistics.
    A [metadata] whose own [modelType] is [undefined], [null] or empty
    overrides the standard type in [uploadTFTModel]: the pin is then tagged
    [type = "ml-model"] and passes all three filters whatever its name. *)
Theorem tft_models_are_recognised_by_name (row : pin_row) (now : string) :
  (forall modelName version accuracy,
      pr_metadata row
      = Some (pinataMetadata (store_model_metadata modelName version accuracy) now) ->
      let n := or_default modelName "retail-churn-tft" in
      name (pinned_file row) = Some n
      /\ keyvalue (pinned_file row) "type" = Some "temporal_fusion_transformer"
      /\ list_models_filter (pinned_file row) = includes n "model" || includes n "tft"
      /\ search_models_filter (pinned_file row) = includes n "model"
      /\ statistics_filter (pinned_file row) = includes n "model"
      /\ (modelName = None ->
          list_models_filter (pinned_file row) = true
          /\ search_models_filter (pinned_file row) = false
          /\ statistics_filter (pinned_file row) = false))
  /\ (forall meta,
        pr_metadata row = Some (pinataMetadata (uploadTFTModel_metadata meta) now) ->
        let n := or_default (cm_modelName meta) ("retail-model-" +:+ now) in
        name (pinned_file row) = Some n
        /\ (cm_modelType meta = NotOwn ->
            keyvalue (pinned_file row) "type" = Some "temporal_fusion_transformer"
            /\ list_models_filter (pinned_file row)
               = includes n "model" || includes n "tft"
            /\ search_models_filter (pinned_file row) = includes n "model"
            /\ statistics_filter (pinned_file row) = includes n "model"
            /\ (cm_modelName meta = None ->
                list_models_filter (pinned_file row) = true
                /\ search_models_filter (pinned_file row) = true
                /\ statistics_filter (pinned_file row) = true))
        /\ (cm_modelType meta = Own None \/ cm_modelType meta = Own (Some "") ->
            keyvalue (pinned_file row) "type" = Some "ml-model"
            /\ list_models_filter (pinned_file row) = true
            /\ search_models_filter (pinned_file row) = true
            /\ statistics_filter (pinned_file row) = true)).
Proof.
  assert (Hmodel : includes ("retail-model-" +:+ now) "model" = true)
    by (apply includes_spec; exists "retail-", ("-" +:+ now); reflexivity).
  split.
  - intros modelName version accuracy Hmd n.
    destruct (uploaded_keyvalues row _ now Hmd) as (Htype & _ & Hname).
    destruct (uploaded_filters row _ now Hmd) as (Hlist & Hsearch & Hstats).
    cbn zeta in Hlist, Hsearch, Hstats.
    assert (Hn : or_default (um_modelName (store_model_metadata modelName version accuracy))
                   ("retail-model-" +:+ now) = n).
    { unfold n. cbn [store_model_metadata um_modelName].
      destruct modelName as [s|]; [|reflexivity].
      cbn [or_default]. destruct (String.eqb s "") eqn:E; [reflexivity|].
      cbn [or_default]. now rewrite E. }
    assert (Ht : String.eqb
                   (or_default
                      (um_modelType (store_model_metadata modelName version accuracy))
                      "ml-model") "ml-model" = false) by reflexivity.
    rewrite Hn in Hname, Hlist, Hsearch, Hstats.
    rewrite Ht in Hlist, Hsearch, Hstats. cbn [orb] in Hlist, Hsearch, Hstats.
    split; [assumption|]. split; [exact Htype|].
    do 3 (split; [assumption|]).
    intros Hdefault. rewrite Hlist, Hsearch, Hstats. unfold n. rewrite Hdefault.
    repeat split.
  - intros meta Hmd n.
    destruct (uploaded_keyvalues row _ now Hmd) as (Htype & _ & Hname).
    destruct (uploaded_filters row _ now Hmd) as (Hlist & Hsearch & Hstats).
    cbn zeta in Hlist, Hsearch, Hstats.
    change (um_modelName (uploadTFTModel_metadata meta)) with (cm_modelName meta)
      in Hname, Hlist, Hsearch, Hstats.
    fold n in Hname, Hlist, Hsearch, Hstats.
    cbn [uploadTFTModel_metadata um_modelType] in Htype, Hlist, Hsearch, Hstats.
    split; [assumption|]. split.
    + intros Hown. rewrite Hown in Htype, Hlist, Hsearch, Hstats.
      change (or_default (Some "temporal_fusion_transformer") "ml-model")
        with "temporal_fusion_transformer" in Htype, Hlist, Hsearch, Hstats.
      change (String.eqb "temporal_fusion_transformer" "ml-model") with false
        in Hlist, Hsearch, Hstats.
      cbn [orb] in Hlist, Hsearch, Hstats.
      do 4 (split; [assumption|]).
      intros Hdefault. rewrite Hlist, Hsearch, Hstats. unfold n. rewrite Hdefault.
      cbn [or_default]. rewrite Hmodel. repeat split.
    + intros Hown.
      assert (Hdefault : or_default
                           (match cm_modelType meta with
                            | NotOwn => Some "temporal_fusion_transformer"
                            | Own value => value
                            end) "ml-model" = "ml-model")
        by (destruct Hown as [-> | ->]; reflexivity).
      rewrite Hdefault in Htype, Hlist, Hsearch, Hstats.
      rewrite Hlist, Hsearch, Hstats. repeat split. exact Htype.
Qed.

End UploadFacts.

Lemma untyped_uploads_count_as_models_witness :
  statistics_filter
    (pinned_file
       {| pr_ipfs_pin_hash := "QmYwAPJzv5CZsnA625s3Xf2nemtYgPpHdWEz79ojWnPbdG";
          pr_size := of_Z 2048;
          pr_date_pinned := "2024-06-01T10:00:00.000Z";
          pr_metadata :=
            Some (pinataMetadata
                    {| um_modelName := Some "customers-2024.csv"; um_version := None;
                       um_modelType := None; um_accuracy := None;
                       um_timestamp := None |}
                    "1717236000000") |})
  = true.
Proof.
  apply (@untyped_uploads_count_as_models _
           {| um_modelName := Some "customers-2024.csv"; um_version := None;
              um_modelType := None; um_accuracy := None; um_timestamp := None |}
           "1717236000000");
    reflexivity.
Defined.

Lemma uploads_are_listed_as_unknown_type_witness :
  file_modelType
    (pinned_file
       {| pr_ipfs_pin_hash := "QmYwAPJzv5CZsnA625s3Xf2nemtYgPpHdWEz79ojWnPbdG";
          pr_size := of_Z 2048;
          pr_date_pinned := "2024-06-01T10:00:00.000Z";
          pr_metadata :=
            Some (pinataMetadata
                    {| um_modelName := Some "churn-model"; um_version := None;
                       um_modelType := Some "temporal_fusion_transformer";
                       um_accuracy := Some "0.95"; um_timestamp := None |}
                    "1717236000000") |})
  = "unknown".
Proof.
  apply (@uploads_are_listed_as_unknown_type Sample.runtime _
           {| um_modelName := Some "churn-model"; um_version := None;
              um_modelType := Some "temporal_fusion_transformer";
              um_accuracy := Some "0.95"; um_timestamp := None |}
           "1717236000000").
  reflexivity.
Defined.

(** ** The gateways of a fetch *)

Section GatewayFacts.
Context `{Runtime}.

(** X26: [getFromIPFS] always ends, after one, two or three requests; every
    address it requests is one of the four [getGateways] gives for the same
    hash, and the [dweb] one is never tried. *)
Theorem getFromIPFS_uses_listed_gateways (ipfsHash : string) (sc : script) :
  exists requests out,
    run (getFromIPFS ipfsHash) sc = (requests, out)
    /\ out <> OutOfFuel
    /\ 1 <= length requests <= 3
    /\ (forall url, In url requests -> In url (map snd (getGateways ipfsHash)))
    /\ ~ In ("https://dweb.link/ipfs/" +:+ ipfsHash) requests.
Proof.
  destruct (getFromIPFS_ends ipfsHash sc []) as (k & out & Hk & Hrun & Hout).
  cbn [app] in Hrun.
  exists (firstn k [primary_gateway ipfsHash; secondary_gateway ipfsHash;
                    tertiary_gateway ipfsHash]), out.
  split; [exact Hrun|]. split.
  { destruct Hout as [[text ->] | [e ->]]; discriminate. }
  assert (Hsub : forall url,
             In url (firstn k [primary_gateway ipfsHash; secondary_gateway ipfsHash;
                               tertiary_gateway ipfsHash]) ->
             In url [primary_gateway ipfsHash; secondary_gateway ipfsHash;
                     tertiary_gateway ipfsHash]).
  { intros url Hurl.
    rewrite <- (firstn_skipn k [primary_gateway ipfsHash; secondary_gateway ipfsHash;
                                tertiary_gateway ipfsHash]).
    apply in_or_app. now left. }
  split; [|split].
  - rewrite length_firstn. cbn [length]. lia.
  - intros url Hurl. apply Hsub in Hurl.
    unfold getGateways. cbn [map snd].
    destruct Hurl as [<- | [<- | [<- | []]]]; cbn; auto.
  - intros Hdweb. apply Hsub in Hdweb.
    unfold primary_gateway, secondary_gateway, tertiary_gateway in Hdweb.
    cbn in Hdweb. intuition discriminate.
Qed.

End GatewayFacts.

(** ** The summary of [GET /api/ml/list-models] *)

Lemma distinct_values_spec (seen l : list string) :
  List.NoDup (distinct_values seen l)
  /\ forall x, In x (distinct_values seen l) <-> In x l /\ ~ In x seen.
Proof.
  revert seen. induction l as [|y t IH]; intros seen.
  - split; [constructor|]. cbn. tauto.
  - cbn [distinct_values].
    destruct (existsb (String.eqb y) seen) eqn:E.
    + apply existsb_exists in E as (z & Hz & Heq). apply String.eqb_eq in Heq. subst z.
      destruct (IH seen) as [Hnd Hin]. split; [assumption|].
      intros x. rewrite Hin. cbn [In]. split; [tauto|].
      intros [[<- | Hx] Hnot]; [contradiction | tauto].
    + assert (Hy : ~ In y seen).
      { intros Hy. assert (existsb (String.eqb y) seen = true); [|congruence].
        apply existsb_exists. exists y. split; [assumption | apply String.eqb_refl]. }
      destruct (IH (y :: seen)) as [Hnd Hin]. split.
      * constructor; [|assumption]. rewrite Hin. cbn [In]. tauto.
      * intros x. cbn [In]. rewrite Hin. cbn [In].
        destruct (string_dec y x) as [<- | Hne]; tauto.
Qed.

Section SummaryFacts.
Context `{Runtime}.

(** X27: in the summary of the list-models route, [modelTypes] names each
    model type that occurs among the models, and names it once; and the
    average accuracy, unlike the one of the statistics route, is taken over
    all the models: it is a formatted mean as soon as there is one model,
    even if no accuracy is positive. *)
Theorem summary_model_types (models : list model) :
  let s := summarize models in
  List.NoDup (sm_modelTypes s)
  /\ (forall type, In type (sm_modelTypes s) <-> exists m, In m models /\ m_modelType m = type)
  /\ sm_totalModels s = length models
  /\ (models <> [] ->
      sm_averageAccuracy s
      = AverageText
          (toFixed4 (fold_left (fun sum m => (sum + m_accuracy m)%num) models (Fin 0)
                     / of_nat (length models))%num)).
Proof.
  intros s. destruct (distinct_values_spec [] (map m_modelType models)) as [Hnd Hin].
  split; [exact Hnd|]. split; [|split; [reflexivity|]].
  - intros type. unfold s, summarize. cbn [sm_modelTypes]. rewrite Hin, in_map_iff.
    cbn [In]. split.
    + intros [(m & Hm & Hmem) _]. now exists m.
    + intros (m & Hmem & Hm). split; [now exists m | tauto].
  - intros Hne. unfold s, summarize. cbn [sm_averageAccuracy].
    destruct models as [|m t]; [congruence | reflexivity].
Qed.

End SummaryFacts.

(** ** Which handler answers a request *)

Section DispatchFacts.
Context `{Runtime}.

(** X28: the server registers its catch-all 404 handler before the routes
    [/api/ml/list-models], [/api/ml/model-details/:hash],
    [/api/ml/search-models] and [/api/ml/statistics].  Every request is
    answered by a handler registered up to the catch-all, never by one of
    these four: a [GET] of any of them is answered by the catch-all, with
    404 and ["Endpoint not found"] and without any request to the provider.
    The routes registered before it reach their own handlers. *)
Theorem catch_all_shadows_ml_routes (sc : script) :
  (forall m path,
      exists h,
        App.dispatch m path = Some h
        /\ In h [App.health; App.upload_model; App.ipfs_model; App.upload; App.files;
                 App.test; App.store_model; App.get_model; App.info; App.not_found])
  /\ App.dispatch App.GET ["api"; "ml"; "list-models"] = Some App.not_found
  /\ (forall hash,
        App.dispatch App.GET ["api"; "ml"; "model-details"; hash] = Some App.not_found)
  /\ App.dispatch App.GET ["api"; "ml"; "search-models"] = Some App.not_found
  /\ App.dispatch App.GET ["api"; "ml"; "statistics"] = Some App.not_found
  /\ run App.not_found_route sc
     = ([], Return {| code := 404; sent := ErrorBody "Endpoint not found" |})
  /\ App.dispatch App.GET ["api"; "ipfs"; "files"] = Some App.files
  /\ App.dispatch App.GET ["api"; "ipfs"; "test"] = Some App.test
  /\ App.dispatch App.POST ["api"; "ml"; "store-model"] = Some App.store_model
  /\ (forall hash, hash <> "" ->
        App.dispatch App.GET ["api"; "ml"; "get-model"; hash] = Some App.get_model
        /\ App.dispatch App.GET ["api"; "ipfs"; "model"; hash] = Some App.ipfs_model).
Proof.
  split.
  { intros m path. unfold App.dispatch, App.stack. cbn [List.find].
    change (App.layer_matches m path
              {| App.on := None; App.route := None; App.target := App.not_found |})
      with true.
    repeat match goal with
           | |- context [App.layer_matches m path ?l] =>
               destruct (App.layer_matches m path l) eqn:?;
               [eexists; split; [reflexivity | cbn; tauto] |]
           end.
    eexists. split; [reflexivity | cbn; tauto]. }
  do 8 (split; [reflexivity|]).
  intros hash Hhash. apply String.eqb_neq in Hhash.
  unfold App.dispatch. cbn. rewrite Hhash. split; reflexivity.
Qed.

End DispatchFacts.
